(** * UiPath XAML linter (scripts/UiPath-XAML-Lint.ps1): model and properties

    A shallow embedding of the PowerShell linter.  The script works on the
    raw text of a workflow document with .NET regular expressions, keeps its
    findings in a mutable [ValidationResult] and turns them into a report and
    a process exit code.

    Conventions of the model
    - Text is a [string]: a character of the model is a character of the
      document with a code below 256.  Patterns fold letter case on the
      ASCII letters (every pattern of the script is written in ASCII), and
      [\s] is the white space of .NET among these characters.  The
      comparisons of strings ([-contains], [-eq], the keys of a [@{}]
      hashtable) fold the ASCII letters, which is what they do on texts of
      printable ASCII characters; a statement that depends on such a
      comparison of texts taken from the document says so.
    - A regular expression is a term of [regex]; [run] lists the ways it can
      match at a position in the order in which the backtracking matcher of
      .NET tries them, so the head of the list is the match that .NET
      reports.
    - A rule [Test-...] that mutates [$Result] is a function from the result
      before the call to the result after it.
    - What lies outside the script (the XML parser behind the [xml] cast, the
      file system, the project.json reader) and the rules that no statement
      below is about are the fields of the class [Host]; the statements about
      the pipeline and the entry point hold for every host.
    - The entry point is modelled for invocations without
      [-NamespaceRegistry]. *)

From Stdlib Require Import Ascii String List Arith Bool Lia Permutation.
From stdpp Require Import gmap strings list fin_maps.
Import ListNotations.

Set Warnings "-register-all".


(** ** Characters and strings *)

(** The double quote, written by its code. *)
Definition dquote : ascii := "034"%char.

(** [qq s] is [s] with every apostrophe replaced by a double quote; sample
    documents are written with apostrophes and passed through [qq]. *)
Fixpoint qq (s : string) : string :=
  match s with
  | EmptyString => EmptyString
  | String c s' => String (if Ascii.eqb c "'"%char then dquote else c) (qq s')
  end.

Definition is_upper (c : ascii) : bool :=
  (65 <=? nat_of_ascii c) && (nat_of_ascii c <=? 90).

Definition is_lower (c : ascii) : bool :=
  (97 <=? nat_of_ascii c) && (nat_of_ascii c <=? 122).

Definition to_lower (c : ascii) : ascii :=
  if is_upper c then ascii_of_nat (nat_of_ascii c + 32) else c.

Definition to_upper (c : ascii) : ascii :=
  if is_lower c then ascii_of_nat (nat_of_ascii c - 32) else c.

Fixpoint lower (s : string) : string :=
  match s with
  | EmptyString => EmptyString
  | String c s' => String (to_lower c) (lower s')
  end.

(** Case-insensitive equality of strings ([-eq], [-contains]). *)
Definition eq_ci (a b : string) : bool := String.eqb (lower a) (lower b).

(** [$list -join sep] *)
Fixpoint join (sep : string) (l : list string) : string :=
  match l with
  | [] => EmptyString
  | [x] => x
  | x :: rest => x +:+ sep +:+ join sep rest
  end.

(** [$s.StartsWith($p)] *)
Definition StartsWith (p s : string) : bool := String.prefix p s.

(** [$s.Substring($start, $len)] for a range inside the string. *)
Definition Substring (start len : nat) (s : string) : string :=
  String.substring start len s.

(** [$list | Select-Object -Unique]: the first occurrence of every value,
    compared with regard to case. *)
Fixpoint Select_Unique_aux (seen l : list string) : list string :=
  match l with
  | [] => []
  | x :: rest =>
      if existsb (String.eqb x) seen then Select_Unique_aux seen rest
      else x :: Select_Unique_aux (x :: seen) rest
  end.

Definition Select_Unique (l : list string) : list string :=
  Select_Unique_aux [] l.

(** Decimal rendering of a number inside an interpolated string. *)
Definition digit_char (n : nat) : ascii := ascii_of_nat (48 + n).

Fixpoint nat_to_string_aux (fuel n : nat) (acc : string) : string :=
  match fuel with
  | 0 => acc
  | S fuel' =>
      let acc' := String (digit_char (n mod 10)) acc in
      if n / 10 =? 0 then acc' else nat_to_string_aux fuel' (n / 10) acc'
  end.

Definition nat_to_string (n : nat) : string :=
  nat_to_string_aux (S n) n EmptyString.

(** ** Regular expressions *)

(** An item of a bracket expression. *)
Inductive citem : Type :=
| CChar (c : ascii)            (* a single character *)
| CRange (lo hi : ascii)       (* lo-hi *)
| CSpace.                      (* \s *)

Inductive regex : Type :=
| REps                                   (* the empty pattern *)
| RChr (c : ascii)                       (* a literal character *)
| RSet (neg : bool) (items : list citem) (* [...] and [^...] *)
| RAny                                   (* . : any character but line feed *)
| RSeq (r1 r2 : regex)                   (* r1r2 *)
| RAlt (r1 r2 : regex)                   (* r1|r2 *)
| RStar (r : regex)                      (* r*, greedy *)
| RGroup (n : nat) (r : regex)           (* the n-th capturing group (r) *)
| RNotAhead (r : regex)                  (* (?!r) *)
| RNotBehind (items : list citem).       (* (?<![...]) *)

(** Literal text. *)
Fixpoint lit (s : string) : regex :=
  match s with
  | EmptyString => REps
  | String c EmptyString => RChr c
  | String c s' => RSeq (RChr c) (lit s')
  end.

(** A sequence of patterns. *)
Fixpoint rseq (l : list regex) : regex :=
  match l with
  | [] => REps
  | [r] => r
  | r :: rest => RSeq r (rseq rest)
  end.

(** An alternation of patterns, in order. *)
Fixpoint ralt (l : list regex) : regex :=
  match l with
  | [] => RSet false []
  | [r] => r
  | r :: rest => RAlt r (ralt rest)
  end.

(** r+ , r? and r{n,} *)
Definition RPlus (r : regex) : regex := RSeq r (RStar r).
Definition ROpt (r : regex) : regex := RAlt r REps.
Fixpoint RAtLeast (n : nat) (r : regex) : regex :=
  match n with
  | 0 => RStar r
  | S n' => RSeq r (RAtLeast n' r)
  end.

(** \s and the classes the script spells out. *)
Definition ws : regex := RSet false [CSpace].
Definition alnum_ : list citem :=
  [CRange "a" "z"; CRange "A" "Z"; CRange "0" "9"; CChar "_"]%char.
Definition letters : list citem := [CRange "a" "z"; CRange "A" "Z"]%char.
Definition not_dquote : regex := RSet true [CChar dquote].
Definition not_gt : regex := RSet true [CChar ">"%char].

(** The state of the matcher: the character before the position, the text
    from the position on, the groups captured so far, and the number of
    characters consumed since the attempt began. *)
Record mstate : Type := MState {
  st_prev : option ascii;
  st_rest : string;
  st_caps : list (nat * string);
  st_pos : nat
}.

Definition chr_eq (ic : bool) (c a : ascii) : bool :=
  if ic then Ascii.eqb (to_lower c) (to_lower a) else Ascii.eqb c a.

(** The characters that \s matches: tab, line feed, vertical tab, form
    feed, carriage return and space, and among the codes from 128 to 255
    NEXT LINE (133) and NO-BREAK SPACE (160). *)
Definition is_white_space (a : ascii) : bool :=
  Ascii.is_space a || (nat_of_ascii a =? 133) || (nat_of_ascii a =? 160).

Definition item_mem (it : citem) (a : ascii) : bool :=
  match it with
  | CChar c => Ascii.eqb c a
  | CRange lo hi => (nat_of_ascii lo <=? nat_of_ascii a) && (nat_of_ascii a <=? nat_of_ascii hi)
  | CSpace => is_white_space a
  end.

(** Membership in a bracket expression; without regard to case, a letter is
    a member when either of its two cases is. *)
Definition set_mem (ic : bool) (items : list citem) (a : ascii) : bool :=
  existsb (fun it => item_mem it a
                     || (ic && (item_mem it (to_lower a) || item_mem it (to_upper a))))
          items.

Definition line_feed : ascii := "010"%char.

(** Consume one character that satisfies [p]. *)
Definition eat (p : ascii -> bool) (st : mstate) : list mstate :=
  match st_rest st with
  | String a s' => if p a then [MState (Some a) s' (st_caps st) (S (st_pos st))] else []
  | EmptyString => []
  end.

(** Greedy iteration of a step: one more round first, then stopping here.
    A round that consumes nothing is not repeated.  [fuel] bounds the number
    of rounds; [run] starts it above the length of the remaining text. *)
Fixpoint star_run (step : mstate -> list mstate) (fuel : nat) (st : mstate)
  : list mstate :=
  match fuel with
  | 0 => [st]
  | S fuel' =>
      flat_map (fun st' =>
                  if st_pos st <? st_pos st' then star_run step fuel' st' else [])
               (step st)
      ++ [st]
  end.

(** The text consumed between two states of one match. *)
Definition consumed (st st' : mstate) : string :=
  Substring 0 (st_pos st' - st_pos st) (st_rest st).

Definition set_cap (n : nat) (v : string) (st : mstate) : mstate :=
  MState (st_prev st) (st_rest st) ((n, v) :: st_caps st) (st_pos st).

(** All the ways [r] matches at [st], first choice first.  [ic] is
    RegexOptions.IgnoreCase. *)
Fixpoint run (ic : bool) (r : regex) (st : mstate) : list mstate :=
  match r with
  | REps => [st]
  | RChr c => eat (chr_eq ic c) st
  | RSet neg items => eat (fun a => xorb neg (set_mem ic items a)) st
  | RAny => eat (fun a => negb (Ascii.eqb a line_feed)) st
  | RSeq r1 r2 => flat_map (run ic r2) (run ic r1 st)
  | RAlt r1 r2 => run ic r1 st ++ run ic r2 st
  | RStar r1 => star_run (run ic r1) (S (String.length (st_rest st))) st
  | RGroup n r1 => map (fun st' => set_cap n (consumed st st') st') (run ic r1 st)
  | RNotAhead r1 => match run ic r1 st with [] => [st] | _ :: _ => [] end
  | RNotBehind items =>
      match st_prev st with
      | None => [st]
      | Some a => if set_mem ic items a then [] else [st]
      end
  end.

(** Every position of a text, left to right, the end included. *)
Fixpoint starts (prev : option ascii) (s : string) : list mstate :=
  MState prev s [] 0 ::
  match s with
  | EmptyString => []
  | String c s' => starts (Some c) s'
  end.

Definition matches_at (ic : bool) (r : regex) (st : mstate) : bool :=
  match run ic r st with [] => false | _ :: _ => true end.

(** [$s -match $pattern]: a match somewhere, letter case ignored. *)
Definition ps_match (r : regex) (s : string) : bool :=
  existsb (matches_at true r) (starts None s).

(** One element of [[regex]::Matches]. *)
Record Match : Type := MkMatch {
  Index : nat;
  Value : string;
  Groups : list (nat * string)
}.

Definition Group (n : nat) (m : Match) : string :=
  match find (fun p => fst p =? n) (Groups m) with
  | Some p => snd p
  | None => EmptyString
  end.

(** The scan of [[regex]::Matches]: at each position the first way to match
    is taken and the scan resumes where the match ended, or one character
    further after an empty match.  [skip] counts the characters still inside
    the last match. *)
Fixpoint scan (ic : bool) (r : regex) (skip index : nat) (prev : option ascii)
  (s : string) : list Match :=
  match skip with
  | S skip' =>
      match s with
      | EmptyString => []
      | String c s' => scan ic r skip' (S index) (Some c) s'
      end
  | 0 =>
      let st := MState prev s [] 0 in
      match run ic r st with
      | st' :: _ =>
          MkMatch index (consumed st st') (st_caps st') ::
          match s with
          | EmptyString => []
          | String c s' =>
              scan ic r (st_pos st' - 1) (S index) (Some c) s'
          end
      | [] =>
          match s with
          | EmptyString => []
          | String c s' => scan ic r 0 (S index) (Some c) s'
          end
      end
  end.

(** [st'] is a position of the same text, [st_pos st' - st_pos st]
    characters after [st]. *)
Definition advances (st st' : mstate) : Prop :=
  st_pos st <= st_pos st'
  /\ String.length (st_rest st') + (st_pos st' - st_pos st) = String.length (st_rest st).

(** [[regex]::Matches($s, $pattern)]: letter case matters. *)
Definition regex_Matches (r : regex) (s : string) : list Match :=
  scan false r 0 0 None s.

(** ** PowerShell values *)

(** What a variable holds after [$v = <pipeline>]: nothing when the pipeline
    wrote no object, the object itself when it wrote one, an array when it
    wrote several. *)
Inductive Collected (A : Type) : Type :=
| CNone
| COne (a : A)
| CMany (l : list A).

Arguments CNone {A}.
Arguments COne {A} a.
Arguments CMany {A} l.

Definition collect {A : Type} (l : list A) : Collected A :=
  match l with
  | [] => CNone
  | [a] => COne a
  | _ => CMany l
  end.

(** [foreach ($x in $v)] runs over nothing, the one object, or the array. *)
Definition enum {A : Type} (v : Collected A) : list A :=
  match v with
  | CNone => []
  | COne a => [a]
  | CMany l => l
  end.

(** [$v.Count] *)
Definition Count {A : Type} (v : Collected A) : nat := length (enum v).

(** [$v += $w] on collected strings.  With nothing on the left the result is
    the right operand; a string on the left makes [+] a concatenation, an
    array on the right being joined with spaces first; an array on the left
    is extended.  (When [$w] is empty PowerShell may extend the array by a
    null element; with a null key both statements of the loop body of
    Test-HR5-IdRefUniqueness fail and change nothing, so the element is not
    represented.) *)
Definition ps_add (v w : Collected string) : Collected string :=
  match v with
  | CNone => w
  | COne a =>
      match w with
      | CNone => COne a
      | COne b => COne (a +:+ b)
      | CMany l => COne (a +:+ join " " l)
      end
  | CMany l => CMany (l ++ enum w)
  end.

(** The objects that ToHashtable builds and ConvertTo-Json prints. *)
Inductive PSObject : Type :=
| PSNull
| PSBool (b : bool)
| PSInt (n : nat)
| PSString (s : string)
| PSArray (l : list PSObject)
| PSHash (l : list (string * PSObject)).

Definition of_collected (v : Collected PSObject) : PSObject :=
  match v with
  | CNone => PSNull
  | COne a => a
  | CMany l => PSArray l
  end.

Definition PSOptString (o : option string) : PSObject :=
  match o with
  | Some s => PSString s
  | None => PSNull
  end.

(** ** Hashtables

    A [@{}] hashtable compares its string keys without regard to case and
    keeps the spelling of a key from the first time it is written.  The map
    is indexed by the folded key and stores the spelling next to the
    value. *)

Definition ht_ContainsKey {V : Type} (h : gmap string (string * V)) (k : string) : bool :=
  match h !! lower k with
  | Some _ => true
  | None => false
  end.

Definition ht_get {V : Type} (h : gmap string (string * V)) (k : string) : option V :=
  snd <$> h !! lower k.

(** [$h[$k] = $v] *)
Definition ht_set {V : Type} (h : gmap string (string * V)) (k : string) (v : V)
  : gmap string (string * V) :=
  match h !! lower k with
  | Some (k0, _) => <[lower k := (k0, v)]> h
  | None => <[lower k := (k, v)]> h
  end.

(** [$h.Keys]; the order of a hashtable is not specified. *)
Definition ht_Keys {V : Type} (h : gmap string (string * V)) : list string :=
  (fun kv => fst (snd kv)) <$> map_to_list h.

Definition ht_entries {V : Type} (h : gmap string (string * V)) : list (string * V) :=
  snd <$> map_to_list h.

(** [$list | Sort-Object] on strings: the order of the culture, without
    regard to case.  On the characters of a namespace prefix
    ([A-Za-z0-9_]) that is underscore, then digits, then letters. *)
Definition sort_weight (c : ascii) : nat :=
  if Ascii.eqb c "_"%char then 0 else nat_of_ascii (to_lower c).

Fixpoint sort_le (a b : string) : bool :=
  match a, b with
  | EmptyString, _ => true
  | String _ _, EmptyString => false
  | String x a', String y b' =>
      if sort_weight x <? sort_weight y then true
      else if sort_weight y <? sort_weight x then false
      else sort_le a' b'
  end.

Fixpoint sort_insert (x : string) (l : list string) : list string :=
  match l with
  | [] => [x]
  | y :: rest => if sort_le x y then x :: l else y :: sort_insert x rest
  end.

Definition Sort_Object (l : list string) : list string :=
  fold_right sort_insert [] l.

(** ** Data model (the classes of the script) *)

Inductive severity : Type := ERROR | WARNING | INFO.

Inductive status : Type := PASS | FAIL | WARN | NA.

Definition severity_eqb (a b : severity) : bool :=
  match a, b with
  | ERROR, ERROR | WARNING, WARNING | INFO, INFO => true
  | _, _ => false
  end.

Definition severity_name (s : severity) : string :=
  match s with
  | ERROR => "ERROR"
  | WARNING => "WARNING"
  | INFO => "INFO"
  end.

Definition status_name (s : status) : string :=
  match s with
  | PASS => "PASS"
  | FAIL => "FAIL"
  | WARN => "WARN"
  | NA => "N/A"
  end.

(** class ValidationIssue *)
Record ValidationIssue : Type := MkIssue {
  Rule : string;
  Severity : severity;
  Message : string;
  Line : nat;
  Element : option string
}.

(** [[ValidationIssue]::new()] followed by the three assignments every rule
    makes; no rule of the script sets Line or Element. *)
Definition new_issue (rule : string) (sev : severity) (msg : string) : ValidationIssue :=
  MkIssue rule sev msg 0 None.

(** The hashtable that Get-ProjectContext returns; [dependencies] is the
    value it stored under that key. *)
Record project_context : Type := MkContext {
  language : string;
  compatibility : string;
  dependencies : PSObject;
  projectPath : option string
}.

(** class ValidationResult *)
Record ValidationResult : Type := MkResult {
  FilePath : string;
  IsValid : bool;
  Issues : list ValidationIssue;
  HRCompliance : gmap string (string * status);
  ProjectContext : project_context
}.

(** [$Result.Issues.Add($issue) | Out-Null] *)
Definition add_issue (i : ValidationIssue) (r : ValidationResult) : ValidationResult :=
  MkResult (FilePath r) (IsValid r) (Issues r ++ [i]) (HRCompliance r) (ProjectContext r).

(** [$Result.HRCompliance[$rule] = $status] *)
Definition set_compliance (rule : string) (s : status) (r : ValidationResult)
  : ValidationResult :=
  MkResult (FilePath r) (IsValid r) (Issues r) (ht_set (HRCompliance r) rule s)
           (ProjectContext r).

Definition set_IsValid (b : bool) (r : ValidationResult) : ValidationResult :=
  MkResult (FilePath r) b (Issues r) (HRCompliance r) (ProjectContext r).

(** [$Result.HRCompliance[$rule]] *)
Definition compliance (r : ValidationResult) (rule : string) : option status :=
  ht_get (HRCompliance r) rule.

Definition is_error (i : ValidationIssue) : bool := severity_eqb (Severity i) ERROR.
Definition is_warning (i : ValidationIssue) : bool := severity_eqb (Severity i) WARNING.

(** [($issues | Where-Object { $_.Severity -eq $sev }).Count] *)
Definition count_severity (sev : severity) (l : list ValidationIssue) : nat :=
  length (List.filter (fun i => severity_eqb (Severity i) sev) l).

(** ValidationResult.ToHashtable *)
Definition issue_hashtable (i : ValidationIssue) : PSObject :=
  PSHash [("rule", PSString (Rule i));
          ("severity", PSString (severity_name (Severity i)));
          ("message", PSString (Message i));
          ("line", PSInt (Line i));
          ("element", PSOptString (Element i))].

Definition context_hashtable (c : project_context) : PSObject :=
  PSHash [("language", PSString (language c));
          ("compatibility", PSString (compatibility c));
          ("dependencies", dependencies c);
          ("projectPath", PSOptString (projectPath c))].

Definition ToHashtable (this : ValidationResult) : PSObject :=
  PSHash [("file_path", PSString (FilePath this));
          ("is_valid", PSBool (IsValid this));
          ("error_count", PSInt (count_severity ERROR (Issues this)));
          ("warning_count", PSInt (count_severity WARNING (Issues this)));
          ("issues", of_collected (collect (map issue_hashtable (Issues this))));
          ("hr_compliance",
           PSHash (map (fun kv => (fst kv, PSString (status_name (snd kv))))
                       (ht_entries (HRCompliance this))));
          ("project_context", context_hashtable (ProjectContext this))].

(** The field of a hashtable object. *)
Definition field (k : string) (o : PSObject) : option PSObject :=
  match o with
  | PSHash l => snd <$> find (fun kv => String.eqb (fst kv) k) l
  | _ => None
  end.

Definition is_list (o : PSObject) : bool :=
  match o with
  | PSArray _ => true
  | _ => false
  end.

(** ** The rules

    In the patterns quoted in the comments an apostrophe stands for the
    double quote of the script, and a star is kept apart from a closing
    parenthesis that follows it. *)

Definition quote_class : list citem := [CChar dquote; CChar "'"%char].

(** Get-Namespaces: xmlns:?([a-zA-Z0-9_]* )=[Q]([^Q]+)[Q] where Q is a double
    quote or an apostrophe. *)
Definition namespace_pattern : regex :=
  rseq [lit "xmlns"; ROpt (RChr ":"%char); RGroup 1 (RStar (RSet false alnum_));
        RChr "="%char; RSet false quote_class;
        RGroup 2 (RPlus (RSet true quote_class)); RSet false quote_class].

Definition Get_Namespaces (Content : string) : gmap string (string * string) :=
  fold_left (fun namespaces m => ht_set namespaces (Group 1 m) (Group 2 m))
            (regex_Matches namespace_pattern Content) ∅.

(** Test-NamespacePrefixUsage *)

(** <([a-zA-Z0-9_]+):[a-zA-Z0-9_] *)
Definition element_prefix_pattern : regex :=
  rseq [RChr "<"%char; RGroup 1 (RPlus (RSet false alnum_)); RChr ":"%char;
        RSet false alnum_].

(** Type='([^']+)' *)
Definition type_attr_pattern : regex :=
  rseq [lit "Type="; RChr dquote; RGroup 1 (RPlus not_dquote); RChr dquote].

(** x:TypeArguments='([^']+)' *)
Definition type_arguments_pattern : regex :=
  rseq [lit "x:TypeArguments="; RChr dquote; RGroup 1 (RPlus not_dquote); RChr dquote].

(** ([A-Za-z0-9_]+): *)
Definition inner_prefix_pattern : regex :=
  rseq [RGroup 1 (RPlus (RSet false alnum_)); RChr ":"%char].

Definition mark_used (used : gmap string (string * bool)) (prefix : string)
  : gmap string (string * bool) :=
  ht_set used prefix true.

(** The three loops that fill [$usedPrefixes]. *)
Definition used_prefixes (Content : string) : gmap string (string * bool) :=
  let used1 :=
    fold_left (fun used m =>
                 let prefix := Group 1 m in
                 if negb (eq_ci prefix "xml") then mark_used used prefix else used)
              (regex_Matches element_prefix_pattern Content) ∅ in
  let used2 :=
    fold_left (fun used m =>
                 fold_left (fun used' inner => mark_used used' (Group 1 inner))
                           (regex_Matches inner_prefix_pattern (Group 1 m)) used)
              (regex_Matches type_attr_pattern Content) used1 in
  fold_left (fun used m =>
               fold_left (fun used' inner => mark_used used' (Group 1 inner))
                         (regex_Matches inner_prefix_pattern (Group 1 m)) used)
            (regex_Matches type_arguments_pattern Content) used2.

(** [$missingPrefixes] *)
Definition missing_prefixes (Content : string) (Namespaces : gmap string (string * string))
  : list string :=
  List.filter (fun prefix => negb (ht_ContainsKey Namespaces prefix))
         (ht_Keys (used_prefixes Content)).

Definition Test_NamespacePrefixUsage (Content : string)
  (Namespaces : gmap string (string * string)) (Result : ValidationResult)
  : ValidationResult :=
  let missingPrefixes := missing_prefixes Content Namespaces in
  if 0 <? length missingPrefixes then
    let displayPrefixes := join ", " (Sort_Object missingPrefixes) in
    set_compliance "HR-Namespace-Usage" FAIL
      (add_issue (new_issue "HR-Namespace-Usage" ERROR
                    ("Namespace prefix(es) used but not declared: " +:+ displayPrefixes))
                 Result)
  else set_compliance "HR-Namespace-Usage" PASS Result.

(** Test-HR4-ArgumentsVariables *)

(** <x:Property\s+Name='([^']+)' *)
Definition argPattern : regex :=
  rseq [lit "<x:Property"; RPlus ws; lit "Name="; RChr dquote;
        RGroup 1 (RPlus not_dquote); RChr dquote].

(** <Variable\s+[^>]*Name='([^']+)' *)
Definition varPattern : regex :=
  rseq [lit "<Variable"; RPlus ws; RStar not_gt; lit "Name="; RChr dquote;
        RGroup 1 (RPlus not_dquote); RChr dquote].

Definition hr4_arguments (Content : string) : list string :=
  map (Group 1) (regex_Matches argPattern Content).

Definition hr4_variables (Content : string) : list string :=
  map (Group 1) (regex_Matches varPattern Content).

Definition has_standard_prefix (arg : string) : bool :=
  StartsWith "in_" arg || StartsWith "out_" arg || StartsWith "io_" arg.

(** [$list -contains $x]: equality without regard to case. *)
Definition ps_contains (l : list string) (x : string) : bool :=
  existsb (fun y => eq_ci y x) l.

(** The text shown for a list of findings: all of them, or the first [n]
    followed by three dots when there are more than [n]. *)
Definition display (n : nat) (sep : string) (l : list string) : string :=
  if n <? length l then join sep (firstn n l) +:+ "..." else join sep l.

Definition hr4_shadowed (Content : string) : list string :=
  List.filter (fun var => ps_contains (hr4_arguments Content) var) (hr4_variables Content).

Definition Test_HR4_ArgumentsVariables (Content : string) (Result : ValidationResult)
  : ValidationResult :=
  let arguments := hr4_arguments Content in
  let invalidArgs := List.filter (fun arg => negb (has_standard_prefix arg)) arguments in
  let Result1 :=
    if 0 <? length invalidArgs then
      add_issue (new_issue "HR-4" WARNING
                   ("Arguments missing standard prefix (in_/out_/io_): "
                    +:+ display 5 ", " invalidArgs))
                Result
    else Result in
  let shadowed := hr4_shadowed Content in
  if 0 <? length shadowed then
    set_compliance "HR-4" FAIL
      (add_issue (new_issue "HR-4" ERROR
                    ("Variables shadow argument names: " +:+ join ", " shadowed))
                 Result1)
  else set_compliance "HR-4" PASS Result1.

(** Test-HR5-IdRefUniqueness *)

(** sap2010:WorkflowViewState\.IdRef='([^']+)' *)
Definition idrefPattern : regex :=
  rseq [lit "sap2010:WorkflowViewState.IdRef="; RChr dquote;
        RGroup 1 (RPlus not_dquote); RChr dquote].

(** sap:WorkflowViewState\.IdRef='([^']+)' *)
Definition idrefPattern2 : regex :=
  rseq [lit "sap:WorkflowViewState.IdRef="; RChr dquote;
        RGroup 1 (RPlus not_dquote); RChr dquote].

(** [$idrefs] after the two assignments. *)
Definition hr5_idrefs (Content : string) : Collected string :=
  let idrefs := collect (map (Group 1) (regex_Matches idrefPattern Content)) in
  ps_add idrefs (collect (map (Group 1) (regex_Matches idrefPattern2 Content))).

(** The loop over [$idrefs]: [$seen] and [$duplicates]. *)
Definition hr5_duplicates (idrefs : list string) : list string :=
  snd (fold_left
         (fun (acc : gmap string (string * bool) * list string) idref =>
            let (seen, duplicates) := acc in
            (ht_set seen idref true,
             if ht_ContainsKey seen idref then duplicates ++ [idref] else duplicates))
         idrefs (∅, [])).

Definition Test_HR5_IdRefUniqueness (Content : string) (Result : ValidationResult)
  : ValidationResult :=
  let idrefs := hr5_idrefs Content in
  if Count idrefs =? 0 then set_compliance "HR-5" NA Result
  else
    let duplicates := hr5_duplicates (enum idrefs) in
    if 0 <? length duplicates then
      let uniqueDupes := Select_Unique duplicates in
      set_compliance "HR-5" FAIL
        (add_issue (new_issue "HR-5" ERROR
                      ("Duplicate IdRefs found: " +:+ display 5 ", " uniqueDupes))
                   Result)
    else set_compliance "HR-5" PASS Result.

(** Test-SecretsDetection *)

(** (?<![a-zA-Z])name\s*=\s*' *)
Definition attr_open (name : string) : list regex :=
  [RNotBehind letters; lit name; RStar ws; RChr "="%char; RStar ws; RChr dquote].

(** (?!\{x:Null\}|\[|False|True) and (?!\{x:Null\}|\[) *)
Definition not_null_expr_bool : regex :=
  RNotAhead (ralt [lit "{x:Null}"; lit "["; lit "False"; lit "True"]).
Definition not_null_expr : regex :=
  RNotAhead (ralt [lit "{x:Null}"; lit "["]).

(** (?<![a-zA-Z])name\s*=\s*'(?!\{x:Null\}|\[)[^']+' *)
Definition hardcoded (name : string) : regex :=
  rseq (attr_open name ++ [not_null_expr; RPlus not_dquote; RChr dquote]).

(** (?<![a-zA-Z])name\s*=\s*'(?!\{x:Null\}|\[)[^']{20,}' *)
Definition hardcoded_long (name : string) : regex :=
  rseq (attr_open name ++ [not_null_expr; RAtLeast 20 not_dquote; RChr dquote]).

Definition SecretsPatterns : list (regex * string) :=
  [ (* (?<![a-zA-Z])password\s*=\s*'(?!\{x:Null\}|\[|False|True)[^']+[a-zA-Z0-9]+' *)
    (rseq (attr_open "password" ++
           [not_null_expr_bool; RPlus not_dquote;
            RPlus (RSet false [CRange "a" "z"; CRange "A" "Z"; CRange "0" "9"]%char);
            RChr dquote]),
     "Hardcoded password");
    (* (?<![a-zA-Z])Password\s*=\s*'(?!\{x:Null\}|\[|False|True)[^']+' *)
    (rseq (attr_open "Password" ++ [not_null_expr_bool; RPlus not_dquote; RChr dquote]),
     "Hardcoded Password property");
    (hardcoded "apikey", "Hardcoded API key");
    (hardcoded "ApiKey", "Hardcoded ApiKey property");
    (hardcoded "api_key", "Hardcoded api_key");
    (hardcoded "secret", "Hardcoded secret");
    (hardcoded "Secret", "Hardcoded Secret property");
    (hardcoded_long "token", "Hardcoded token (long string)");
    (hardcoded_long "Token", "Hardcoded Token property");
    (* bearer\s+[a-zA-Z0-9\-_\.]+ *)
    (rseq [lit "bearer"; RPlus ws;
           RPlus (RSet false [CRange "a" "z"; CRange "A" "Z"; CRange "0" "9";
                              CChar "-"; CChar "_"; CChar "."]%char)],
     "Hardcoded Bearer token");
    (* Authorization.*Basic\s+[a-zA-Z0-9+/=]+ *)
    (rseq [lit "Authorization"; RStar RAny; lit "Basic"; RPlus ws;
           RPlus (RSet false [CRange "a" "z"; CRange "A" "Z"; CRange "0" "9";
                              CChar "+"; CChar "/"; CChar "="]%char)],
     "Hardcoded Basic auth");
    (* connectionstring\s*=\s*'[^']*password[^']*' *)
    (rseq [lit "connectionstring"; RStar ws; RChr "="%char; RStar ws; RChr dquote;
           RStar not_dquote; lit "password"; RStar not_dquote; RChr dquote],
     "Connection string with password");
    (* ConnectionString\s*=\s*'[^']*Password[^']*' *)
    (rseq [lit "ConnectionString"; RStar ws; RChr "="%char; RStar ws; RChr dquote;
           RStar not_dquote; lit "Password"; RStar not_dquote; RChr dquote],
     "ConnectionString with Password");
    (* CredentialAssetName\s*=\s* followed by two double quotes *)
    (rseq [lit "CredentialAssetName"; RStar ws; RChr "="%char; RStar ws;
           RChr dquote; RChr dquote],
     "Empty credential asset name");
    (hardcoded "SecureString", "Hardcoded SecureString value") ].

(** [$secretsFound] *)
Definition secrets_found (Content : string) : list string :=
  map snd (List.filter (fun item => ps_match (fst item) Content) SecretsPatterns).

Definition Test_SecretsDetection (Content : string) (Result : ValidationResult)
  : ValidationResult :=
  let secretsFound := secrets_found Content in
  if 0 <? length secretsFound then
    let uniqueFound := Select_Unique secretsFound in
    let displayList := join ", " uniqueFound in
    set_compliance "Secrets" FAIL
      (add_issue (new_issue "Secrets" ERROR
                    ("Potential hardcoded secrets detected: " +:+ displayList
                     +:+ ". Use Orchestrator assets/credentials instead."))
                 Result)
  else set_compliance "Secrets" PASS Result.

(** Test-ActivitySpecific *)

(** Get-NearbyContent *)
Definition Get_NearbyContent (Start Length : nat) (FullContent : string) : string :=
  let actualLength := Nat.min Length (String.length FullContent - Start) in
  if actualLength =? 0 then EmptyString else Substring Start actualLength FullContent.

(** open[^>]*DisplayName='([^']* )' *)
Definition with_DisplayName (open : regex) : regex :=
  rseq [open; RStar not_gt; lit "DisplayName="; RChr dquote;
        RGroup 1 (RStar not_dquote); RChr dquote].

(** [$s -notmatch $pattern] *)
Definition notmatch (r : regex) (s : string) : bool := negb (ps_match r s).

(** One [foreach] over the matches of an activity pattern: [body] receives
    the captured display name and the text that follows the start of the
    match, and returns the findings it adds. *)
Definition for_each_activity (pattern : regex) (Length : nat) (Content : string)
  (body : string -> string -> list string) : list string :=
  flat_map (fun m => body (Group 1 m) (Get_NearbyContent (Index m) Length Content))
           (regex_Matches pattern Content).

(** [if ($cond) { $activityIssues.Add("$kind '$name' missing $what") }] *)
Definition missing (cond : bool) (kind name what : string) : list string :=
  if cond then [kind +:+ " '" +:+ name +:+ "' missing " +:+ what] else [].

(** The checks on Assign, If, Switch, TryCatch and Throw. *)
Definition control_flow_issues (Content : string) : list string :=
  for_each_activity (with_DisplayName (lit "<Assign")) 500 Content
    (fun name nearby =>
       missing (notmatch (lit "<Assign.To>") nearby && notmatch (lit "To=") nearby)
               "Assign" name "To property"
       ++ missing (notmatch (lit "<Assign.Value>") nearby && notmatch (lit "Value=") nearby)
                  "Assign" name "Value property")
  ++ for_each_activity (with_DisplayName (lit "<If")) 1000 Content
    (fun name nearby =>
       missing (notmatch (lit "Condition=") nearby) "If" name "Condition"
       ++ missing (notmatch (lit "<If.Then>") nearby) "If" name "Then branch")
  ++ for_each_activity (with_DisplayName (lit "<Switch")) 500 Content
    (fun name nearby =>
       missing (notmatch (lit "Expression=") nearby
                && notmatch (lit "<Switch.Expression>") nearby)
               "Switch" name "Expression")
  ++ for_each_activity (with_DisplayName (lit "<TryCatch")) 1500 Content
    (fun name nearby =>
       missing (notmatch (lit "<TryCatch.Try>") nearby) "TryCatch" name "Try block")
  ++ for_each_activity (with_DisplayName (lit "<Throw")) 500 Content
    (fun name nearby =>
       missing (notmatch (lit "Exception=") nearby) "Throw" name "Exception").

(** <(?:ui:)?ForEach and <(?:ui:)?ForEach\.Body> *)
Definition forEach_open : regex := rseq [RChr "<"%char; ROpt (lit "ui:"); lit "ForEach"].
Definition forEach_body : regex :=
  rseq [RChr "<"%char; ROpt (lit "ui:"); lit "ForEach.Body>"].

(** The checks on ForEach and ForEachRow. *)
Definition loop_issues (Content : string) : list string :=
  for_each_activity (with_DisplayName forEach_open) 800 Content
    (fun name nearby =>
       missing (notmatch (lit "x:TypeArguments=") nearby) "ForEach" name "TypeArguments"
       ++ missing (notmatch forEach_body nearby && notmatch (lit "<ActivityAction") nearby)
                  "ForEach" name "Body")
  ++ for_each_activity (with_DisplayName (lit "<ui:ForEachRow")) 500 Content
    (fun name nearby =>
       missing (notmatch (lit "DataTable=") nearby) "ForEachRow" name "DataTable").

(** The checks on InvokeWorkflowFile and InvokeCode. *)
Definition invoke_issues (Content : string) : list string :=
  for_each_activity (with_DisplayName (lit "<ui:InvokeWorkflowFile")) 500 Content
    (fun name nearby =>
       missing (notmatch (lit "WorkflowFileName=") nearby)
               "InvokeWorkflowFile" name "WorkflowFileName")
  ++ for_each_activity (with_DisplayName (lit "<ui:InvokeCode")) 500 Content
    (fun name nearby =>
       missing (notmatch (lit "Code=") nearby) "InvokeCode" name "Code property").

(** <ui:LogMessage[^>]*DisplayName='([^']* )' *)
Definition logPattern : regex := with_DisplayName (lit "<ui:LogMessage").

(** The check that LogMessage has Level and Message. *)
Definition log_issues (Content : string) : list string :=
  for_each_activity logPattern 400 Content
    (fun name nearby =>
       missing (notmatch (lit "Level=") nearby) "LogMessage" name "Level"
       ++ missing (notmatch (lit "Message=") nearby) "LogMessage" name "Message").

(** <ui:LogMessage\.Message>\s*<InArgument *)
Definition logMsgElemPattern : regex :=
  rseq [lit "<ui:LogMessage.Message>"; RStar ws; lit "<InArgument"].

(** HR-601: the check on the element syntax of LogMessage.Message. *)
Definition log_element_issues (Content : string) : list string :=
  if ps_match logMsgElemPattern Content then
    [qq "LogMessage uses element syntax for Message property (causes InArgument type mismatch). Use attribute syntax: Message='[expression]'"]
  else [].

(** The checks on MessageBox and InputDialog. *)
Definition dialog_issues (Content : string) : list string :=
  for_each_activity (with_DisplayName (lit "<ui:MessageBox")) 500 Content
    (fun name nearby => missing (notmatch (lit "Text=") nearby) "MessageBox" name "Text")
  ++ for_each_activity (with_DisplayName (lit "<ui:InputDialog")) 600 Content
    (fun name nearby => missing (notmatch (lit "Label=") nearby) "InputDialog" name "Label").

(** The checks on CreateDirectory, MoveFile, DeleteFileX, FileExistsX and
    KillProcess. *)
Definition file_issues (Content : string) : list string :=
  for_each_activity (with_DisplayName (lit "<ui:CreateDirectory")) 300 Content
    (fun name nearby => missing (notmatch (lit "Path=") nearby) "CreateDirectory" name "Path")
  ++ for_each_activity (with_DisplayName (lit "<ui:MoveFile")) 400 Content
    (fun name nearby =>
       missing (notmatch (lit "Path=") nearby) "MoveFile" name "Path"
       ++ missing (notmatch (lit "Destination=") nearby) "MoveFile" name "Destination")
  ++ for_each_activity (with_DisplayName (lit "<ui:DeleteFileX")) 300 Content
    (fun name nearby => missing (notmatch (lit "Path=") nearby) "DeleteFileX" name "Path")
  ++ for_each_activity (with_DisplayName (lit "<ui:FileExistsX")) 300 Content
    (fun name nearby => missing (notmatch (lit "Path=") nearby) "FileExistsX" name "Path")
  ++ for_each_activity (with_DisplayName (lit "<ui:KillProcess")) 300 Content
    (fun name nearby =>
       missing (notmatch (lit "ProcessName=") nearby) "KillProcess" name "ProcessName").

(** The checks on ReadRange, WriteRange, ExcelApplicationCard,
    ExcelProcessScopeX, ReadRangeX and AddDataColumn. *)
Definition excel_issues (Content : string) : list string :=
  for_each_activity (with_DisplayName (lit "<ui:ReadRange")) 400 Content
    (fun name nearby =>
       missing (notmatch (lit "WorkbookPath=") nearby) "ReadRange" name "WorkbookPath"
       ++ missing (notmatch (lit "DataTable=") nearby) "ReadRange" name "DataTable output")
  ++ for_each_activity (with_DisplayName (lit "<ui:WriteRange")) 400 Content
    (fun name nearby =>
       missing (notmatch (lit "WorkbookPath=") nearby) "WriteRange" name "WorkbookPath"
       ++ missing (notmatch (lit "DataTable=") nearby) "WriteRange" name "DataTable input")
  ++ for_each_activity (with_DisplayName (lit "<ueab:ExcelApplicationCard")) 500 Content
    (fun name nearby =>
       missing (notmatch (lit "WorkbookPath=") nearby)
               "ExcelApplicationCard" name "WorkbookPath")
  ++ for_each_activity (with_DisplayName (lit "<ueab:ExcelProcessScopeX")) 800 Content
    (fun name nearby =>
       missing (notmatch (lit "<ueab:ExcelProcessScopeX.Body>") nearby)
               "ExcelProcessScopeX" name "Body")
  ++ for_each_activity (with_DisplayName (lit "<ueab:ReadRangeX")) 300 Content
    (fun name nearby => missing (notmatch (lit "SaveTo=") nearby) "ReadRangeX" name "SaveTo")
  ++ for_each_activity (with_DisplayName (lit "<ui:AddDataColumn")) 400 Content
    (fun name nearby =>
       missing (notmatch (lit "ColumnName=") nearby) "AddDataColumn" name "ColumnName"
       ++ missing (notmatch (lit "DataTable=") nearby) "AddDataColumn" name "DataTable").

(** The check on FlowDecision. *)
Definition flowchart_issues (Content : string) : list string :=
  for_each_activity (with_DisplayName (lit "<FlowDecision")) 500 Content
    (fun name nearby =>
       missing (notmatch (lit "Condition=") nearby) "FlowDecision" name "Condition").

(** [$activityIssues] at the end of the function: the findings of the blocks
    in the order of the script. *)
Definition activity_issues (Content : string) : list string :=
  control_flow_issues Content ++ loop_issues Content ++ invoke_issues Content
  ++ log_issues Content ++ log_element_issues Content ++ dialog_issues Content
  ++ file_issues Content ++ excel_issues Content ++ flowchart_issues Content.

Definition Test_ActivitySpecific (Content : string) (Result : ValidationResult)
  : ValidationResult :=
  let activityIssues := activity_issues Content in
  if 0 <? length activityIssues then
    set_compliance "ActivitySpecific" WARN
      (add_issue (new_issue "ActivitySpecific" WARNING
                    ("Activity structure issues: " +:+ display 5 "; " activityIssues))
                 Result)
  else set_compliance "ActivitySpecific" PASS Result.

(** ** The host

    What the script takes from outside itself: the parser behind the [xml]
    cast, the file system, the reader of project.json, and the rules whose
    findings are not studied here.  Such a rule receives the text (and, as
    in the script, the namespaces, the expected language or the file path)
    and the result object, and may do to the result whatever it likes. *)
Class Host : Type := {
  (** [[xml]$Content]: [None] when the text parses, otherwise the message of
      the exception. *)
  xml_error : string -> option string;
  (** [Test-Path $FilePath] *)
  Test_Path : string -> bool;
  (** [Get-Content -Path $FilePath -Raw -Encoding UTF8]: the text on the
      left, the message of a caught exception on the right. *)
  Get_Content : string -> string + string;
  (** [Get-ProjectContext -XamlPath $FilePath -ProjectJsonPath $ProjJsonPath] *)
  Get_ProjectContext : string -> option string -> project_context;
  (** [Resolve-Path -Path $Path -ErrorAction SilentlyContinue] *)
  Resolve_Path : string -> option string;
  (** [Test-Path -Path $targetPath -PathType Leaf] and [-PathType Container] *)
  Test_Path_Leaf : string -> bool;
  Test_Path_Container : string -> bool;
  (** The full names of [Get-ChildItem -Path $targetPath -Filter *.xaml -Recurse] *)
  Get_ChildItem : string -> list string;
  Test_HR0_TemplateStructure : string -> ValidationResult -> ValidationResult;
  Test_HR2_RootInvariants :
    string -> gmap string (string * string) -> ValidationResult -> ValidationResult;
  Test_HR3_PrimaryContainer : string -> ValidationResult -> ValidationResult;
  Test_HR503_IdRefDualDeclaration : string -> ValidationResult -> ValidationResult;
  Test_HR6_ExpressionEncoding : string -> ValidationResult -> ValidationResult;
  Test_DoubleEncoding : string -> ValidationResult -> ValidationResult;
  Test_HR7_NoUIAutomation : string -> ValidationResult -> ValidationResult;
  Test_HR9_FlowchartViewState : string -> ValidationResult -> ValidationResult;
  Test_HR701_InvokeCodeLateBinding : string -> ValidationResult -> ValidationResult;
  Test_TypeSystem : string -> ValidationResult -> ValidationResult;
  Test_ExpressionLanguage : string -> string -> ValidationResult -> ValidationResult;
  Test_FlowchartStructure : string -> ValidationResult -> ValidationResult;
  Test_CommonNamespaceRequirements :
    string -> gmap string (string * string) -> ValidationResult -> ValidationResult;
  Test_NamingConventions : string -> string -> ValidationResult -> ValidationResult;
  Test_LoggingPractices : string -> ValidationResult -> ValidationResult
}.

(** What the script writes: the JSON rendering of a hashtable, the text
    report of a result (its lines are not modelled), or a line of
    Write-Host. *)
Inductive Output : Type :=
| OutJson (o : PSObject)
| OutReport (r : ValidationResult)
| OutHost (line : string).

(** [$s * $n] *)
Fixpoint string_times (s : string) (n : nat) : string :=
  match n with
  | 0 => EmptyString
  | S n' => s +:+ string_times s n'
  end.

(** Write-ValidationReport *)
Definition Write_ValidationReport (Result : ValidationResult) (AsJson : bool)
  : list Output :=
  if AsJson then [OutJson (ToHashtable Result)] else [OutReport Result].

(** [($result.Issues | Where-Object { ... }).Count -gt 0] under both settings
    of [-Strict]. *)
Definition hasIssues (Strict : bool) (result : ValidationResult) : bool :=
  if Strict then
    0 <? length (List.filter (fun i => is_error i || is_warning i) (Issues result))
  else 0 <? length (List.filter is_error (Issues result)).

Section Script.
Context `{Host}.

(** Test-XmlWellFormed: the value returned and the result after the call. *)
Definition Test_XmlWellFormed (Content : string) (Result : ValidationResult)
  : bool * ValidationResult :=
  match xml_error Content with
  | None => (true, set_compliance "Layer1-XML" PASS Result)
  | Some message =>
      (false,
       set_compliance "Layer1-XML" FAIL
         (add_issue (new_issue "Layer1-XML" ERROR ("XML parsing error: " +:+ message))
                    Result))
  end.

(** Invoke-XamlValidation, called with [-NamespaceReg $null]. *)
Definition Invoke_XamlValidation (FilePath : string) (ProjJsonPath : option string)
  : ValidationResult :=
  let context := Get_ProjectContext FilePath ProjJsonPath in
  let result := MkResult FilePath false [] ∅ context in
  if negb (Test_Path FilePath) then
    set_IsValid false
      (add_issue (new_issue "Layer1-XML" ERROR ("File not found: " +:+ FilePath)) result)
  else
    match Get_Content FilePath with
    | inr message =>
        set_IsValid false
          (add_issue (new_issue "Layer1-XML" ERROR ("Error reading file: " +:+ message))
                     result)
    | inl content =>
        let (wellFormed, result) := Test_XmlWellFormed content result in
        if negb wellFormed then set_IsValid false result
        else
          let namespaces := Get_Namespaces content in
          (* Layer 2: hard rules *)
          let result := Test_HR0_TemplateStructure content result in
          let result := Test_HR2_RootInvariants content namespaces result in
          let result := Test_NamespacePrefixUsage content namespaces result in
          let result := Test_HR3_PrimaryContainer content result in
          let result := Test_HR4_ArgumentsVariables content result in
          let result := Test_HR5_IdRefUniqueness content result in
          let result := Test_HR503_IdRefDualDeclaration content result in
          let result := Test_HR6_ExpressionEncoding content result in
          let result := Test_DoubleEncoding content result in
          let result := Test_HR7_NoUIAutomation content result in
          let result := Test_HR9_FlowchartViewState content result in
          let result := Test_HR701_InvokeCodeLateBinding content result in
          (* Layer 3: extended validations *)
          let result := Test_SecretsDetection content result in
          let result := Test_TypeSystem content result in
          let result := Test_ExpressionLanguage content (language context) result in
          let result := Test_FlowchartStructure content result in
          let result := Test_ActivitySpecific content result in
          let result := Test_CommonNamespaceRequirements content namespaces result in
          (* Layer 4: standards *)
          let result := Test_NamingConventions FilePath content result in
          let result := Test_LoggingPractices content result in
          let hasErrors := 0 <? length (List.filter is_error (Issues result)) in
          set_IsValid (negb hasErrors) result
    end.

(** The end of the directory branch: [$allValid]. *)
Definition allValid (Strict : bool) (results : list ValidationResult) : bool :=
  if Strict then length (List.filter (hasIssues true) results) =? 0
  else length (List.filter (fun r => negb (IsValid r)) results) =? 0.

(** The main entry point, run without [-NamespaceRegistry]: what is written
    and the exit code. *)
Definition main (Path : string) (Strict Json : bool) (ProjectJson : option string)
  : list Output * nat :=
  match Resolve_Path Path with
  | None => ([OutHost ("Error: Path not found: " +:+ Path)], 1)
  | Some targetPath =>
      if Test_Path_Leaf targetPath then
        let result := Invoke_XamlValidation targetPath ProjectJson in
        (Write_ValidationReport result Json,
         if hasIssues Strict result then 1 else 0)
      else if Test_Path_Container targetPath then
        let xamlFiles := Get_ChildItem targetPath in
        if length xamlFiles =? 0 then
          ([OutHost ("No .xaml files found in " +:+ targetPath)], 0)
        else
          let results :=
            map (fun file => Invoke_XamlValidation file ProjectJson) xamlFiles in
          let validCount := length (List.filter IsValid results) in
          ([OutHost ("Found " +:+ nat_to_string (length xamlFiles)
                     +:+ " XAML files to validate...");
            OutHost EmptyString]
           ++ flat_map (fun result => Write_ValidationReport result Json) results
           ++ (if negb Json then
                 [OutHost EmptyString;
                  OutHost (string_times "=" 70);
                  OutHost ("OVERALL SUMMARY: " +:+ nat_to_string validCount +:+ "/"
                           +:+ nat_to_string (length results) +:+ " files valid");
                  OutHost (string_times "=" 70)]
               else []),
           if allValid Strict results then 0 else 1)
      else
        ([OutHost ("Error: " +:+ targetPath +:+ " is neither a file nor directory")], 1)
  end.

End Script.

(** The findings of Test-ActivitySpecific that do not come from the check of
    Level and Message on LogMessage. *)
Definition other_activity_issues (Content : string) : list string :=
  control_flow_issues Content ++ loop_issues Content ++ invoke_issues Content
  ++ log_element_issues Content ++ dialog_issues Content
  ++ file_issues Content ++ excel_issues Content ++ flowchart_issues Content.

(** A file is disqualified when its result holds an ERROR or, under
    [-Strict], an ERROR or a WARNING. *)
Definition Disqualified (Strict : bool) (r : ValidationResult) : Prop :=
  exists i, In i (Issues r) /\
            (Severity i = ERROR \/ (Strict = true /\ Severity i = WARNING)).

(** [s] occurs in [t]. *)
Definition occurs_in (s t : string) : Prop :=
  exists pre post, t = pre +:+ s +:+ post.

(** The character before the position reached after reading [s], when the
    character before [s] is [prev]. *)
Fixpoint prev_after (prev : option ascii) (s : string) : option ascii :=
  match s with
  | EmptyString => prev
  | String c s' => prev_after (Some c) s'
  end.

(** The positions of [a] in the text [a +:+ b]. *)
Fixpoint starts_in (prev : option ascii) (a b : string) : list mstate :=
  match a with
  | EmptyString => []
  | String c a' => MState prev (a +:+ b) [] 0 :: starts_in (Some c) a' b
  end.

(** No pattern of the secrets table matches at any of the given positions. *)
Definition no_secret_at (positions : list mstate) : Prop :=
  forall item st, In item SecretsPatterns -> In st positions ->
                  matches_at true (fst item) st = false.

Definition is_letter (c : ascii) : bool := is_upper c || is_lower c.

(** The text does not end in an ASCII letter. *)
Definition not_after_letter (pre : string) : Prop :=
  match prev_after None pre with
  | None => True
  | Some c => is_letter c = false
  end.

(** The values of a list that equal an earlier value or a value of [seen],
    letter case ignored. *)
Fixpoint repeated (seen l : list string) : list string :=
  match l with
  | [] => []
  | y :: rest => (if ps_contains seen y then [y] else []) ++ repeated (seen ++ [y]) rest
  end.

(** No two values of the list are equal when letter case is ignored. *)
Fixpoint ci_distinct (l : list string) : Prop :=
  match l with
  | [] => True
  | y :: rest => ps_contains rest y = false /\ ci_distinct rest
  end.

(** The texts of the secrets rule's examples. *)
Definition Password_null : string := qq "Password='{x:Null}'".
Definition Password_expression : string := qq "Password='[".
Definition IsPassword_False : string := qq "IsPassword='False'".
Definition Password_literal : string := qq "Password='Sup3rSecret!'".

(** In the document [pre +:+ cand +:+ post] no pattern of the secrets table
    matches from a position before or after [cand]. *)
Definition only_candidate (pre cand post : string) : Prop :=
  no_secret_at (starts_in None pre (cand +:+ post))
  /\ no_secret_at (starts (prev_after None (pre +:+ cand)) post).

(** A pattern without its leading look-behind. *)
Definition strip_behind (r : regex) : regex :=
  match r with
  | RSeq (RNotBehind _) r' => r'
  | _ => r
  end.

(** No pattern of the secrets table matches at [st]; with [strip] the
    look-behind at the head of a pattern is left out of the test. *)
Definition no_secret_check (strip : bool) (st : mstate) : bool :=
  forallb (fun item =>
             negb (matches_at true (if strip then strip_behind (fst item) else fst item) st))
          SecretsPatterns.

(** No pattern of the secrets table matches from a position inside [cand];
    at the first position, where the character before is not known, the
    patterns are tested without their look-behind. *)
Definition candidate_check (prev : option ascii) (cand post : string) : bool :=
  match starts_in prev cand post with
  | [] => true
  | first :: others => no_secret_check true first && forallb (no_secret_check false) others
  end.

(** The white space that separates an attribute from what precedes it in
    a start tag (the production S of XML). *)
Definition xml_space (c : ascii) : bool :=
  Ascii.eqb c " "%char || Ascii.eqb c "009"%char || Ascii.eqb c "010"%char
  || Ascii.eqb c "013"%char.

(** The document holds the attribute [attr]: its text, preceded by white
    space. *)
Definition has_attribute (attr doc : string) : Prop :=
  exists pre c post, xml_space c = true /\ doc = pre +:+ String c (attr +:+ post).

(** A text of printable ASCII characters. *)
Definition printable (s : string) : bool :=
  forallb (fun c => (32 <=? nat_of_ascii c) && (nat_of_ascii c <=? 126))
          (list_ascii_of_string s).

(** The text that the check of Level and Message reads for a match of the
    LogMessage pattern. *)
Definition log_window (Content : string) (m : Match) : string :=
  Get_NearbyContent (Index m) 400 Content.

(** ** Sample documents and a sample host *)

Definition xmlns_decls : string :=
  " xmlns='http://schemas.microsoft.com/netfx/2009/xaml/activities' xmlns:x='http://schemas.microsoft.com/winfx/2006/xaml' xmlns:ui='http://schemas.uipath.com/workflow/activities' xmlns:sap='http://schemas.microsoft.com/netfx/2009/xaml/activities/presentation' xmlns:sap2010='http://schemas.microsoft.com/netfx/2010/xaml/activities/presentation'".

Definition workflow (body : string) : string :=
  qq ("<Activity x:Class='Main'" +:+ xmlns_decls +:+ ">" +:+ body +:+ "</Activity>").

(** A logging activity with Level and Message. *)
Definition doc_clean : string :=
  workflow "<Sequence DisplayName='Main'><ui:LogMessage DisplayName='Log' Level='Info' Message='[x]' /></Sequence>".

(** A logging activity with a Message and no Level. *)
Definition doc_no_level : string :=
  workflow "<Sequence DisplayName='Main'><ui:LogMessage DisplayName='Log start' Message='[x]' /></Sequence>".

(** The text around an attribute of a GetPassword activity. *)
Definition secret_before (attribute_prefix : string) : string :=
  qq ("<Activity x:Class='Main'" +:+ xmlns_decls
      +:+ "><Sequence DisplayName='Main'><ui:GetPassword DisplayName='Get' "
      +:+ attribute_prefix).
Definition secret_after : string := qq " /></Sequence></Activity>".

(** A logging activity with a Message, no Level and no DisplayName. *)
Definition unnamed_log : string := qq "<ui:LogMessage Message='[x]' />".
Definition doc_unnamed_log : string :=
  qq ("<Activity x:Class='Main'" +:+ xmlns_decls +:+ "><Sequence DisplayName='Main'>")
  +:+ unnamed_log +:+ qq "</Sequence></Activity>".

(** A hard-coded password. *)
Definition doc_secret : string :=
  secret_before EmptyString +:+ Password_literal +:+ secret_after.

(** The same text as the end of the attribute name MyPassword. *)
Definition doc_my_password : string :=
  secret_before "My" +:+ Password_literal +:+ secret_after.

(** A null password, a password given by an expression, and a flag. *)
Definition doc_password_null : string :=
  secret_before EmptyString +:+ Password_null +:+ secret_after.
Definition doc_password_expression : string :=
  secret_before EmptyString +:+ Password_expression +:+ qq "in_Password]'" +:+ secret_after.
Definition doc_is_password : string :=
  secret_before EmptyString +:+ IsPassword_False +:+ secret_after.

(** Two activities with the IdRef abc, one in each spelling of the attribute. *)
Definition doc_idref_two_spellings : string :=
  workflow "<Sequence sap2010:WorkflowViewState.IdRef='abc'><Sequence sap:WorkflowViewState.IdRef='abc' /></Sequence>".

(** Two activities with the IdRef abc in the same spelling. *)
Definition doc_idref_twice : string :=
  workflow "<Sequence sap2010:WorkflowViewState.IdRef='abc'><Sequence sap2010:WorkflowViewState.IdRef='abc' /></Sequence>".

(** An argument and a variable whose names differ in letter case only. *)
Definition doc_case_shadow : string :=
  workflow "<x:Members><x:Property Name='in_Value' Type='InArgument(x:String)' /></x:Members><Sequence><Sequence.Variables><Variable x:TypeArguments='x:String' Name='IN_VALUE' /></Sequence.Variables></Sequence>".

(** An argument without a directional prefix and an unrelated variable. *)
Definition doc_unprefixed_argument : string :=
  workflow "<x:Members><x:Property Name='Value' Type='InArgument(x:String)' /></x:Members><Sequence><Sequence.Variables><Variable x:TypeArguments='x:String' Name='counter' /></Sequence.Variables></Sequence>".

(** The same argument and an unrelated variable, with a declaration of a
    variable in_Value inside a comment. *)
Definition commented_variable : string :=
  qq "<!-- <Variable x:TypeArguments='x:String' Name='in_Value' /> -->".
Definition commented_before : string :=
  qq ("<Activity x:Class='Main'" +:+ xmlns_decls
      +:+ "><x:Members><x:Property Name='in_Value' Type='InArgument(x:String)' /></x:Members><Sequence><Sequence.Variables>").
Definition commented_after : string :=
  qq "<Variable x:TypeArguments='x:String' Name='counter' /></Sequence.Variables></Sequence></Activity>".
Definition doc_commented_variable : string :=
  commented_before +:+ commented_variable +:+ commented_after.

(** Two logging activities, the first with Level and Message, the second
    with a Message and no Level. *)
Definition doc_two_logs : string :=
  workflow "<Sequence DisplayName='Main'><ui:LogMessage DisplayName='Log ok' Level='Info' Message='[x]' /><ui:LogMessage DisplayName='Log start' Message='[y]' /></Sequence>".

(** A text that is not XML. *)
Definition doc_broken : string := "<Activity><Sequence></Activity>".

Definition no_context : project_context :=
  MkContext "Unknown" "Unknown" (PSArray []) None.

Definition empty_result (path : string) : ValidationResult :=
  MkResult path false [] ∅ no_context.

Definition sample_files : list (string * string) :=
  [("Clean.xaml", doc_clean); ("NoLevel.xaml", doc_no_level);
   ("Secret.xaml", doc_secret); ("Broken.xaml", doc_broken);
   ("flows/A.xaml", doc_clean); ("flows/B.xaml", doc_clean);
   ("flows/C.xaml", doc_secret)].

Definition sample_read (path : string) : option string :=
  snd <$> find (fun f => String.eqb (fst f) path) sample_files.

(** A host with the files above and the directory flows; its parser rejects
    [doc_broken] only, and its other rules find nothing. *)
Definition sample_host : Host := {|
  xml_error := fun s =>
    if String.eqb s doc_broken
    then Some "The 'Sequence' start tag does not match the end tag of 'Activity'."
    else None;
  Test_Path := fun p => match sample_read p with Some _ => true | None => false end;
  Get_Content := fun p =>
    match sample_read p with Some s => inl s | None => inr "Cannot find path" end;
  Get_ProjectContext := fun _ _ => no_context;
  Resolve_Path := fun p =>
    if String.eqb p "flows" then Some p
    else match sample_read p with Some _ => Some p | None => None end;
  Test_Path_Leaf := fun p => match sample_read p with Some _ => true | None => false end;
  Test_Path_Container := fun p => String.eqb p "flows";
  Get_ChildItem := fun p =>
    if String.eqb p "flows" then ["flows/A.xaml"; "flows/B.xaml"; "flows/C.xaml"] else [];
  Test_HR0_TemplateStructure := fun _ r => r;
  Test_HR2_RootInvariants := fun _ _ r => r;
  Test_HR3_PrimaryContainer := fun _ r => r;
  Test_HR503_IdRefDualDeclaration := fun _ r => r;
  Test_HR6_ExpressionEncoding := fun _ r => r;
  Test_DoubleEncoding := fun _ r => r;
  Test_HR7_NoUIAutomation := fun _ r => r;
  Test_HR9_FlowchartViewState := fun _ r => r;
  Test_HR701_InvokeCodeLateBinding := fun _ r => r;
  Test_TypeSystem := fun _ r => r;
  Test_ExpressionLanguage := fun _ _ r => r;
  Test_FlowchartStructure := fun _ r => r;
  Test_CommonNamespaceRequirements := fun _ _ r => r;
  Test_NamingConventions := fun _ _ r => r;
  Test_LoggingPractices := fun _ r => r
|}.

(** ** The other rules of the script

    The rules that the class [Host] leaves open, as the script writes them.
    They live in the module [Rules] under the names of the script; the host
    [script_host] further down plugs them into the pipeline. *)

(** ^ and $ (without RegexOptions.Multiline): the start of the text, and the
    end of the text or the position before a line feed that ends it. *)
Definition RStart : regex := RNotBehind [CRange "000" "255"]%char.
Definition REnd : regex :=
  RNotAhead (RNotAhead (RSeq (ROpt (RChr line_feed)) (RNotAhead (RSet true [])))).

(** \d on 8-bit text *)
Definition digit : regex := RSet false [CRange "0" "9"]%char.

(** [$s.Trim()]: the white space at both ends removed. *)
Fixpoint TrimStart (s : string) : string :=
  match s with
  | String c s' => if Ascii.is_space c then TrimStart s' else s
  | EmptyString => EmptyString
  end.

Fixpoint TrimEnd (s : string) : string :=
  match s with
  | EmptyString => EmptyString
  | String c s' =>
      match TrimEnd s' with
      | EmptyString => if Ascii.is_space c then EmptyString else String c EmptyString
      | rest => String c rest
      end
  end.

Definition Trim (s : string) : string := TrimEnd (TrimStart s).

(** [[System.IO.Path]::GetFileNameWithoutExtension($path)] on Windows: the
    text after the last directory or volume separator, up to its last
    period. *)
Definition is_separator (c : ascii) : bool :=
  Ascii.eqb c "/"%char || Ascii.eqb c "\"%char || Ascii.eqb c ":"%char.

(** The characters before the first one that satisfies [p], and those after
    it. *)
Fixpoint before_first (p : ascii -> bool) (l : list ascii) : list ascii :=
  match l with
  | [] => []
  | c :: l' => if p c then [] else c :: before_first p l'
  end.

Fixpoint after_first (p : ascii -> bool) (l : list ascii) : option (list ascii) :=
  match l with
  | [] => None
  | c :: l' => if p c then Some l' else after_first p l'
  end.

Definition GetFileName (path : string) : string :=
  string_of_list_ascii (rev (before_first is_separator (rev (list_ascii_of_string path)))).

Definition GetFileNameWithoutExtension (path : string) : string :=
  let name := GetFileName path in
  match after_first (Ascii.eqb "."%char) (rev (list_ascii_of_string name)) with
  | Some l => string_of_list_ascii (rev l)
  | None => name
  end.

(** $Script:RequiredNamespaces and $Script:PrimaryContainers *)
Definition RequiredNamespaces : list string := ["x"; "sap2010"].
Definition PrimaryContainers : list string := ["Sequence"; "Flowchart"; "StateMachine"].

(** $Script:VBExpressionPatterns *)
Definition VBExpressionPatterns : list regex :=
  [lit " And "; lit " Or "; lit " Not "; lit " AndAlso "; lit " OrElse ";
   lit "String.IsNullOrEmpty"; lit "CStr("; lit "CInt("; lit "CBool("; lit "CDate(";
   lit "DirectCast("; lit "TryCast("; lit "GetType(";
   (* TypeOf .* Is *)
   rseq [lit "TypeOf "; RStar RAny; lit " Is "];
   (* the texts [ & '] and [' & ] *)
   rseq [lit " & "; RChr dquote];
   rseq [RChr dquote; lit " & "];
   lit "Nothing";
   (* \.ToString\(' *)
   rseq [lit ".ToString("; RChr dquote];
   lit "Is Nothing"; lit "IsNot Nothing"].

(** $Script:CSharpExpressionPatterns *)
Definition CSharpExpressionPatterns : list regex :=
  [lit " && "; lit " || "; lit " ? "; lit " : "; lit "string.IsNullOrEmpty";
   lit "(string)"; lit "(int)"; lit "(bool)"; lit " as "; lit " is "; lit "typeof(";
   (* the texts [ + '] and [' + ] *)
   rseq [lit " + "; RChr dquote];
   rseq [RChr dquote; lit " + "];
   lit "null"; lit " == null"; lit " != null"].

(** The sum of [[regex]::Matches($Content, $pattern).Count] over a table. *)
Definition indicators (patterns : list regex) (Content : string) : nat :=
  fold_left (fun n pattern => n + length (regex_Matches pattern Content)) patterns 0.

(** A row of [$namespaceRequirements]. *)
Record NamespaceRequirement : Type := MkRequirement {
  Pattern : regex;
  Prefix : string;
  ExpectedUri : string;
  Description : string
}.

Definition namespaceRequirements : list NamespaceRequirement :=
  [ (* sd:(?:DataTable|DataRow) *)
    MkRequirement (rseq [lit "sd:"; ralt [lit "DataTable"; lit "DataRow"]]) "sd"
      "clr-namespace:System.Data;assembly=System.Data.Common"
      "System.Data types (sd:DataTable, sd:DataRow)";
    (* s:(?:String\[\]|Int32|Boolean|Double|DateTime|TimeSpan|Decimal) *)
    MkRequirement
      (rseq [lit "s:"; ralt [lit "String[]"; lit "Int32"; lit "Boolean"; lit "Double";
                             lit "DateTime"; lit "TimeSpan"; lit "Decimal"]]) "s"
      "clr-namespace:System;assembly=System.Private.CoreLib"
      "System primitive types (s:String[], s:Int32, etc.)";
    MkRequirement (lit "<ue:") "ue"
      "clr-namespace:UiPath.Excel;assembly=UiPath.Excel.Activities"
      "UiPath.Excel types";
    MkRequirement (lit "<ueab:") "ueab"
      "clr-namespace:UiPath.Excel.Activities.Business;assembly=UiPath.Excel.Activities"
      "UiPath.Excel.Activities.Business types";
    (* scg:(?:List|Dictionary|IEnumerable|KeyValuePair) *)
    MkRequirement
      (rseq [lit "scg:"; ralt [lit "List"; lit "Dictionary"; lit "IEnumerable";
                               lit "KeyValuePair"]]) "scg"
      "clr-namespace:System.Collections.Generic;assembly=System.Private.CoreLib"
      "System.Collections.Generic types (scg:List, scg:Dictionary)";
    (* sco:(?:Collection|ObservableCollection|ReadOnlyCollection) *)
    MkRequirement
      (rseq [lit "sco:"; ralt [lit "Collection"; lit "ObservableCollection";
                               lit "ReadOnlyCollection"]]) "sco"
      "clr-namespace:System.Collections.ObjectModel;assembly=System.Private.CoreLib"
      "System.Collections.ObjectModel types (sco:Collection)" ].

(** [$doubleEncodedPatterns] (Pattern and Display) and
    [$selectorElementNames] of Test-DoubleEncoding *)
Definition doubleEncodedPatterns : list (string * string) :=
  [("&amp;quot;", "&amp;quot; (should be &quot;)");
   ("&amp;lt;", "&amp;lt; (should be &lt;)");
   ("&amp;gt;", "&amp;gt; (should be &gt;)");
   ("&amp;amp;", "&amp;amp; (should be &amp;)")].

Definition selectorElementNames : list string :=
  ["Selector"; "FullSelectorArgument"; "FuzzySelectorArgument"].

(** The rows of [$uiActivityXmlPatterns]: every pattern is a start tag
    followed by [\s>]. *)
Definition tag_pattern (tag : string) : regex :=
  rseq [lit tag; RSet false [CSpace; CChar ">"%char]].

Definition uiActivityTags : list (string * string) :=
  [("<ui:Click", "Click activity"); ("<ui:TypeInto", "TypeInto activity");
   ("<ui:GetText", "GetText activity"); ("<ui:SetText", "SetText activity");
   ("<ui:Hover", "Hover activity"); ("<ui:SendHotkey", "SendHotkey activity");
   ("<ui:SelectItem", "SelectItem activity"); ("<ui:FindElement", "FindElement activity");
   ("<ui:ElementExists", "ElementExists activity");
   ("<ui:WaitElement", "WaitElement activity");
   ("<ui:AttachBrowser", "AttachBrowser activity");
   ("<ui:OpenBrowser", "OpenBrowser activity");
   ("<ui:CloseBrowser", "CloseBrowser activity");
   ("<ui:NavigateTo", "NavigateTo activity");
   ("<ui:TakeScreenshot", "TakeScreenshot activity");
   ("<ui:GetAttribute", "GetAttribute activity");
   ("<ui:SetAttribute", "SetAttribute activity");
   ("<Click", "Click activity"); ("<TypeInto", "TypeInto activity");
   ("<GetText", "GetText activity"); ("<OpenBrowser", "OpenBrowser activity");
   ("<AttachBrowser", "AttachBrowser activity")].

Definition uiActivityXmlPatterns : list (regex * string) :=
  map (fun item => (tag_pattern (fst item), snd item)) uiActivityTags.

(** (?:html|webctrl|wnd|uia|ctrl|aa) *)
Definition selector_tags : regex :=
  ralt [lit "html"; lit "webctrl"; lit "wnd"; lit "uia"; lit "ctrl"; lit "aa"].

(** Selector\s*=\s*'&lt;(?:...) and Selector\s*=\s*'<(?:...) *)
Definition selector_pattern (open : string) : regex :=
  rseq [lit "Selector"; RStar ws; RChr "="%char; RStar ws; RChr dquote; lit open;
        selector_tags].

(** The end of Test-DoubleEncoding, Test-HR701-InvokeCodeLateBinding and
    Test-FlowchartStructure: a list of findings becomes one issue and a
    status. *)
Definition report_findings (rule : string) (sev : severity) (bad : status)
  (heading : string) (shown : nat) (findings : list string) (Result : ValidationResult)
  : ValidationResult :=
  if 0 <? length findings then
    set_compliance rule bad
      (add_issue (new_issue rule sev (heading +:+ display shown "; " findings)) Result)
  else set_compliance rule PASS Result.

Module Rules.

(** Test-HR0-TemplateStructure *)
Definition Test_HR0_TemplateStructure (Content : string) (Result : ValidationResult)
  : ValidationResult :=
  let hasXClass := ps_match (lit "x:Class=") Content in
  if negb hasXClass then
    set_compliance "HR-0" WARN
      (add_issue (new_issue "HR-0" WARNING
                    "Missing x:Class attribute - may not be a valid UiPath workflow template")
                 Result)
  else set_compliance "HR-0" PASS Result.

(** [$missingNs] of Test-HR2-RootInvariants *)
Definition missingNs (Namespaces : gmap string (string * string)) : list string :=
  List.filter (fun prefix => negb (ht_ContainsKey Namespaces prefix)) RequiredNamespaces.

(** Test-HR2-RootInvariants, called with [-Registry $null]. *)
Definition Test_HR2_RootInvariants (Content : string)
  (Namespaces : gmap string (string * string)) (Result : ValidationResult)
  : ValidationResult :=
  let missingNs := missingNs Namespaces in
  let Result :=
    if 0 <? length missingNs then
      set_compliance "HR-2" FAIL
        (add_issue (new_issue "HR-2" ERROR
                      ("Missing required namespace prefixes: " +:+ join ", " missingNs))
                   Result)
    else set_compliance "HR-2" PASS Result in
  if notmatch (lit "mc:Ignorable") Content && ht_ContainsKey Namespaces "mc" then
    add_issue (new_issue "HR-2" INFO
                 "mc:Ignorable attribute not found (may be expected in some templates)")
              Result
  else Result.

(** [$containersFound] of Test-HR3-PrimaryContainer: the name of a container
    once for every match of <name[\s>]. *)
Definition containersFound (Content : string) : list string :=
  flat_map (fun container =>
              map (fun _ => container)
                  (regex_Matches (rseq [lit ("<" +:+ container);
                                        RSet false [CSpace; CChar ">"%char]])
                                 Content))
           PrimaryContainers.

(** Test-HR3-PrimaryContainer *)
Definition Test_HR3_PrimaryContainer (Content : string) (Result : ValidationResult)
  : ValidationResult :=
  let containersFound := containersFound Content in
  if length containersFound =? 0 then
    set_compliance "HR-3" FAIL
      (add_issue (new_issue "HR-3" ERROR
                    ("No primary container found. Expected one of: "
                     +:+ join ", " PrimaryContainers))
                 Result)
  else if 1 <? length containersFound then
    set_compliance "HR-3" PASS
      (add_issue (new_issue "HR-3" INFO
                    ("Multiple containers found: " +:+ join ", " containersFound
                     +:+ ". Ensure proper nesting."))
                 Result)
  else set_compliance "HR-3" PASS Result.

(** <sap2010:WorkflowViewState\.IdRef>([^<]+)</sap2010:WorkflowViewState\.IdRef> *)
Definition elemPattern : regex :=
  rseq [lit "<sap2010:WorkflowViewState.IdRef>";
        RGroup 1 (RPlus (RSet true [CChar "<"%char]));
        lit "</sap2010:WorkflowViewState.IdRef>"].

(** [$attrValues]: the IdRefs given as attributes (the pattern is that of
    Test-HR5-IdRefUniqueness). *)
Definition attrValues (Content : string) : gmap string (string * bool) :=
  fold_left (fun values m => ht_set values (Group 1 m) true)
            (regex_Matches idrefPattern Content) ∅.

(** [$dualDeclarations] *)
Definition dualDeclarations (Content : string) : list string :=
  List.filter (ht_ContainsKey (attrValues Content))
              (map (fun m => Trim (Group 1 m)) (regex_Matches elemPattern Content)).

(** Test-HR503-IdRefDualDeclaration *)
Definition Test_HR503_IdRefDualDeclaration (Content : string) (Result : ValidationResult)
  : ValidationResult :=
  let elemMatches := regex_Matches elemPattern Content in
  let dualDeclarations := dualDeclarations Content in
  if (0 <? length elemMatches) && (length dualDeclarations =? 0) then
    set_compliance "HR-503" WARN
      (add_issue (new_issue "HR-503" WARNING
                    "IdRef uses element syntax (<sap2010:WorkflowViewState.IdRef>). Prefer attribute syntax for consistency.")
                 Result)
  else if 0 <? length dualDeclarations then
    set_compliance "HR-503" FAIL
      (add_issue (new_issue "HR-503" ERROR
                    ("IdRef declared both as attribute AND child element (causes 'IdRef property already set' error): "
                     +:+ display 3 ", " dualDeclarations))
                 Result)
  else set_compliance "HR-503" PASS Result.

(** (?:Value|Expression|Condition)='([^']* )' *)
Definition valuePattern : regex :=
  rseq [ralt [lit "Value"; lit "Expression"; lit "Condition"]; RChr "="%char; RChr dquote;
        RGroup 1 (RStar not_dquote); RChr dquote].

(** <(?!&) and >(?!&) *)
Definition bare (c : ascii) : regex := RSeq (RChr c) (RNotAhead (RChr "&"%char)).

(** The findings of Test-HR6-ExpressionEncoding on one attribute value. *)
Definition encoding_findings (value : string) : list string :=
  (if ps_match (lit "&") value && notmatch (lit "&amp;") value
      && notmatch (lit "&lt;") value && notmatch (lit "&gt;") value
      && notmatch (lit "&quot;") value
   then
     let truncatedValue :=
       if 50 <? String.length value then Substring 0 50 value +:+ "..." else value in
     ["Potentially unescaped '&' in: " +:+ truncatedValue]
   else [])
  ++ (if ps_match (bare "<") value || ps_match (bare ">") value
      then ["Potentially unescaped '<' or '>' in expression"]
      else []).

(** [$issuesFound] *)
Definition issuesFound (Content : string) : list string :=
  flat_map (fun m => encoding_findings (Group 1 m)) (regex_Matches valuePattern Content).

(** Test-HR6-ExpressionEncoding *)
Definition Test_HR6_ExpressionEncoding (Content : string) (Result : ValidationResult)
  : ValidationResult :=
  let issuesFound := issuesFound Content in
  if 0 <? length issuesFound then
    let displayIssues :=
      if 3 <? length issuesFound then join "; " (firstn 3 issuesFound)
      else join "; " issuesFound in
    set_compliance "HR-6" WARN
      (add_issue (new_issue "HR-6" WARNING
                    ("Potential expression encoding issues: " +:+ displayIssues))
                 Result)
  else set_compliance "HR-6" PASS Result.

(** [$uiActivitiesFound] of Test-HR7-NoUIAutomation *)
Definition uiActivitiesFound (Content : string) : list string :=
  map snd (List.filter (fun item => ps_match (fst item) Content) uiActivityXmlPatterns)
  ++ (if ps_match (selector_pattern "&lt;") Content || ps_match (selector_pattern "<") Content
      then ["Selector attribute with UI selector"] else [])
  ++ (if ps_match (lit "clr-namespace:UiPath.UIAutomation.Activities") Content
      then ["UiPath.UIAutomation.Activities namespace import"] else []).

(** Test-HR7-NoUIAutomation *)
Definition Test_HR7_NoUIAutomation (Content : string) (Result : ValidationResult)
  : ValidationResult :=
  let uiActivitiesFound := uiActivitiesFound Content in
  if 0 <? length uiActivitiesFound then
    let uniqueFound := Select_Unique uiActivitiesFound in
    let displayCount := Nat.min 5 (length uniqueFound) in
    let displayList :=
      if 0 <? displayCount then join ", " (firstn displayCount uniqueFound)
      else join ", " uniqueFound in
    set_compliance "HR-7" FAIL
      (add_issue (new_issue "HR-7" ERROR
                    ("UI automation detected (forbidden): " +:+ displayList))
                 Result)
  else set_compliance "HR-7" PASS Result.

(** [$totalFlowNodes] of Test-HR9-FlowchartViewState *)
Definition totalFlowNodes (Content : string) : nat :=
  length (regex_Matches (lit "<FlowStep") Content)
  + length (regex_Matches (lit "<FlowDecision") Content).

(** Test-HR9-FlowchartViewState *)
Definition Test_HR9_FlowchartViewState (Content : string) (Result : ValidationResult)
  : ValidationResult :=
  if notmatch (lit "<Flowchart") Content then set_compliance "HR-9" NA Result
  else
    let hasShapeLocation := ps_match (lit "ShapeLocation") Content in
    let hasShapeSize := ps_match (lit "ShapeSize") Content in
    let totalFlowNodes := totalFlowNodes Content in
    if (0 <? totalFlowNodes) && negb (hasShapeLocation && hasShapeSize) then
      set_compliance "HR-9" WARN
        (add_issue (new_issue "HR-9" WARNING
                      ("Flowchart has " +:+ nat_to_string totalFlowNodes
                       +:+ " nodes but may be missing ViewState positioning (ShapeLocation/ShapeSize). Nodes may appear disconnected in designer."))
                   Result)
    else if 0 <? totalFlowNodes then set_compliance "HR-9" PASS Result
    else set_compliance "HR-9" PASS Result.

(** <Variable\s+x:TypeArguments='([^']+)' *)
Definition varTypePattern : regex :=
  rseq [lit "<Variable"; RPlus ws; lit "x:TypeArguments="; RChr dquote;
        RGroup 1 (RPlus not_dquote); RChr dquote].

(** The findings of Test-TypeSystem on one type. *)
Definition type_findings (type : string) : list string :=
  (* ^\s|\s$ *)
  (if ps_match (ralt [RSeq RStart ws; RSeq ws REnd]) type
   then ["Type with leading/trailing spaces: '" +:+ type +:+ "'"] else [])
  (* \( , \(Of and \([^O] *)
  ++ (if ps_match (lit "(") type && notmatch (lit "(Of ") type
         && ps_match (rseq [RChr "("%char; RSet true [CChar "O"%char]]) type
      then ["Potentially malformed generic type: '" +:+ type
            +:+ "' - VB uses (Of T) syntax"]
      else []).

(** The findings of Test-TypeSystem on one name. *)
Definition name_findings (name : string) : list string :=
  (if ps_match ws name
   then ["Variable/argument name contains spaces: '" +:+ name +:+ "'"] else [])
  (* ^\d *)
  ++ (if ps_match (RSeq RStart digit) name
      then ["Variable/argument name starts with digit: '" +:+ name +:+ "'"] else []).

(** [$typeIssues] *)
Definition typeIssues (Content : string) : list string :=
  let types := map (Group 1) (regex_Matches type_arguments_pattern Content) in
  let varTypes := map (Group 1) (regex_Matches varTypePattern Content) in
  let allTypes := Select_Unique (types ++ varTypes) in
  let varNames := map (Group 1) (regex_Matches varPattern Content) in
  let argNames := map (Group 1) (regex_Matches argPattern Content) in
  let allNames := Select_Unique (varNames ++ argNames) in
  flat_map (fun type => if String.length type =? 0 then [] else type_findings type) allTypes
  ++ flat_map (fun name => if String.length name =? 0 then [] else name_findings name)
              allNames.

(** Test-TypeSystem *)
Definition Test_TypeSystem (Content : string) (Result : ValidationResult)
  : ValidationResult :=
  let typeIssues := typeIssues Content in
  if 0 <? length typeIssues then
    set_compliance "TypeSystem" WARN
      (add_issue (new_issue "TypeSystem" WARNING
                    ("Type system issues: " +:+ display 3 "; " typeIssues))
                 Result)
  else set_compliance "TypeSystem" PASS Result.

(** [$detectedLang] of Test-ExpressionLanguage *)
Definition detectedLang (vbIndicators csharpIndicators : nat) : string :=
  if csharpIndicators <? vbIndicators then "VB"
  else if vbIndicators <? csharpIndicators then "CSharp"
  else "Unknown".

(** Test-ExpressionLanguage *)
Definition Test_ExpressionLanguage (Content ExpectedLanguage : string)
  (Result : ValidationResult) : ValidationResult :=
  if (String.length ExpectedLanguage =? 0) || eq_ci ExpectedLanguage "Unknown" then
    set_compliance "ExpressionLang" NA Result
  else
    let vbIndicators := indicators VBExpressionPatterns Content in
    let csharpIndicators := indicators CSharpExpressionPatterns Content in
    let detectedLang := detectedLang vbIndicators csharpIndicators in
    if negb (eq_ci detectedLang "Unknown") && negb (eq_ci detectedLang ExpectedLanguage) then
      set_compliance "ExpressionLang" WARN
        (add_issue (new_issue "ExpressionLang" WARNING
                      ("Expression language mismatch: project is " +:+ ExpectedLanguage
                       +:+ " but expressions appear to be " +:+ detectedLang
                       +:+ " (VB indicators: " +:+ nat_to_string vbIndicators
                       +:+ ", C# indicators: " +:+ nat_to_string csharpIndicators +:+ ")"))
                   Result)
    else set_compliance "ExpressionLang" PASS Result.

(** The finding of Test-CommonNamespaceRequirements for one row of the
    table. *)
Definition requirement_findings (Content : string)
  (Namespaces : gmap string (string * string)) (req : NamespaceRequirement) : list string :=
  if ps_match (Pattern req) Content then
    match ht_get Namespaces (Prefix req) with
    | None =>
        ["Namespace prefix '" +:+ Prefix req +:+ "' required for " +:+ Description req
         +:+ " but not declared"]
    | Some uri =>
        if negb (eq_ci uri (ExpectedUri req)) then
          ["Namespace '" +:+ Prefix req +:+ "' URI mismatch for " +:+ Description req
           +:+ ": expected '" +:+ ExpectedUri req +:+ "', got '" +:+ uri +:+ "'"]
        else []
    end
  else [].

(** [$nsIssues] *)
Definition nsIssues (Content : string) (Namespaces : gmap string (string * string))
  : list string :=
  flat_map (requirement_findings Content Namespaces) namespaceRequirements.

(** Test-CommonNamespaceRequirements *)
Definition Test_CommonNamespaceRequirements (Content : string)
  (Namespaces : gmap string (string * string)) (Result : ValidationResult)
  : ValidationResult :=
  let nsIssues := nsIssues Content Namespaces in
  if 0 <? length nsIssues then
    set_compliance "Namespace-Common-Types" WARN
      (add_issue (new_issue "Namespace-Common-Types" WARNING
                    ("Common namespace issues: " +:+ display 3 "; " nsIssues))
                 Result)
  else set_compliance "Namespace-Common-Types" PASS Result.

(** [$singleLetterVars] of Test-NamingConventions *)
Definition singleLetterVars (Content : string) : list string :=
  List.filter (fun name => String.length name =? 1)
              (map (Group 1) (regex_Matches varPattern Content)).

(** Test-NamingConventions *)
Definition Test_NamingConventions (FilePath Content : string) (Result : ValidationResult)
  : ValidationResult :=
  let filename := GetFileNameWithoutExtension FilePath in
  let Result :=
    match filename with
    | String first _ =>
        if negb (Ascii.eqb first (to_upper first)) then
          add_issue (new_issue "Standards-Naming" INFO
                       ("Workflow filename '" +:+ filename +:+ "' should be PascalCase"))
                    Result
        else Result
    | EmptyString => Result
    end in
  let singleLetterVars := singleLetterVars Content in
  if 0 <? length singleLetterVars then
    add_issue (new_issue "Standards-Naming" WARNING
                 ("Single-letter variable names found: " +:+ join ", " singleLetterVars))
              Result
  else Result.

(** Test-LoggingPractices *)
Definition Test_LoggingPractices (Content : string) (Result : ValidationResult)
  : ValidationResult :=
  let hasLogging :=
    ps_match (lit "LogMessage") Content || ps_match (lit "Log Message") Content
    || ps_match (lit "WriteLine") Content in
  if negb hasLogging then
    add_issue (new_issue "Standards-Logging" INFO
                 "No logging activities found. Consider adding Log Message for debugging.")
              Result
  else Result.

(** (?:Message|Value|Condition|Expression|Text|Code)='([^']* )' *)
Definition exprAttrPattern : regex :=
  rseq [ralt [lit "Message"; lit "Value"; lit "Condition"; lit "Expression"; lit "Text";
              lit "Code"];
        RChr "="%char; RChr dquote; RGroup 1 (RStar not_dquote); RChr dquote].

(** <((?:In|Out|InOut)Argument[^>]*|Assign\.Value|Assign\.To|ui:LogMessage[^>]* )>([^<]+)</ *)
Definition argElementPattern : regex :=
  rseq [RChr "<"%char;
        RGroup 1 (ralt [rseq [ralt [lit "In"; lit "Out"; lit "InOut"]; lit "Argument";
                              RStar not_gt];
                        lit "Assign.Value"; lit "Assign.To";
                        rseq [lit "ui:LogMessage"; RStar not_gt]]);
        RChr ">"%char; RGroup 2 (RPlus (RSet true [CChar "<"%char])); lit "</"].

(** >([^<]{4,})</ *)
Definition genericBodyPattern : regex :=
  rseq [RChr ">"%char; RGroup 1 (RAtLeast 4 (RSet true [CChar "<"%char])); lit "</"].

(** <[^>]*name[^>]*>\s*$ *)
Definition selector_context (selName : string) : regex :=
  rseq [RChr "<"%char; RStar not_gt; lit selName; RStar not_gt; RChr ">"%char; RStar ws;
        REnd].

(** The inner loop over [$doubleEncodedPatterns]: the findings on one
    text. *)
Definition double_encoded (place text : string) : list string :=
  flat_map (fun dp =>
              if ps_match (lit (fst dp)) text then
                let truncated :=
                  if 60 <? String.length text then Substring 0 60 text +:+ "..." else text in
                ["Double-encoding " +:+ snd dp +:+ place +:+ truncated]
              else [])
           doubleEncodedPatterns.

(** [$doubleEncodingIssues] after the scan of the expression attributes and
    the scan of the argument and value elements. *)
Definition targeted_issues (Content : string) : list string :=
  flat_map (fun m => double_encoded " in: " (Group 1 m))
           (regex_Matches exprAttrPattern Content)
  ++ flat_map (fun abm =>
                 let elemTag := Group 1 abm in
                 let elemText := Group 2 abm in
                 if existsb (fun selName => ps_match (lit selName) elemTag)
                            selectorElementNames
                 then []
                 else double_encoded " in element body: " elemText)
              (regex_Matches argElementPattern Content).

(** [$doubleEncodingIssues] at the end: the scan of all element bodies adds
    the findings that are not yet in the list. *)
Definition doubleEncodingIssues (Content : string) : list string :=
  fold_left
    (fun issues gbm =>
       let bodyText := Group 1 gbm in
       let contextStart := Index gbm - 200 in
       let contextLen := Nat.min 200 (Index gbm - contextStart) in
       let precedingContext := Substring contextStart contextLen Content in
       if existsb (fun selName => ps_match (selector_context selName) precedingContext)
                  selectorElementNames
       then issues
       else
         fold_left (fun issues issueMsg =>
                      if negb (ps_contains issues issueMsg) then issues ++ [issueMsg]
                      else issues)
                   (double_encoded " in element body: " bodyText) issues)
    (regex_Matches genericBodyPattern Content)
    (targeted_issues Content).

(** Test-DoubleEncoding *)
Definition Test_DoubleEncoding (Content : string) (Result : ValidationResult)
  : ValidationResult :=
  report_findings "HR-Double-Encoding" ERROR FAIL
    "Double-encoding detected in expression attributes: " 3
    (doubleEncodingIssues Content) Result.

(** Test-HR701-InvokeCodeLateBinding.  The script collects its findings with
    a lazy quantifier and with replacements in the captured code, which
    [regex] does not have; [lateBindingIssues] stands for that part. *)
Definition Test_HR701_InvokeCodeLateBinding (lateBindingIssues : string -> list string)
  (Content : string) (Result : ValidationResult) : ValidationResult :=
  report_findings "HR-701" ERROR FAIL
    "InvokeCode late binding detected (Option Strict violation): " 2
    (lateBindingIssues Content) Result.

(** Test-FlowchartStructure.  One of its checks builds a pattern from a
    text of the document; [structureIssues] stands for the findings that
    the script collects in a flowchart. *)
Definition Test_FlowchartStructure (structureIssues : string -> list string)
  (Content : string) (Result : ValidationResult) : ValidationResult :=
  if notmatch (lit "<Flowchart") Content then set_compliance "FlowchartStructure" NA Result
  else
    report_findings "FlowchartStructure" WARNING WARN
      "Flowchart structure issues: " 3 (structureIssues Content) Result.

End Rules.

(** ** The pipeline with the rules of the script *)

(** What remains outside the script once its rules are in place: the parser,
    the file system, the reader of project.json, and the two collections
    of findings named above. *)
Record Environment : Type := MkEnvironment {
  env_xml_error : string -> option string;
  env_Test_Path : string -> bool;
  env_Get_Content : string -> string + string;
  env_Get_ProjectContext : string -> option string -> project_context;
  env_Resolve_Path : string -> option string;
  env_Test_Path_Leaf : string -> bool;
  env_Test_Path_Container : string -> bool;
  env_Get_ChildItem : string -> list string;
  lateBindingIssues : string -> list string;
  structureIssues : string -> list string
}.

Definition script_host (e : Environment) : Host := {|
  xml_error := env_xml_error e;
  Test_Path := env_Test_Path e;
  Get_Content := env_Get_Content e;
  Get_ProjectContext := env_Get_ProjectContext e;
  Resolve_Path := env_Resolve_Path e;
  Test_Path_Leaf := env_Test_Path_Leaf e;
  Test_Path_Container := env_Test_Path_Container e;
  Get_ChildItem := env_Get_ChildItem e;
  Test_HR0_TemplateStructure := Rules.Test_HR0_TemplateStructure;
  Test_HR2_RootInvariants := Rules.Test_HR2_RootInvariants;
  Test_HR3_PrimaryContainer := Rules.Test_HR3_PrimaryContainer;
  Test_HR503_IdRefDualDeclaration := Rules.Test_HR503_IdRefDualDeclaration;
  Test_HR6_ExpressionEncoding := Rules.Test_HR6_ExpressionEncoding;
  Test_DoubleEncoding := Rules.Test_DoubleEncoding;
  Test_HR7_NoUIAutomation := Rules.Test_HR7_NoUIAutomation;
  Test_HR9_FlowchartViewState := Rules.Test_HR9_FlowchartViewState;
  Test_HR701_InvokeCodeLateBinding := Rules.Test_HR701_InvokeCodeLateBinding (lateBindingIssues e);
  Test_TypeSystem := Rules.Test_TypeSystem;
  Test_ExpressionLanguage := Rules.Test_ExpressionLanguage;
  Test_FlowchartStructure := Rules.Test_FlowchartStructure (structureIssues e);
  Test_CommonNamespaceRequirements := Rules.Test_CommonNamespaceRequirements;
  Test_NamingConventions := Rules.Test_NamingConventions;
  Test_LoggingPractices := Rules.Test_LoggingPractices
|}.

(** The rules in the order in which Invoke-XamlValidation calls them on a
    document that parsed, each with the key it writes in the compliance map
    (the two rules of layer 4 write none) and the largest number of issues
    it can add. *)
Definition script_rules (e : Environment) (FilePath content : string)
  (namespaces : gmap string (string * string)) (expected : string)
  : list (option string * nat * (ValidationResult -> ValidationResult)) :=
  [ (Some "HR-0", 1, Rules.Test_HR0_TemplateStructure content);
    (Some "HR-2", 2, Rules.Test_HR2_RootInvariants content namespaces);
    (Some "HR-Namespace-Usage", 1, Test_NamespacePrefixUsage content namespaces);
    (Some "HR-3", 1, Rules.Test_HR3_PrimaryContainer content);
    (Some "HR-4", 2, Test_HR4_ArgumentsVariables content);
    (Some "HR-5", 1, Test_HR5_IdRefUniqueness content);
    (Some "HR-503", 1, Rules.Test_HR503_IdRefDualDeclaration content);
    (Some "HR-6", 1, Rules.Test_HR6_ExpressionEncoding content);
    (Some "HR-Double-Encoding", 1, Rules.Test_DoubleEncoding content);
    (Some "HR-7", 1, Rules.Test_HR7_NoUIAutomation content);
    (Some "HR-9", 1, Rules.Test_HR9_FlowchartViewState content);
    (Some "HR-701", 1,
     Rules.Test_HR701_InvokeCodeLateBinding (lateBindingIssues e) content);
    (Some "Secrets", 1, Test_SecretsDetection content);
    (Some "TypeSystem", 1, Rules.Test_TypeSystem content);
    (Some "ExpressionLang", 1, Rules.Test_ExpressionLanguage content expected);
    (Some "FlowchartStructure", 1, Rules.Test_FlowchartStructure (structureIssues e) content);
    (Some "ActivitySpecific", 1, Test_ActivitySpecific content);
    (Some "Namespace-Common-Types", 1,
     Rules.Test_CommonNamespaceRequirements content namespaces);
    (None, 2, Rules.Test_NamingConventions FilePath content);
    (None, 1, Rules.Test_LoggingPractices content) ].

(** The keys of the compliance map of a document that parsed. *)
Definition compliance_keys : list string :=
  ["Layer1-XML"; "HR-0"; "HR-2"; "HR-Namespace-Usage"; "HR-3"; "HR-4"; "HR-5"; "HR-503";
   "HR-6"; "HR-Double-Encoding"; "HR-7"; "HR-9"; "HR-701"; "Secrets"; "TypeSystem";
   "ExpressionLang"; "FlowchartStructure"; "ActivitySpecific"; "Namespace-Common-Types"].

Definition status_eqb (a b : status) : bool :=
  match a, b with
  | PASS, PASS | FAIL, FAIL | WARN, WARN | NA, NA => true
  | _, _ => false
  end.

(** The number of entries of a compliance map with a given status. *)
Definition count_status (s : status) (h : gmap string (string * status)) : nat :=
  length (List.filter (fun kv => status_eqb (snd kv) s) (ht_entries h)).

(** What a rule may do to the result: append the issues [new], and write
    the status [st] under [key] when it has one. *)
Definition rule_effect (key : option string) (st : status) (new : list ValidationIssue)
  (r : ValidationResult) : ValidationResult :=
  MkResult (FilePath r) (IsValid r) (Issues r ++ new)
           (match key with
            | Some k => ht_set (HRCompliance r) k st
            | None => HRCompliance r
            end)
           (ProjectContext r).

(** A rule is disciplined when that is all it does, with at most [bound]
    issues, one ERROR among them exactly when it writes FAIL. *)
Definition disciplined (key : option string) (bound : nat)
  (rule : ValidationResult -> ValidationResult) : Prop :=
  forall r, exists st new,
    rule r = rule_effect key st new r
    /\ length new <= bound
    /\ count_severity ERROR new
       = (match key with Some _ => if status_eqb st FAIL then 1 else 0 | None => 0 end).

(** [s] occurs in [t] in some letter case. *)
Definition occurs_ci (s t : string) : Prop :=
  exists pre w post, t = pre +:+ w +:+ post /\ lower w = lower s.

(** Two texts that a pattern cannot tell apart. *)
Definition same_text (ic : bool) (w s : string) : Prop :=
  if ic then lower w = lower s else w = s.

(** Running a list of rules on a result, the keys they write and the number
    of issues they can add. *)
Definition run_rules (rules : list (option string * nat * (ValidationResult -> ValidationResult)))
  (r : ValidationResult) : ValidationResult :=
  fold_left (fun r rule => snd rule r) rules r.

Fixpoint written_keys (rules : list (option string * nat * (ValidationResult -> ValidationResult)))
  : list string :=
  match rules with
  | [] => []
  | (Some key, _, _) :: rest => key :: written_keys rest
  | (None, _, _) :: rest => written_keys rest
  end.

Fixpoint issue_bound (rules : list (option string * nat * (ValidationResult -> ValidationResult)))
  : nat :=
  match rules with
  | [] => 0
  | (_, bound, _) :: rest => bound + issue_bound rest
  end.

(** The sample host as an environment of the script's own rules; the two
    collections of findings are empty. *)
Definition sample_environment : Environment := {|
  env_xml_error := @xml_error sample_host;
  env_Test_Path := @Test_Path sample_host;
  env_Get_Content := @Get_Content sample_host;
  env_Get_ProjectContext := @Get_ProjectContext sample_host;
  env_Resolve_Path := @Resolve_Path sample_host;
  env_Test_Path_Leaf := @Test_Path_Leaf sample_host;
  env_Test_Path_Container := @Test_Path_Container sample_host;
  env_Get_ChildItem := @Get_ChildItem sample_host;
  lateBindingIssues := fun _ => [];
  structureIssues := fun _ => []
|}.

(** A container tag of Test-HR3-PrimaryContainer occurs in the text: the
    name after <, followed by white space or by >. *)
Definition container_tag (Content : string) : Prop :=
  exists container pre c post,
    In container PrimaryContainers
    /\ (is_white_space c = true \/ c = ">"%char)
    /\ Content = pre +:+ ("<" +:+ container) +:+ String c post.

(** The candidates of the secrets rule whose value begins like a
    boolean. *)
Definition Password_True : string := qq "Password='True".
Definition Password_False : string := qq "Password='False".

(** ** Proof automation for the discipline of the rules *)

Ltac rule_cases :=
  repeat match goal with
         | |- context [if ?b then _ else _] => destruct b
         end.

Ltac rule_effect_eq :=
  unfold rule_effect, set_compliance, add_issue;
  cbn [FilePath IsValid Issues HRCompliance ProjectContext];
  rewrite <- ?app_assoc;
  first [ reflexivity
        | rewrite app_nil_r; reflexivity
        | match goal with
          | |- ?x = _ =>
              is_var x; destruct x;
              cbn [FilePath IsValid Issues HRCompliance ProjectContext];
              rewrite app_nil_r; reflexivity
          end ].

Ltac show_effect st new :=
  exists st, new; split; [rule_effect_eq | split; [cbn; lia | reflexivity]].

Ltac solve_disciplined st :=
  first [ show_effect st (@nil ValidationIssue)
        | eexists st, [_]; split; [rule_effect_eq | split; [cbn; lia | reflexivity]]
        | eexists st, [_; _]; split; [rule_effect_eq | split; [cbn; lia | reflexivity]] ].

Ltac disciplined_by_cases :=
  intros r; cbv zeta; rule_cases;
  first [solve_disciplined PASS | solve_disciplined FAIL | solve_disciplined WARN
        | solve_disciplined NA].

Create HintDb discipline.

(** * Properties *)

(** ** The matcher *)

Lemma append_cons (c : ascii) (a b : string) : String c a +:+ b = String c (a +:+ b).
Proof. reflexivity. Qed.

Lemma advances_refl (st : mstate) : advances st st.
Proof. unfold advances. lia. Qed.

Lemma advances_trans (a b c : mstate) : advances a b -> advances b c -> advances a c.
Proof. unfold advances. lia. Qed.

Lemma eat_advances (p : ascii -> bool) (st st' : mstate) :
  In st' (eat p st) -> advances st st'.
Proof.
  unfold eat, advances. destruct st as [prev rest caps pos]. cbn [st_rest st_caps st_pos].
  destruct rest as [|a s']; [intros [] |].
  destruct (p a); [| intros []]. intros [<- | []]. cbn. lia.
Qed.

Lemma star_run_advances (step : mstate -> list mstate) (fuel : nat) (st st' : mstate) :
  (forall a b, In b (step a) -> advances a b) ->
  In st' (star_run step fuel st) -> advances st st'.
Proof.
  intros Hstep. revert st. induction fuel as [|fuel IH]; intros st; cbn [star_run].
  - intros [<- | []]. apply advances_refl.
  - intros Hin. apply in_app_or in Hin. destruct Hin as [Hin | [<- | []]].
    + apply in_flat_map in Hin. destruct Hin as [mid [Hmid Hin]].
      destruct (st_pos st <? st_pos mid); [| destruct Hin].
      apply (advances_trans st mid st'); [apply Hstep; exact Hmid | apply IH; exact Hin].
    + apply advances_refl.
Qed.

(** A match never moves backwards, and the text it leaves is the text it
    found minus what it consumed. *)
Lemma run_advances (ic : bool) (r : regex) (st st' : mstate) :
  In st' (run ic r st) -> advances st st'.
Proof.
  revert st st'. induction r as [| c | neg items | | r1 IH1 r2 IH2 | r1 IH1 r2 IH2
                                | r IH | n r IH | r IH | items]; intros st st'; cbn [run].
  - intros [<- | []]. apply advances_refl.
  - apply eat_advances.
  - apply eat_advances.
  - apply eat_advances.
  - intros Hin. apply in_flat_map in Hin. destruct Hin as [mid [Hmid Hin]].
    apply (advances_trans st mid st'); [apply IH1 | apply IH2]; assumption.
  - intros Hin. apply in_app_or in Hin. destruct Hin; [apply IH1 | apply IH2]; assumption.
  - intros Hin. revert Hin. apply star_run_advances. intros a b. apply IH.
  - intros Hin. apply in_map_iff in Hin. destruct Hin as [mid [<- Hmid]].
    apply IH in Hmid. exact Hmid.
  - destruct (run ic r st); [| intros []].
    intros [<- | []]. apply advances_refl.
  - destruct (st_prev st) as [a|]; [destruct (set_mem ic items a) |].
    + intros [].
    + intros [<- | []]. apply advances_refl.
    + intros [<- | []]. apply advances_refl.
Qed.

Lemma flat_map_ext_In {A B : Type} (f g : A -> list B) (l : list A) :
  (forall x, In x l -> f x = g x) -> flat_map f l = flat_map g l.
Proof.
  intros Hfg. induction l as [|x l IH]; cbn [flat_map]; [reflexivity |].
  rewrite (Hfg x) by (left; reflexivity). rewrite IH; [reflexivity |].
  intros y Hy. apply Hfg. right. exact Hy.
Qed.

(** More fuel than the length of the remaining text changes nothing. *)
Lemma star_run_fuel (step : mstate -> list mstate) (n : nat) (st : mstate) :
  (forall a b, In b (step a) -> advances a b) ->
  String.length (st_rest st) < n ->
  star_run step (S n) st = star_run step n st.
Proof.
  intros Hstep. revert st. induction n as [|n IH]; intros st Hlen; [lia |].
  cbn [star_run]. f_equal. apply flat_map_ext_In. intros mid Hmid.
  destruct (st_pos st <? st_pos mid) eqn:Hlt; [| reflexivity].
  apply IH. apply Nat.ltb_lt in Hlt. apply Hstep in Hmid. unfold advances in Hmid. lia.
Qed.

(** The fuel that [run] gives to a star is enough: any larger amount yields
    the same matches in the same order. *)
Lemma run_star_fuel (ic : bool) (r : regex) (st : mstate) (k : nat) :
  star_run (run ic r) (S (String.length (st_rest st)) + k) st = run ic (RStar r) st.
Proof.
  induction k as [|k IH].
  - rewrite Nat.add_0_r. reflexivity.
  - rewrite <- IH, Nat.add_succ_r.
    apply star_run_fuel; [intros a b; apply run_advances | lia].
Qed.

Lemma in_starts (p : option ascii) (s : string) (st : mstate) :
  In st (starts p s) <-> exists a b, s = a +:+ b /\ st = MState (prev_after p a) b [] 0.
Proof.
  revert p. induction s as [|c s IH]; intros p; cbn [starts].
  - split.
    + intros [<- | []]. exists EmptyString, EmptyString. split; reflexivity.
    + intros [a [b [Hs ->]]]. destruct a; [| discriminate Hs].
      destruct b; [| discriminate Hs]. left. reflexivity.
  - split.
    + intros [<- | Hin].
      * exists EmptyString, (String c s). split; reflexivity.
      * apply IH in Hin. destruct Hin as [a [b [-> ->]]].
        exists (String c a), b. split; reflexivity.
    + intros [a [b [Hs ->]]]. destruct a as [|x a].
      * left. change (EmptyString +:+ b) with b in Hs. subst b. reflexivity.
      * right. change (String x a +:+ b) with (String x (a +:+ b)) in Hs.
        injection Hs as <- ->. apply IH. exists a, b. split; reflexivity.
Qed.

(** [-match] holds when the pattern matches from some position of the text. *)
Lemma ps_match_spec (r : regex) (s : string) :
  ps_match r s = true
  <-> exists a b, s = a +:+ b /\ matches_at true r (MState (prev_after None a) b [] 0) = true.
Proof.
  unfold ps_match. rewrite existsb_exists. split.
  - intros [st [Hin Hm]]. apply in_starts in Hin. destruct Hin as [a [b [-> ->]]].
    exists a, b. split; [reflexivity | exact Hm].
  - intros [a [b [-> Hm]]]. eexists. split; [| exact Hm].
    apply in_starts. exists a, b. split; reflexivity.
Qed.

(** ** Hashtables and results *)

Lemma eq_ci_sym (a b : string) : eq_ci a b = eq_ci b a.
Proof. unfold eq_ci. apply String.eqb_sym. Qed.

Lemma ht_get_set_eq {V : Type} (h : gmap string (string * V)) (k : string) (v : V) :
  ht_get (ht_set h k v) k = Some v.
Proof.
  unfold ht_get, ht_set.
  destruct (h !! lower k) as [[k0 v0]|]; rewrite lookup_insert_eq; reflexivity.
Qed.

Lemma ht_ContainsKey_set {V : Type} (h : gmap string (string * V)) (k q : string) (v : V) :
  ht_ContainsKey (ht_set h k v) q = eq_ci k q || ht_ContainsKey h q.
Proof.
  unfold ht_ContainsKey, ht_set, eq_ci.
  destruct (String.eqb_spec (lower k) (lower q)) as [Heq | Hne].
  - rewrite <- Heq.
    destruct (h !! lower k) as [[k0 v0]|]; rewrite lookup_insert_eq; reflexivity.
  - destruct (h !! lower k) as [[k0 v0]|]; rewrite lookup_insert_ne by exact Hne;
      reflexivity.
Qed.

Lemma ht_Keys_set_empty {V : Type} (k : string) (v : V) :
  ht_Keys (ht_set (∅ : gmap string (string * V)) k v) = [k].
Proof.
  unfold ht_Keys, ht_set. rewrite lookup_empty, insert_empty, map_to_list_singleton.
  reflexivity.
Qed.

Lemma compliance_set (rule : string) (s : status) (r : ValidationResult) :
  compliance (set_compliance rule s r) rule = Some s.
Proof. unfold compliance, set_compliance. simpl. apply ht_get_set_eq. Qed.

Lemma severity_eqb_eq (a b : severity) : severity_eqb a b = true <-> a = b.
Proof. destruct a, b; simpl; split; intros Heq; try reflexivity; discriminate Heq. Qed.

Lemma no_error_filter (l : list ValidationIssue) :
  List.filter is_error l = [] <-> (forall i, In i l -> Severity i <> ERROR).
Proof.
  induction l as [|x l IH]; simpl.
  - split; [intros _ i [] | reflexivity].
  - unfold is_error at 1. destruct (severity_eqb (Severity x) ERROR) eqn:E.
    + split; [discriminate |].
      intros Hall. exfalso. apply (Hall x); [left; reflexivity |].
      apply severity_eqb_eq. exact E.
    + rewrite IH. split.
      * intros Hall i [<- | Hin]; [| apply Hall; exact Hin].
        intros Heq. apply severity_eqb_eq in Heq. congruence.
      * intros Hall i Hin. apply Hall. right. exact Hin.
Qed.

Lemma positive_length {A : Type} (l : list A) : (0 <? length l) = false <-> l = [].
Proof. destruct l; cbn; split; intros Hx; (reflexivity || discriminate Hx). Qed.

Lemma filter_exists {A : Type} (p : A -> bool) (l : list A) :
  (0 <? length (List.filter p l)) = true <-> exists x, In x l /\ p x = true.
Proof.
  split.
  - destruct (List.filter p l) as [|x rest] eqn:E; [discriminate |].
    intros _. exists x. apply filter_In. rewrite E. left. reflexivity.
  - intros [x Hx]. apply filter_In in Hx.
    destruct (List.filter p l); [destruct Hx | reflexivity].
Qed.

Lemma filter_length_zero {A : Type} (p : A -> bool) (l : list A) :
  (length (List.filter p l) =? 0) = false <-> exists x, In x l /\ p x = true.
Proof.
  rewrite <- filter_exists.
  destruct (List.filter p l); cbn; split; intros Hx; (reflexivity || discriminate Hx).
Qed.

Lemma hasIssues_Disqualified (Strict : bool) (r : ValidationResult) :
  hasIssues Strict r = true <-> Disqualified Strict r.
Proof.
  unfold hasIssues, Disqualified. destruct Strict; rewrite filter_exists.
  - split.
    + intros [i [Hin Hp]]. exists i. split; [exact Hin |].
      apply orb_true_iff in Hp. destruct Hp as [Hp | Hp]; apply severity_eqb_eq in Hp;
        [left | right]; auto.
    + intros [i [Hin Hp]]. exists i. split; [exact Hin |].
      apply orb_true_iff. unfold is_error, is_warning.
      destruct Hp as [Hp | [_ Hp]]; rewrite Hp; auto.
  - split.
    + intros [i [Hin Hp]]. exists i. split; [exact Hin |].
      left. apply severity_eqb_eq. exact Hp.
    + intros [i [Hin Hp]]. exists i. split; [exact Hin |].
      destruct Hp as [Hp | [Hp _]]; [| discriminate].
      apply severity_eqb_eq. exact Hp.
Qed.

(** ** The validation pipeline *)

Section Pipeline.
Context `{Host}.

(** Whatever the path, [IsValid] of a finished result is the absence of an
    ERROR among its issues. *)
Lemma Invoke_IsValid (FilePath : string) (ProjJsonPath : option string) :
  IsValid (Invoke_XamlValidation FilePath ProjJsonPath)
  = negb (0 <? length (List.filter is_error (Issues (Invoke_XamlValidation FilePath ProjJsonPath)))).
Proof.
  unfold Invoke_XamlValidation.
  destruct (Test_Path FilePath); simpl; [| reflexivity].
  destruct (Get_Content FilePath) as [content | message]; simpl; [| reflexivity].
  unfold Test_XmlWellFormed.
  destruct (xml_error content); simpl; reflexivity.
Qed.

Lemma Invoke_IsValid_Disqualified (FilePath : string) (ProjJsonPath : option string) :
  negb (IsValid (Invoke_XamlValidation FilePath ProjJsonPath)) = true
  <-> Disqualified false (Invoke_XamlValidation FilePath ProjJsonPath).
Proof.
  rewrite Invoke_IsValid, negb_involutive. apply (hasIssues_Disqualified false).
Qed.

(** C1. A document whose text fails the XML parse gets exactly one issue, of
    rule Layer1-XML and severity ERROR; the result is invalid; its
    compliance map holds the single key Layer1-XML; and the result is this
    one whatever the later rules of the host would do. *)
Theorem Layer1_failure_short_circuits
  (FilePath : string) (ProjJsonPath : option string) (content message : string) :
  Test_Path FilePath = true ->
  Get_Content FilePath = inl content ->
  xml_error content = Some message ->
  let result := Invoke_XamlValidation FilePath ProjJsonPath in
  result = MkResult FilePath false
             [new_issue "Layer1-XML" ERROR ("XML parsing error: " +:+ message)]
             (ht_set ∅ "Layer1-XML" FAIL)
             (Get_ProjectContext FilePath ProjJsonPath)
  /\ (exists i, Issues result = [i] /\ Rule i = "Layer1-XML" /\ Severity i = ERROR)
  /\ IsValid result = false
  /\ ht_Keys (HRCompliance result) = ["Layer1-XML"]
  /\ compliance result "Layer1-XML" = Some FAIL.
Proof.
  intros Hpath Hread Hxml result.
  assert (Hres : result = MkResult FilePath false
             [new_issue "Layer1-XML" ERROR ("XML parsing error: " +:+ message)]
             (ht_set ∅ "Layer1-XML" FAIL)
             (Get_ProjectContext FilePath ProjJsonPath)).
  { unfold result, Invoke_XamlValidation, Test_XmlWellFormed.
    rewrite Hpath, Hread, Hxml. reflexivity. }
  split; [exact Hres |].
  rewrite Hres. cbn [Issues IsValid HRCompliance compliance].
  split; [| split; [| split]].
  - eexists. split; [reflexivity | split; reflexivity].
  - reflexivity.
  - apply ht_Keys_set_empty.
  - apply ht_get_set_eq.
Qed.

(** C2. For a document that parses, [IsValid] is true exactly when no issue
    has severity ERROR, so issues of severity WARNING or INFO never make it
    false; and what the script reports, the stored results among it, is the
    same with and without [-Strict]. *)
Theorem IsValid_reflects_errors_only
  (FilePath : string) (ProjJsonPath : option string) (content : string) :
  Test_Path FilePath = true ->
  Get_Content FilePath = inl content ->
  xml_error content = None ->
  let result := Invoke_XamlValidation FilePath ProjJsonPath in
  (IsValid result = true <-> (forall i, In i (Issues result) -> Severity i <> ERROR))
  /\ ((forall i, In i (Issues result) -> Severity i = WARNING \/ Severity i = INFO) ->
      IsValid result = true)
  /\ (forall Path Json ProjectJson,
        fst (main Path true Json ProjectJson) = fst (main Path false Json ProjectJson)).
Proof.
  intros _ _ _ result.
  assert (Hiff : IsValid result = true
                 <-> (forall i, In i (Issues result) -> Severity i <> ERROR)).
  { unfold result. rewrite Invoke_IsValid, <- no_error_filter, negb_true_iff.
    apply positive_length. }
  split; [exact Hiff | split].
  - intros Hmild. apply Hiff. intros i Hin Herr.
    destruct (Hmild i Hin) as [Hsev | Hsev]; rewrite Herr in Hsev; discriminate Hsev.
  - intros Path Json ProjectJson. unfold main.
    destruct (Resolve_Path Path) as [targetPath|]; [| reflexivity].
    destruct (Test_Path_Leaf targetPath); [reflexivity |].
    destruct (Test_Path_Container targetPath); [| reflexivity].
    destruct (length (Get_ChildItem targetPath) =? 0); reflexivity.
Qed.

End Pipeline.

(** On the sample host the file Broken.xaml is rejected by the parser. *)
Lemma Layer1_failure_short_circuits_witness :
  let result := @Invoke_XamlValidation sample_host "Broken.xaml" None in
  (exists i, Issues result = [i] /\ Rule i = "Layer1-XML" /\ Severity i = ERROR)
  /\ IsValid result = false
  /\ ht_Keys (HRCompliance result) = ["Layer1-XML"]
  /\ compliance result "Layer1-XML" = Some FAIL.
Proof.
  apply (@Layer1_failure_short_circuits sample_host "Broken.xaml" None doc_broken
           "The 'Sequence' start tag does not match the end tag of 'Activity'.");
    vm_compute; reflexivity.
Defined.

(** On the sample host the file NoLevel.xaml parses. *)
Lemma IsValid_reflects_errors_only_witness :
  let result := @Invoke_XamlValidation sample_host "NoLevel.xaml" None in
  (IsValid result = true <-> (forall i, In i (Issues result) -> Severity i <> ERROR))
  /\ ((forall i, In i (Issues result) -> Severity i = WARNING \/ Severity i = INFO) ->
      IsValid result = true)
  /\ (forall Path Json ProjectJson,
        fst (@main sample_host Path true Json ProjectJson)
        = fst (@main sample_host Path false Json ProjectJson)).
Proof.
  apply (@IsValid_reflects_errors_only sample_host "NoLevel.xaml" None doc_no_level);
    vm_compute; reflexivity.
Defined.

(** ** Exit codes and the directory summary *)

Lemma filter_map_length {A B : Type} (f : A -> B) (p : B -> bool) (l : list A) :
  length (List.filter p (map f l)) = length (List.filter (fun x => p (f x)) l).
Proof.
  induction l as [|x l IH]; simpl; [reflexivity |].
  destruct (p (f x)); simpl; rewrite IH; reflexivity.
Qed.

Lemma filter_ext_length {A : Type} (p q : A -> bool) (l : list A) :
  (forall x, p x = q x) -> length (List.filter p l) = length (List.filter q l).
Proof.
  intros Hpq. induction l as [|x l IH]; simpl; [reflexivity |].
  rewrite Hpq. destruct (q x); simpl; rewrite IH; reflexivity.
Qed.

Lemma filter_length_partition {A : Type} (p : A -> bool) (l : list A) :
  length (List.filter p l) + length (List.filter (fun x => negb (p x)) l) = length l.
Proof.
  induction l as [|x l IH]; simpl; [reflexivity |].
  destruct (p x); simpl; lia.
Qed.

Section ExitCodes.
Context `{Host}.

Lemma IsValid_no_error (FilePath : string) (ProjJsonPath : option string) :
  IsValid (Invoke_XamlValidation FilePath ProjJsonPath)
  = (count_severity ERROR (Issues (Invoke_XamlValidation FilePath ProjJsonPath)) =? 0).
Proof.
  rewrite Invoke_IsValid. unfold count_severity.
  change (fun i => severity_eqb (Severity i) ERROR) with is_error.
  destruct (List.filter is_error _); reflexivity.
Qed.

Lemma allValid_false (Strict : bool) (ProjectJson : option string) (files : list string) :
  allValid Strict (map (fun file => Invoke_XamlValidation file ProjectJson) files) = false
  <-> exists file, In file files
                   /\ Disqualified Strict (Invoke_XamlValidation file ProjectJson).
Proof.
  unfold allValid. destruct Strict; rewrite filter_length_zero; split.
  - intros [r [Hin Hp]]. apply in_map_iff in Hin. destruct Hin as [file [<- Hin]].
    exists file. split; [exact Hin |]. apply hasIssues_Disqualified. exact Hp.
  - intros [file [Hin Hd]]. exists (Invoke_XamlValidation file ProjectJson).
    split; [apply in_map_iff; exists file; auto |].
    apply hasIssues_Disqualified. exact Hd.
  - intros [r [Hin Hp]]. apply in_map_iff in Hin. destruct Hin as [file [<- Hin]].
    exists file. split; [exact Hin |]. apply Invoke_IsValid_Disqualified. exact Hp.
  - intros [file [Hin Hd]]. exists (Invoke_XamlValidation file ProjectJson).
    split; [apply in_map_iff; exists file; auto |].
    apply Invoke_IsValid_Disqualified. exact Hd.
Qed.

(** The exit code of the script, case by case. *)
Lemma main_exit_code (Path : string) (Json : bool) (ProjectJson : option string) :
  forall Strict,
      let code := snd (main Path Strict Json ProjectJson) in
      (code = 0 \/ code = 1)
      /\ (code = 1 <->
          Resolve_Path Path = None
          \/ exists targetPath,
              Resolve_Path Path = Some targetPath
              /\ ((Test_Path_Leaf targetPath = true
                   /\ Disqualified Strict (Invoke_XamlValidation targetPath ProjectJson))
                  \/ (Test_Path_Leaf targetPath = false
                      /\ Test_Path_Container targetPath = true
                      /\ exists file,
                          In file (Get_ChildItem targetPath)
                          /\ Disqualified Strict (Invoke_XamlValidation file ProjectJson))
                  \/ (Test_Path_Leaf targetPath = false
                      /\ Test_Path_Container targetPath = false))).
Proof.
  intros Strict code. unfold code, main.
  destruct (Resolve_Path Path) as [targetPath|] eqn:Hres; cbn [snd].
  2:{ split; [right; reflexivity | split; auto]. }
  destruct (Test_Path_Leaf targetPath) eqn:Hleaf; cbn [snd].
  { destruct (hasIssues Strict (Invoke_XamlValidation targetPath ProjectJson)) eqn:Hd.
    - split; [right; reflexivity |]. split; [intros _ | reflexivity].
      right. exists targetPath. split; [reflexivity |]. left. split; [exact Hleaf |].
      apply hasIssues_Disqualified. exact Hd.
    - split; [left; reflexivity |]. split; [discriminate |].
      intros [Hnone | [t [Ht Hcases]]]; [discriminate Hnone |].
      injection Ht as <-.
      destruct Hcases as [[_ Hdq] | [[Hl _] | [Hl _]]]; try congruence.
      apply hasIssues_Disqualified in Hdq. congruence. }
  destruct (Test_Path_Container targetPath) eqn:Hdir; cbn [snd].
  2:{ split; [right; reflexivity |]. split; [intros _ | reflexivity].
      right. exists targetPath. split; [reflexivity |]. right. right. auto. }
  destruct (length (Get_ChildItem targetPath) =? 0) eqn:Hempty; cbn [snd].
  { split; [left; reflexivity |]. split; [discriminate |].
    intros [Hnone | [t [Ht Hcases]]]; [discriminate Hnone |].
    injection Ht as <-.
    destruct Hcases as [[Hl _] | [[_ [_ [file [Hin _]]]] | [_ Hc]]]; try congruence.
    destruct (Get_ChildItem targetPath); [destruct Hin | discriminate Hempty]. }
  destruct (allValid Strict
              (map (fun file => Invoke_XamlValidation file ProjectJson)
                   (Get_ChildItem targetPath))) eqn:Hall.
  + split; [left; reflexivity |]. split; [discriminate |].
    intros [Hnone | [t [Ht Hcases]]]; [discriminate Hnone |].
    injection Ht as <-.
    destruct Hcases as [[Hl _] | [[_ [_ Hex]] | [_ Hc]]]; try congruence.
    apply allValid_false in Hex. congruence.
  + split; [right; reflexivity |]. split; [intros _ | reflexivity].
    right. exists targetPath. split; [reflexivity |]. right. left.
    split; [exact Hleaf | split; [exact Hdir |]].
    apply allValid_false. exact Hall.
Qed.

(** C4. A single file whose result holds no ERROR and exactly one WARNING
    exits with 1 under [-Strict] and with 0 without it.  In general the exit
    code is 0 or 1, and it is 1 exactly when the path is not found, or is
    neither a file nor a directory, or is a disqualified file, or is a
    directory that holds a disqualified file. *)
Theorem exit_code_policy (Path : string) (Json : bool) (ProjectJson : option string) :
  (forall targetPath,
      Resolve_Path Path = Some targetPath ->
      Test_Path_Leaf targetPath = true ->
      let result := Invoke_XamlValidation targetPath ProjectJson in
      count_severity ERROR (Issues result) = 0 ->
      count_severity WARNING (Issues result) = 1 ->
      snd (main Path true Json ProjectJson) = 1
      /\ snd (main Path false Json ProjectJson) = 0)
  /\ (forall Strict,
        let code := snd (main Path Strict Json ProjectJson) in
        (code = 0 \/ code = 1)
        /\ (code = 1 <->
            Resolve_Path Path = None
            \/ exists targetPath,
                Resolve_Path Path = Some targetPath
                /\ ((Test_Path_Leaf targetPath = true
                     /\ Disqualified Strict (Invoke_XamlValidation targetPath ProjectJson))
                    \/ (Test_Path_Leaf targetPath = false
                        /\ Test_Path_Container targetPath = true
                        /\ exists file,
                            In file (Get_ChildItem targetPath)
                            /\ Disqualified Strict (Invoke_XamlValidation file ProjectJson))
                    \/ (Test_Path_Leaf targetPath = false
                        /\ Test_Path_Container targetPath = false)))).
Proof.
  split; [| apply main_exit_code].
  intros targetPath Hres Hleaf result Herr Hwarn. unfold main.
  rewrite Hres, Hleaf. cbn [snd]. fold result. split.
  - assert (Hd : hasIssues true result = true).
    { unfold hasIssues. apply filter_exists.
      unfold count_severity in Hwarn.
      destruct (List.filter (fun i => severity_eqb (Severity i) WARNING) (Issues result))
        as [|w rest] eqn:E; [discriminate Hwarn |].
      assert (Hw : In w (List.filter (fun i => severity_eqb (Severity i) WARNING)
                                     (Issues result))) by (rewrite E; left; reflexivity).
      apply filter_In in Hw. destruct Hw as [Hin Hw].
      exists w. split; [exact Hin |]. unfold is_warning. rewrite Hw. apply orb_true_r. }
    rewrite Hd. reflexivity.
  - assert (Hd : hasIssues false result = false).
    { unfold hasIssues. unfold count_severity in Herr.
      change (fun i => severity_eqb (Severity i) ERROR) with is_error in Herr.
      rewrite Herr. reflexivity. }
    rewrite Hd. reflexivity.
Qed.

(** C5. In a directory of three documents of which exactly two have a result
    without ERROR, text mode writes the summary with 2/3 files valid and the
    exit code is 1, with or without [-Strict]; and in any directory one
    disqualified file makes the exit code 1. *)
Theorem directory_summary
  (Path : string) (Strict : bool) (ProjectJson : option string) (targetPath : string) :
  Resolve_Path Path = Some targetPath ->
  Test_Path_Leaf targetPath = false ->
  Test_Path_Container targetPath = true ->
  (forall f1 f2 f3,
      Get_ChildItem targetPath = [f1; f2; f3] ->
      length (List.filter
                (fun file =>
                   count_severity ERROR (Issues (Invoke_XamlValidation file ProjectJson)) =? 0)
                [f1; f2; f3]) = 2 ->
      In (OutHost "OVERALL SUMMARY: 2/3 files valid")
         (fst (main Path Strict false ProjectJson))
      /\ snd (main Path Strict false ProjectJson) = 1)
  /\ (forall Json,
        (exists file, In file (Get_ChildItem targetPath)
                      /\ Disqualified Strict (Invoke_XamlValidation file ProjectJson)) ->
        snd (main Path Strict Json ProjectJson) = 1).
Proof.
  intros Hres Hleaf Hdir.
  assert (Hgeneral : forall Json,
             (exists file, In file (Get_ChildItem targetPath)
                           /\ Disqualified Strict (Invoke_XamlValidation file ProjectJson)) ->
             snd (main Path Strict Json ProjectJson) = 1).
  { intros Json Hex.
    apply (main_exit_code Path Json ProjectJson Strict).
    right. exists targetPath. split; [exact Hres |]. right. left. auto. }
  split; [| exact Hgeneral].
  intros f1 f2 f3 Hfiles Hclean. split.
  - unfold main. rewrite Hres, Hleaf, Hdir, Hfiles. cbn [length Nat.eqb fst negb].
    rewrite filter_map_length.
    rewrite (filter_ext_length _
               (fun file =>
                  count_severity ERROR (Issues (Invoke_XamlValidation file ProjectJson)) =? 0))
      by (intros x; apply IsValid_no_error).
    rewrite Hclean.
    apply in_cons, in_cons, in_or_app. right.
    right. right. left. reflexivity.
  - apply Hgeneral.
    pose proof (filter_length_partition
                  (fun file =>
                     count_severity ERROR (Issues (Invoke_XamlValidation file ProjectJson)) =? 0)
                  [f1; f2; f3]) as Hpart.
    rewrite Hclean in Hpart. cbn [length] in Hpart.
    destruct (List.filter
                (fun x => negb (count_severity ERROR
                                  (Issues (Invoke_XamlValidation x ProjectJson)) =? 0))
                [f1; f2; f3]) as [|bad rest] eqn:E; [cbn in Hpart; lia |].
    assert (Hbad : In bad (List.filter
                (fun x => negb (count_severity ERROR
                                  (Issues (Invoke_XamlValidation x ProjectJson)) =? 0))
                [f1; f2; f3])) by (rewrite E; left; reflexivity).
    apply filter_In in Hbad. destruct Hbad as [Hin Hbad].
    exists bad. split; [rewrite Hfiles; exact Hin |].
    rewrite <- IsValid_no_error in Hbad. apply Invoke_IsValid_Disqualified in Hbad.
    destruct Hbad as [i [Hi Hsev]]. exists i. split; [exact Hi |].
    destruct Hsev as [Hsev | [Habs _]]; [left; exact Hsev | discriminate Habs].
Qed.

End ExitCodes.

(** On the sample host the result for NoLevel.xaml holds one WARNING and no
    ERROR. *)
Lemma exit_code_policy_witness :
  snd (@main sample_host "NoLevel.xaml" true true None) = 1
  /\ snd (@main sample_host "NoLevel.xaml" false true None) = 0.
Proof.
  apply (proj1 (@exit_code_policy sample_host "NoLevel.xaml" true None) "NoLevel.xaml");
    vm_compute; reflexivity.
Defined.

(** On the sample host the directory flows holds two clean documents and
    one with a hard-coded password. *)
Lemma directory_summary_witness :
  In (OutHost "OVERALL SUMMARY: 2/3 files valid")
     (fst (@main sample_host "flows" false false None))
  /\ snd (@main sample_host "flows" false false None) = 1.
Proof.
  apply (proj1 (@directory_summary sample_host "flows" false None "flows"
                  ltac:(vm_compute; reflexivity) ltac:(vm_compute; reflexivity)
                  ltac:(vm_compute; reflexivity))
               "flows/A.xaml" "flows/B.xaml" "flows/C.xaml");
    vm_compute; reflexivity.
Defined.

(** ** Namespace usage *)

Lemma missing_after_declaration
  (used : list string) (Namespaces : gmap string (string * string)) (prefix uri : string) :
  List.filter (fun p => negb (ht_ContainsKey (ht_set Namespaces prefix uri) p)) used
  = List.filter (fun p => negb (eq_ci p prefix))
                (List.filter (fun p => negb (ht_ContainsKey Namespaces p)) used).
Proof.
  induction used as [|p used IH]; simpl; [reflexivity |].
  rewrite ht_ContainsKey_set, (eq_ci_sym prefix p).
  destruct (ht_ContainsKey Namespaces p); simpl.
  - rewrite orb_true_r. simpl. exact IH.
  - rewrite orb_false_r. destruct (eq_ci p prefix); simpl; rewrite IH; reflexivity.
Qed.

(** C6. Writing one more prefix into the declared map leaves of the missing
    prefixes exactly those that differ from it (without regard to case, as
    the hashtable compares keys): every prefix missing afterwards was
    missing before, and a text for which the rule added no issue before
    gets no issue afterwards. *)
Theorem namespace_usage_monotone
  (Content : string) (Namespaces : gmap string (string * string))
  (prefix uri : string) (Result : ValidationResult) :
  let declared := ht_set Namespaces prefix uri in
  missing_prefixes Content declared
  = List.filter (fun p => negb (eq_ci p prefix)) (missing_prefixes Content Namespaces)
  /\ (forall p, In p (missing_prefixes Content declared) ->
                In p (missing_prefixes Content Namespaces))
  /\ (Issues (Test_NamespacePrefixUsage Content Namespaces Result) = Issues Result ->
      Issues (Test_NamespacePrefixUsage Content declared Result) = Issues Result)
  /\ (compliance (Test_NamespacePrefixUsage Content Namespaces Result) "HR-Namespace-Usage"
      = Some PASS ->
      compliance (Test_NamespacePrefixUsage Content declared Result) "HR-Namespace-Usage"
      = Some PASS).
Proof.
  intros declared.
  assert (Heq : missing_prefixes Content declared
                = List.filter (fun p => negb (eq_ci p prefix))
                              (missing_prefixes Content Namespaces))
    by apply missing_after_declaration.
  assert (Hnone : missing_prefixes Content Namespaces = [] ->
                  missing_prefixes Content declared = [])
    by (intros Hm; rewrite Heq, Hm; reflexivity).
  split; [exact Heq |]. split; [| split].
  - intros p Hin. rewrite Heq in Hin. apply filter_In in Hin. apply Hin.
  - unfold Test_NamespacePrefixUsage.
    destruct (missing_prefixes Content Namespaces) as [|m rest] eqn:E.
    + rewrite (Hnone eq_refl). intros _. reflexivity.
    + cbn. intros Habs. exfalso.
      apply (f_equal (@length _)) in Habs. rewrite length_app in Habs. cbn in Habs. lia.
  - unfold Test_NamespacePrefixUsage.
    destruct (missing_prefixes Content Namespaces) as [|m rest] eqn:E.
    + rewrite (Hnone eq_refl). intros _. apply compliance_set.
    + cbn [length Nat.ltb Nat.leb]. rewrite compliance_set. discriminate.
Qed.

(** ** Arguments and variables (HR-4) *)

Lemma ps_contains_false (l : list string) (x : string) :
  (forall y, In y l -> lower y <> lower x) -> ps_contains l x = false.
Proof.
  intros Hall. unfold ps_contains. induction l as [|y l IH]; simpl; [reflexivity |].
  rewrite IH by (intros z Hz; apply Hall; right; exact Hz).
  unfold eq_ci. rewrite (proj2 (String.eqb_neq _ _)); [reflexivity |].
  apply Hall. left. reflexivity.
Qed.

Lemma filter_all_false {A : Type} (p : A -> bool) (l : list A) :
  (forall x, In x l -> p x = false) -> List.filter p l = [].
Proof.
  intros Hall. induction l as [|x l IH]; simpl; [reflexivity |].
  rewrite (Hall x) by (left; reflexivity). apply IH. intros y Hy. apply Hall. right. exact Hy.
Qed.

Lemma count_severity_app (sev : severity) (l1 l2 : list ValidationIssue) :
  count_severity sev (l1 ++ l2) = count_severity sev l1 + count_severity sev l2.
Proof. unfold count_severity. rewrite List.filter_app, List.length_app. reflexivity. Qed.

(** C10, amended.  The rule reads its names off the raw text: a variable
    name is what the pattern <Variable\s+[^>]*Name='([^']+)' captures and an
    argument name what <x:Property\s+Name='([^']+)' captures, wherever the
    text matches.  When these names are printable ASCII and no captured
    variable name equals a captured argument name without regard to letter
    case, the rule sets HR-4 to PASS, whether or not it reports arguments
    without a directional prefix; every issue it adds is that WARNING, so
    it adds no ERROR. *)
Theorem HR4_status_from_shadowing_only (Content : string) (Result : ValidationResult) :
  forallb printable (hr4_variables Content ++ hr4_arguments Content) = true ->
  (forall var arg, In var (hr4_variables Content) -> In arg (hr4_arguments Content) ->
                   lower arg <> lower var) ->
  let after := Test_HR4_ArgumentsVariables Content Result in
  compliance after "HR-4" = Some PASS
  /\ (forall i, In i (Issues after) ->
                In i (Issues Result) \/ (Rule i = "HR-4" /\ Severity i = WARNING))
  /\ count_severity ERROR (Issues after) = count_severity ERROR (Issues Result).
Proof.
  intros _ Hdistinct after.
  assert (Hshadow : hr4_shadowed Content = []).
  { unfold hr4_shadowed. apply filter_all_false. intros var Hvar.
    apply ps_contains_false. intros arg Harg. apply Hdistinct; assumption. }
  unfold after, Test_HR4_ArgumentsVariables. rewrite Hshadow.
  destruct (List.filter (fun arg => negb (has_standard_prefix arg)) (hr4_arguments Content))
    as [|bad rest]; cbn [length Nat.ltb Nat.leb].
  - split; [apply compliance_set |].
    split; [intros i Hin; left; exact Hin | reflexivity].
  - split; [apply compliance_set |].
    cbn [set_compliance add_issue Issues]. split.
    + intros i Hin. apply in_app_or in Hin. destruct Hin as [Hin | [<- | []]].
      * left. exact Hin.
      * right. split; reflexivity.
    + rewrite count_severity_app. cbn. lia.
Qed.

(** The document [doc_unprefixed_argument]: the argument Value has no
    directional prefix and no variable bears its name. *)
Lemma HR4_status_from_shadowing_only_witness :
  let after := Test_HR4_ArgumentsVariables doc_unprefixed_argument (empty_result "Main.xaml") in
  compliance after "HR-4" = Some PASS
  /\ Issues after
     = [new_issue "HR-4" WARNING "Arguments missing standard prefix (in_/out_/io_): Value"].
Proof.
  split.
  - apply (HR4_status_from_shadowing_only doc_unprefixed_argument (empty_result "Main.xaml")).
    + vm_compute. reflexivity.
    + intros var arg Hvar Harg. vm_compute in Hvar, Harg.
      destruct Hvar as [<- | []]. destruct Harg as [<- | []]. vm_compute. discriminate.
  - vm_compute. reflexivity.
Defined.

(** The document [doc_commented_variable]: its one variable is counter and
    its one argument in_Value, so no variable bears the name of an
    argument; a comment holds the text of a declaration of a variable
    in_Value.  The rule captures that text as a variable name, reports
    in_Value as shadowing the argument, and sets HR-4 to FAIL. *)
Lemma HR4_commented_variable_counterexample :
  doc_commented_variable = commented_before +:+ commented_variable +:+ commented_after
  /\ commented_variable
     = qq "<!-- <Variable x:TypeArguments='x:String' Name='in_Value' /> -->"
  /\ hr4_arguments (commented_before +:+ commented_after) = ["in_Value"]
  /\ hr4_variables (commented_before +:+ commented_after) = ["counter"]
  /\ hr4_arguments doc_commented_variable = ["in_Value"]
  /\ hr4_variables doc_commented_variable = ["in_Value"; "counter"]
  /\ Test_HR4_ArgumentsVariables doc_commented_variable (empty_result "Main.xaml")
     = set_compliance "HR-4" FAIL
         (add_issue (new_issue "HR-4" ERROR "Variables shadow argument names: in_Value")
                    (empty_result "Main.xaml")).
Proof.
  split; [reflexivity |]. split; [reflexivity |].
  split; [vm_compute; reflexivity |]. split; [vm_compute; reflexivity |].
  split; [vm_compute; reflexivity |]. split; vm_compute; reflexivity.
Qed.

(** An argument in_Value and a variable IN_VALUE: the two names differ, and
    the rule, which compares them without regard to letter case, reports a
    shadowed argument and FAIL. *)
Lemma HR4_case_shadow_counterexample :
  hr4_arguments doc_case_shadow = ["in_Value"]
  /\ hr4_variables doc_case_shadow = ["IN_VALUE"]
  /\ (forall var arg, In var (hr4_variables doc_case_shadow) ->
                      In arg (hr4_arguments doc_case_shadow) -> var <> arg)
  /\ Test_HR4_ArgumentsVariables doc_case_shadow (empty_result "Main.xaml")
     = set_compliance "HR-4" FAIL
         (add_issue (new_issue "HR-4" ERROR "Variables shadow argument names: IN_VALUE")
                    (empty_result "Main.xaml")).
Proof.
  assert (Hargs : hr4_arguments doc_case_shadow = ["in_Value"]) by (vm_compute; reflexivity).
  assert (Hvars : hr4_variables doc_case_shadow = ["IN_VALUE"]) by (vm_compute; reflexivity).
  split; [exact Hargs | split; [exact Hvars | split]].
  - rewrite Hargs, Hvars. intros var arg [<- | []] [<- | []]. discriminate.
  - vm_compute. reflexivity.
Qed.

(** ** IdRef uniqueness (HR-5) *)

Lemma Select_Unique_aux_spec (seen l : list string) :
  List.NoDup (Select_Unique_aux seen l)
  /\ (forall x, In x (Select_Unique_aux seen l) -> In x l /\ ~ In x seen).
Proof.
  revert seen. induction l as [|x l IH]; intros seen; cbn [Select_Unique_aux].
  - split; [constructor | intros y []].
  - destruct (existsb (String.eqb x) seen) eqn:Hseen.
    + destruct (IH seen) as [Hnodup Hin]. split; [exact Hnodup |].
      intros y Hy. destruct (Hin y Hy) as [Hl Hs]. split; [right; exact Hl | exact Hs].
    + destruct (IH (x :: seen)) as [Hnodup Hin]. split.
      * constructor; [| exact Hnodup].
        intros Hx. destruct (Hin x Hx) as [_ Hs]. apply Hs. left. reflexivity.
      * intros y [<- | Hy].
        -- split; [left; reflexivity |].
           intros Hs. apply not_true_iff_false in Hseen. apply Hseen.
           apply existsb_exists. exists x. split; [exact Hs | apply String.eqb_refl].
        -- destruct (Hin y Hy) as [Hl Hs]. split; [right; exact Hl |].
           intros Hs'. apply Hs. right. exact Hs'.
Qed.

(** The duplicates shown in the message are pairwise different: a value
    that occurs several times among the IdRefs is named once. *)
Lemma Select_Unique_NoDup (l : list string) : List.NoDup (Select_Unique l).
Proof. apply Select_Unique_aux_spec. Qed.

Lemma eq_ci_refl (a : string) : eq_ci a a = true.
Proof. apply String.eqb_refl. Qed.

Lemma ps_contains_app (l1 l2 : list string) (x : string) :
  ps_contains (l1 ++ l2) x = ps_contains l1 x || ps_contains l2 x.
Proof. apply existsb_app. Qed.

Lemma ps_contains_cons (y : string) (l : list string) (x : string) :
  ps_contains (y :: l) x = eq_ci y x || ps_contains l x.
Proof. reflexivity. Qed.

Lemma ps_contains_false_iff (l : list string) (x : string) :
  ps_contains l x = false <-> (forall y, In y l -> eq_ci y x = false).
Proof.
  unfold ps_contains. induction l as [|z l IH]; cbn [existsb].
  - split; [intros _ y [] | reflexivity].
  - rewrite orb_false_iff, IH. split.
    + intros [Hz Hl] y [<- | Hy]; auto.
    + intros Hall. split; [apply Hall; left; reflexivity |].
      intros y Hy. apply Hall. right. exact Hy.
Qed.

Lemma hr5_loop_repeated (idrefs seen_list : list string)
  (seen : gmap string (string * bool)) (duplicates : list string) :
  (forall q, ht_ContainsKey seen q = ps_contains seen_list q) ->
  snd (fold_left
         (fun (acc : gmap string (string * bool) * list string) idref =>
            let (seen, duplicates) := acc in
            (ht_set seen idref true,
             if ht_ContainsKey seen idref then duplicates ++ [idref] else duplicates))
         idrefs (seen, duplicates))
  = duplicates ++ repeated seen_list idrefs.
Proof.
  revert seen_list seen duplicates.
  induction idrefs as [|y rest IH]; intros seen_list seen duplicates Hseen;
    cbn [fold_left repeated].
  - cbn. rewrite app_nil_r. reflexivity.
  - rewrite (IH (seen_list ++ [y])).
    + rewrite Hseen. destruct (ps_contains seen_list y); cbn [app].
      * rewrite <- app_assoc. reflexivity.
      * reflexivity.
    + intros q. rewrite ht_ContainsKey_set, Hseen, ps_contains_app, ps_contains_cons.
      cbn [ps_contains existsb]. rewrite orb_false_r. apply orb_comm.
Qed.

(** The loop of the rule collects the repeated values. *)
Lemma hr5_duplicates_repeated (idrefs : list string) :
  hr5_duplicates idrefs = repeated [] idrefs.
Proof.
  unfold hr5_duplicates. rewrite (hr5_loop_repeated idrefs [] ∅ []); [reflexivity |].
  intros q. reflexivity.
Qed.

Lemma repeated_none (seen l : list string) :
  (forall y, In y l -> ps_contains seen y = false) -> ci_distinct l -> repeated seen l = [].
Proof.
  revert seen. induction l as [|y rest IH]; intros seen Hseen Hd; cbn [repeated];
    [reflexivity |].
  destruct Hd as [Hy Hd]. rewrite (Hseen y) by (left; reflexivity). cbn [app].
  apply IH; [| exact Hd].
  intros z Hz. rewrite ps_contains_app, ps_contains_cons, (Hseen z) by (right; exact Hz).
  cbn [ps_contains existsb]. rewrite orb_false_r. cbn [orb].
  rewrite eq_ci_sym. apply (proj1 (ps_contains_false_iff rest y) Hy z Hz).
Qed.

Lemma repeated_app (seen a b : list string) :
  repeated seen (a ++ b) = repeated seen a ++ repeated (seen ++ a) b.
Proof.
  revert seen. induction a as [|y a IH]; intros seen; cbn [app repeated].
  - rewrite app_nil_r. reflexivity.
  - rewrite IH, <- !app_assoc. reflexivity.
Qed.

Lemma ci_distinct_app (a b : list string) :
  ci_distinct (a ++ b)
  <-> ci_distinct a /\ ci_distinct b /\ (forall y, In y a -> ps_contains b y = false).
Proof.
  induction a as [|z a IH]; cbn [app ci_distinct].
  - split; [intros Hb; repeat split; [exact Hb | intros y []] | intros [_ [Hb _]]; exact Hb].
  - rewrite IH, ps_contains_app, orb_false_iff. split.
    + intros [[Hza Hzb] [Ha [Hb Hab]]]. repeat split; try assumption.
      intros y [<- | Hy]; [exact Hzb | apply Hab; exact Hy].
    + intros [[Hza Ha] [Hb Hab]]. repeat split; try assumption.
      * apply Hab. left. reflexivity.
      * intros y Hy. apply Hab. right. exact Hy.
Qed.

(** A list in which one value occurs twice and no other two values are
    equal (letter case ignored) has that value as its only repeated one. *)
Lemma repeated_twice (l1 l2 l3 : list string) (x : string) :
  ci_distinct (l1 ++ x :: l2 ++ l3) ->
  repeated [] (l1 ++ x :: l2 ++ x :: l3) = [x].
Proof.
  intros Hd. apply ci_distinct_app in Hd. destruct Hd as [Hd1 [Hdx H1]].
  cbn [ci_distinct] in Hdx. destruct Hdx as [Hx Hd23].
  apply ci_distinct_app in Hd23. destruct Hd23 as [Hd2 [Hd3 H23]].
  rewrite ps_contains_app in Hx. apply orb_false_iff in Hx. destruct Hx as [Hx2 Hx3].
  rewrite ps_contains_false_iff in Hx2, Hx3.
  assert (E1x : forall y, In y l1 -> eq_ci y x = false).
  { intros y Hy. specialize (H1 y Hy). rewrite ps_contains_cons in H1.
    apply orb_false_iff in H1. rewrite eq_ci_sym. apply H1. }
  assert (E12 : forall y z, In y l1 -> In z l2 -> eq_ci y z = false).
  { intros y z Hy Hz. specialize (H1 y Hy).
    rewrite ps_contains_cons, ps_contains_app, !orb_false_iff in H1.
    destruct H1 as [_ [H1 _]]. rewrite ps_contains_false_iff in H1.
    rewrite eq_ci_sym. apply H1. exact Hz. }
  assert (E13 : forall y z, In y l1 -> In z l3 -> eq_ci y z = false).
  { intros y z Hy Hz. specialize (H1 y Hy).
    rewrite ps_contains_cons, ps_contains_app, !orb_false_iff in H1.
    destruct H1 as [_ [_ H1]]. rewrite ps_contains_false_iff in H1.
    rewrite eq_ci_sym. apply H1. exact Hz. }
  assert (E23 : forall y z, In y l2 -> In z l3 -> eq_ci y z = false).
  { intros y z Hy Hz. specialize (H23 y Hy). rewrite ps_contains_false_iff in H23.
    rewrite eq_ci_sym. apply H23. exact Hz. }
  rewrite repeated_app, (repeated_none [] l1) by (intros; reflexivity || assumption).
  cbn [app repeated].
  rewrite (proj2 (ps_contains_false_iff l1 x) E1x). cbn [app].
  rewrite repeated_app, (repeated_none _ l2); [| | exact Hd2].
  2:{ intros z Hz. rewrite ps_contains_app, ps_contains_cons. cbn [ps_contains existsb].
      rewrite orb_false_r. apply orb_false_iff. split.
      - apply ps_contains_false_iff. intros y Hy. apply E12; assumption.
      - rewrite eq_ci_sym. apply Hx2. exact Hz. }
  cbn [app repeated].
  rewrite !ps_contains_app, ps_contains_cons, eq_ci_refl.
  rewrite orb_true_r. cbn [orb app].
  rewrite (repeated_none _ l3); [reflexivity | | exact Hd3].
  intros z Hz. rewrite !ps_contains_app, !ps_contains_cons. cbn [ps_contains existsb].
  rewrite !orb_false_r, !orb_false_iff. repeat split.
  - apply ps_contains_false_iff. intros y Hy. apply E13; assumption.
  - rewrite eq_ci_sym. apply Hx3. exact Hz.
  - apply ps_contains_false_iff. intros y Hy. apply E23; assumption.
  - rewrite eq_ci_sym. apply Hx3. exact Hz.
Qed.

(** When the IdRefs are collected as an array in which one value occurs
    twice and no other two values are equal, the rule names that value
    once and reports FAIL. *)
Lemma HR5_duplicate_in_array
  (Content : string) (Result : ValidationResult) (l1 l2 l3 : list string) (x : string) :
  hr5_idrefs Content = CMany (l1 ++ x :: l2 ++ x :: l3) ->
  ci_distinct (l1 ++ x :: l2 ++ l3) ->
  Test_HR5_IdRefUniqueness Content Result
  = set_compliance "HR-5" FAIL
      (add_issue (new_issue "HR-5" ERROR ("Duplicate IdRefs found: " +:+ x)) Result).
Proof.
  intros Hids Hd. unfold Test_HR5_IdRefUniqueness. rewrite Hids.
  cbn [enum]. rewrite hr5_duplicates_repeated, (repeated_twice l1 l2 l3 x Hd).
  assert (Hcount : (Count (CMany (l1 ++ x :: l2 ++ x :: l3)) =? 0) = false).
  { unfold Count. cbn [enum]. rewrite List.length_app. cbn [length].
    apply Nat.eqb_neq. lia. }
  rewrite Hcount. reflexivity.
Qed.

(** C7, where the script departs from it.  In [doc_idref_two_spellings] two
    activities carry the IdRef abc, one as sap2010:WorkflowViewState.IdRef
    and one as sap:WorkflowViewState.IdRef.  The first pipeline yields the
    single string abc, so [+=] appends the second abc to the string instead
    of adding it to an array; the loop sees the one value abcabc, finds no
    duplicate, and the rule reports PASS without any issue. *)
Theorem IdRef_duplicate_across_spellings_missed (Result : ValidationResult) :
  map (Group 1) (regex_Matches idrefPattern doc_idref_two_spellings) = ["abc"]
  /\ map (Group 1) (regex_Matches idrefPattern2 doc_idref_two_spellings) = ["abc"]
  /\ hr5_idrefs doc_idref_two_spellings = COne "abcabc"
  /\ Test_HR5_IdRefUniqueness doc_idref_two_spellings Result
     = set_compliance "HR-5" PASS Result.
Proof.
  assert (H1 : map (Group 1) (regex_Matches idrefPattern doc_idref_two_spellings) = ["abc"])
    by (vm_compute; reflexivity).
  assert (H2 : map (Group 1) (regex_Matches idrefPattern2 doc_idref_two_spellings) = ["abc"])
    by (vm_compute; reflexivity).
  assert (H3 : hr5_idrefs doc_idref_two_spellings = COne "abcabc")
    by (unfold hr5_idrefs; rewrite H1, H2; reflexivity).
  split; [exact H1 | split; [exact H2 | split; [exact H3 |]]].
  unfold Test_HR5_IdRefUniqueness. rewrite H3. reflexivity.
Qed.

(** With both activities in the same spelling the duplicate is found and
    named once. *)
Lemma IdRef_duplicate_same_spelling (Result : ValidationResult) :
  Test_HR5_IdRefUniqueness doc_idref_twice Result
  = set_compliance "HR-5" FAIL
      (add_issue (new_issue "HR-5" ERROR "Duplicate IdRefs found: abc") Result).
Proof.
  assert (H3 : hr5_idrefs doc_idref_twice = CMany ["abc"; "abc"])
    by (vm_compute; reflexivity).
  unfold Test_HR5_IdRefUniqueness. rewrite H3. reflexivity.
Qed.

(** ** The JSON report *)

(** C8, where the script departs from it.  The value stored under issues is
    what the pipeline over [$this.Issues] leaves: for a result with exactly
    one issue it is the hashtable of that issue, not a list holding it, and
    for a result without issues it is null. *)
Theorem ToHashtable_issues_not_a_list
  (path : string) (valid : bool) (i : ValidationIssue)
  (comp : gmap string (string * status)) (ctx : project_context) :
  field "issues" (ToHashtable (MkResult path valid [i] comp ctx)) = Some (issue_hashtable i)
  /\ is_list (issue_hashtable i) = false
  /\ field "issues" (ToHashtable (MkResult path valid [] comp ctx)) = Some PSNull.
Proof. split; [reflexivity | split; reflexivity]. Qed.

(** The fields of the report are those of the documented shape, and the two
    counts are the numbers of ERROR and WARNING issues. *)
Lemma ToHashtable_fields (r : ValidationResult) :
  exists issues hr,
    ToHashtable r
    = PSHash [("file_path", PSString (FilePath r));
              ("is_valid", PSBool (IsValid r));
              ("error_count", PSInt (count_severity ERROR (Issues r)));
              ("warning_count", PSInt (count_severity WARNING (Issues r)));
              ("issues", issues);
              ("hr_compliance", PSHash hr);
              ("project_context",
               PSHash [("language", PSString (language (ProjectContext r)));
                       ("compatibility", PSString (compatibility (ProjectContext r)));
                       ("dependencies", dependencies (ProjectContext r));
                       ("projectPath", PSOptString (projectPath (ProjectContext r)))])].
Proof. eexists. eexists. reflexivity. Qed.

Section Report.
Context `{Host}.

(** For a document that the parser rejects, the JSON report of a
    single-file run holds under issues the hashtable of the one issue, not a
    list. *)
Lemma malformed_document_report
  (Path targetPath : string) (Strict : bool) (ProjectJson : option string)
  (content message : string) :
  Resolve_Path Path = Some targetPath ->
  Test_Path_Leaf targetPath = true ->
  Test_Path targetPath = true ->
  Get_Content targetPath = inl content ->
  xml_error content = Some message ->
  exists report,
    fst (main Path Strict true ProjectJson) = [OutJson report]
    /\ field "issues" report
       = Some (issue_hashtable
                 (new_issue "Layer1-XML" ERROR ("XML parsing error: " +:+ message)))
    /\ field "is_valid" report = Some (PSBool false)
    /\ field "error_count" report = Some (PSInt 1).
Proof.
  intros Hres Hleaf Hpath Hread Hxml. unfold main. rewrite Hres, Hleaf.
  unfold Invoke_XamlValidation, Test_XmlWellFormed. rewrite Hpath, Hread, Hxml.
  eexists. split; [reflexivity |]. split; [| split]; reflexivity.
Qed.

End Report.

(** ** Activity structure *)

Lemma flat_map_nil {A B : Type} (f : A -> list B) (l : list A) :
  (forall x, In x l -> f x = []) -> flat_map f l = [].
Proof.
  intros Hall. induction l as [|x l IH]; cbn [flat_map]; [reflexivity |].
  rewrite (Hall x) by (left; reflexivity). apply IH. intros y Hy. apply Hall. right. exact Hy.
Qed.

(** C9, amended.  Take a ui:LogMessage start tag that carries a DisplayName
    attribute (a match [log] of the LogMessage pattern) and whose window,
    the 400 characters from the start of the tag, holds the text Message=
    and not the text Level= (letter case ignored).  When nothing else is
    amiss - the window of every other match of the pattern holds both
    texts, and no other check of the rule finds anything - the rule adds
    exactly one issue, a WARNING that names the activity by its display
    name as missing Level, and sets ActivitySpecific to WARN. *)
Theorem LogMessage_without_Level
  (Content : string) (Result : ValidationResult) (log : Match) (before others : list Match) :
  regex_Matches logPattern Content = before ++ log :: others ->
  (forall m, In m (before ++ others) ->
             ps_match (lit "Level=") (log_window Content m) = true
             /\ ps_match (lit "Message=") (log_window Content m) = true) ->
  ps_match (lit "Level=") (log_window Content log) = false ->
  ps_match (lit "Message=") (log_window Content log) = true ->
  other_activity_issues Content = [] ->
  let after := Test_ActivitySpecific Content Result in
  Issues after
  = Issues Result
    ++ [new_issue "ActivitySpecific" WARNING
          ("Activity structure issues: LogMessage '" +:+ Group 1 log
           +:+ "' missing Level")]
  /\ compliance after "ActivitySpecific" = Some WARN.
Proof.
  intros Hlog Hrest Hlevel Hmessage Hother after.
  assert (Hfine : forall l, (forall m, In m l -> In m (before ++ others)) ->
            flat_map (fun m =>
                        missing (notmatch (lit "Level=") (Get_NearbyContent (Index m) 400 Content))
                                "LogMessage" (Group 1 m) "Level"
                        ++ missing (notmatch (lit "Message=")
                                      (Get_NearbyContent (Index m) 400 Content))
                                   "LogMessage" (Group 1 m) "Message") l = []).
  { intros l Hl. apply flat_map_nil. intros m Hm. destruct (Hrest m (Hl m Hm)) as [H1 H2].
    unfold log_window in H1, H2. unfold notmatch. rewrite H1, H2. reflexivity. }
  assert (Hlogs : log_issues Content
                  = ["LogMessage" +:+ " '" +:+ Group 1 log +:+ "' missing " +:+ "Level"]).
  { unfold log_issues, for_each_activity. rewrite Hlog, flat_map_app. cbn [flat_map].
    rewrite (Hfine before) by (intros m Hm; apply in_or_app; left; exact Hm).
    rewrite (Hfine others) by (intros m Hm; apply in_or_app; right; exact Hm).
    unfold log_window in Hlevel, Hmessage. unfold notmatch. rewrite Hlevel, Hmessage.
    reflexivity. }
  unfold other_activity_issues in Hother.
  repeat (apply app_eq_nil in Hother; destruct Hother as [? Hother]).
  assert (Hall : activity_issues Content
                 = ["LogMessage" +:+ " '" +:+ Group 1 log +:+ "' missing " +:+ "Level"]).
  { unfold activity_issues.
    repeat match goal with Hnil : _ = [] |- _ => rewrite Hnil; clear Hnil end.
    rewrite Hlogs. reflexivity. }
  unfold after, Test_ActivitySpecific. rewrite Hall. cbn [length Nat.ltb Nat.leb].
  split; [| apply compliance_set].
  reflexivity.
Qed.

(** The document [doc_two_logs]: a LogMessage named Log ok with Level and
    Message, followed by a LogMessage named Log start with the attribute
    Message and no Level. *)
Lemma LogMessage_without_Level_witness :
  let after := Test_ActivitySpecific doc_two_logs (empty_result "TwoLogs.xaml") in
  Issues after
  = [new_issue "ActivitySpecific" WARNING
       "Activity structure issues: LogMessage 'Log start' missing Level"]
  /\ compliance after "ActivitySpecific" = Some WARN.
Proof.
  apply (LogMessage_without_Level doc_two_logs (empty_result "TwoLogs.xaml")
           (nth 1 (regex_Matches logPattern doc_two_logs) (MkMatch 0 EmptyString []))
           (firstn 1 (regex_Matches logPattern doc_two_logs)) []).
  - vm_compute. reflexivity.
  - intros m Hm. vm_compute in Hm. destruct Hm as [<- | []].
    split; vm_compute; reflexivity.
  - vm_compute. reflexivity.
  - vm_compute. reflexivity.
  - vm_compute. reflexivity.
Defined.

(** A logging activity with a Message and no Level that carries no
    DisplayName: the pattern of the check does not match it, and the rule
    reports PASS without any issue. *)
Lemma LogMessage_without_DisplayName_counterexample :
  occurs_in unnamed_log doc_unnamed_log
  /\ ps_match (lit "Level=") doc_unnamed_log = false
  /\ regex_Matches logPattern doc_unnamed_log = []
  /\ forall Result,
      Test_ActivitySpecific doc_unnamed_log Result
      = set_compliance "ActivitySpecific" PASS Result.
Proof.
  split; [| split; [| split]].
  - eexists. eexists. reflexivity.
  - vm_compute. reflexivity.
  - vm_compute. reflexivity.
  - intros Result.
    assert (Hnone : activity_issues doc_unnamed_log = []) by (vm_compute; reflexivity).
    unfold Test_ActivitySpecific. rewrite Hnone. reflexivity.
Qed.

(** ** Secrets detection *)

Lemma append_assoc (a b c : string) : (a +:+ b) +:+ c = a +:+ b +:+ c.
Proof.
  induction a as [|x a IH]; [reflexivity |].
  rewrite !append_cons, IH. reflexivity.
Qed.

Lemma starts_app (p : option ascii) (a b : string) :
  starts p (a +:+ b) = starts_in p a b ++ starts (prev_after p a) b.
Proof.
  revert p. induction a as [|c a IH]; intros p; [reflexivity |].
  rewrite append_cons. cbn [starts starts_in prev_after]. rewrite IH. reflexivity.
Qed.

Lemma prev_after_app (p : option ascii) (a b : string) :
  prev_after p (a +:+ b) = prev_after (prev_after p a) b.
Proof.
  revert p. induction a as [|c a IH]; intros p; [reflexivity |].
  rewrite append_cons. cbn [prev_after]. apply IH.
Qed.

Lemma set_mem_letters (c : ascii) : set_mem true letters c = is_letter c.
Proof. destruct c as [[] [] [] [] [] [] [] []]; reflexivity. Qed.

Lemma matches_at_NotBehind (ic : bool) (items : list citem) (r : regex) (st : mstate) :
  matches_at ic r st = false -> matches_at ic (RSeq (RNotBehind items) r) st = false.
Proof.
  unfold matches_at. cbn [run].
  destruct (st_prev st) as [a|]; [destruct (set_mem ic items a) |];
    cbn [flat_map]; rewrite ?app_nil_r; auto.
Qed.

Lemma matches_at_strip (ic : bool) (r : regex) (st : mstate) :
  matches_at ic (strip_behind r) st = false -> matches_at ic r st = false.
Proof.
  destruct r as [| | | | r1 r2 | | | | |]; try (intros Hm; exact Hm).
  destruct r1; try (intros Hm; exact Hm).
  apply matches_at_NotBehind.
Qed.

Lemma no_secret_check_sound (strip : bool) (st : mstate) :
  no_secret_check strip st = true ->
  forall item, In item SecretsPatterns -> matches_at true (fst item) st = false.
Proof.
  unfold no_secret_check. intros Hcheck item Hitem.
  rewrite forallb_forall in Hcheck. specialize (Hcheck item Hitem).
  apply negb_true_iff in Hcheck.
  destruct strip; [apply matches_at_strip |]; exact Hcheck.
Qed.

Lemma no_secret_at_check (positions : list mstate) :
  forallb (no_secret_check false) positions = true -> no_secret_at positions.
Proof.
  intros Hcheck item st Hitem Hst. rewrite forallb_forall in Hcheck.
  apply (no_secret_check_sound false st (Hcheck st Hst) item Hitem).
Qed.

Lemma candidate_check_sound (p : option ascii) (cand post : string) :
  candidate_check p cand post = true -> no_secret_at (starts_in p cand post).
Proof.
  unfold candidate_check. intros Hcheck item st Hitem Hst.
  destruct (starts_in p cand post) as [|first others]; [destruct Hst |].
  apply andb_true_iff in Hcheck. destruct Hcheck as [Hfirst Hothers].
  destruct Hst as [<- | Hst].
  - apply (no_secret_check_sound true first Hfirst item Hitem).
  - apply (no_secret_at_check others Hothers item st Hitem Hst).
Qed.

Lemma existsb_false {A : Type} (p : A -> bool) (l : list A) :
  (forall x, In x l -> p x = false) -> existsb p l = false.
Proof.
  intros Hall. induction l as [|x l IH]; simpl; [reflexivity |].
  rewrite (Hall x) by (left; reflexivity). apply IH. intros y Hy. apply Hall. right. exact Hy.
Qed.

(** A document in which no pattern matches inside a candidate text, nor
    before or after it, has no secret. *)
Lemma no_secret_found (pre cand post : string) :
  candidate_check (prev_after None pre) cand post = true ->
  only_candidate pre cand post ->
  secrets_found (pre +:+ cand +:+ post) = [].
Proof.
  intros Hcand [Hbefore Hafter]. unfold secrets_found.
  rewrite filter_all_false; [reflexivity |].
  intros item Hitem. unfold ps_match.
  rewrite starts_app, starts_app, !existsb_app.
  rewrite <- prev_after_app.
  rewrite (existsb_false _ _ (fun st Hst => Hbefore item st Hitem Hst)).
  rewrite (existsb_false _ _ (fun st Hst => candidate_check_sound _ _ _ Hcand item st Hitem Hst)).
  rewrite (existsb_false _ _ (fun st Hst => Hafter item st Hitem Hst)).
  reflexivity.
Qed.

(** The Password pattern matches the literal where it does not follow a
    letter. *)
Lemma Password_literal_found (pre post : string) :
  not_after_letter pre ->
  In "Hardcoded Password property" (secrets_found (pre +:+ Password_literal +:+ post)).
Proof.
  intros Hpre. unfold secrets_found.
  set (item := nth 1 SecretsPatterns (REps, EmptyString)).
  apply (in_map snd _ item). apply filter_In. split.
  { right. left. reflexivity. }
  unfold ps_match. apply existsb_exists.
  exists (MState (prev_after None pre) (Password_literal +:+ post) [] 0). split.
  - rewrite starts_app. apply in_or_app. right.
    destruct (Password_literal +:+ post); left; reflexivity.
  - unfold matches_at.
    change (fst item) with (RSeq (RNotBehind letters) (strip_behind (fst item))).
    cbn [run st_prev]. unfold not_after_letter in Hpre.
    assert (Hmatch : forall p,
               matches_at true (strip_behind (fst item))
                 (MState p (Password_literal +:+ post) [] 0) = true)
      by (intros p; vm_compute; reflexivity).
    specialize (Hmatch (prev_after None pre)). unfold matches_at in Hmatch.
    destruct (prev_after None pre) as [c|].
    + rewrite set_mem_letters, Hpre. cbn [flat_map]. rewrite app_nil_r. exact Hmatch.
    + cbn [flat_map]. rewrite app_nil_r. exact Hmatch.
Qed.

Lemma prev_after_last (p : option ascii) (pre : string) (c : ascii) :
  prev_after p (pre +:+ String c EmptyString) = Some c.
Proof. rewrite prev_after_app. reflexivity. Qed.

Lemma xml_space_not_letter (c : ascii) : xml_space c = true -> is_letter c = false.
Proof.
  unfold xml_space. intros Hc.
  repeat (apply orb_true_iff in Hc; destruct Hc as [Hc | Hc]);
    apply Ascii.eqb_eq in Hc; subst c; reflexivity.
Qed.

(** C3.  In a document whose only candidate is the null password, a
    password that opens a bracketed expression, or the flag IsPassword set
    to False, the rule adds no issue and sets Secrets to PASS.  In every
    document that holds the attribute Password with the value Sup3rSecret!
    the rule adds an ERROR of rule Secrets and sets Secrets to FAIL; it
    does so wherever the text of the attribute stands, provided it does not
    follow an ASCII letter (where it would be the tail of another name). *)
Theorem secrets_detection_examples (pre post : string) (Result : ValidationResult) :
  (forall cand,
      In cand [Password_null; Password_expression; IsPassword_False] ->
      only_candidate pre cand post ->
      Test_SecretsDetection (pre +:+ cand +:+ post) Result
      = set_compliance "Secrets" PASS Result)
  /\ (not_after_letter pre ->
      let after := Test_SecretsDetection (pre +:+ Password_literal +:+ post) Result in
      (exists message, Issues after = Issues Result ++ [new_issue "Secrets" ERROR message])
      /\ compliance after "Secrets" = Some FAIL)
  /\ (forall doc,
        has_attribute Password_literal doc ->
        let after := Test_SecretsDetection doc Result in
        (exists message, Issues after = Issues Result ++ [new_issue "Secrets" ERROR message])
        /\ compliance after "Secrets" = Some FAIL).
Proof.
  assert (Hfires : forall pre' post',
             not_after_letter pre' ->
             let after := Test_SecretsDetection (pre' +:+ Password_literal +:+ post') Result in
             (exists message,
                 Issues after = Issues Result ++ [new_issue "Secrets" ERROR message])
             /\ compliance after "Secrets" = Some FAIL).
  { intros pre' post' Hpre after. unfold after, Test_SecretsDetection.
    pose proof (Password_literal_found pre' post' Hpre) as Hfound.
    destruct (secrets_found (pre' +:+ Password_literal +:+ post')) as [|name names];
      [destruct Hfound |].
    cbn [length Nat.ltb Nat.leb]. split.
    + eexists. reflexivity.
    + apply compliance_set. }
  split; [| split].
  - intros cand Hcand Honly. unfold Test_SecretsDetection.
    rewrite (no_secret_found pre cand post); [reflexivity | | exact Honly].
    destruct Hcand as [<- | [<- | [<- | []]]]; vm_compute; reflexivity.
  - apply Hfires.
  - intros doc [pre' [c [post' [Hc ->]]]].
    change (pre' +:+ String c (Password_literal +:+ post'))
      with (pre' +:+ (String c EmptyString +:+ Password_literal +:+ post')).
    rewrite <- append_assoc. apply Hfires.
    unfold not_after_letter. rewrite prev_after_last. apply xml_space_not_letter. exact Hc.
Qed.

(** The literal as the tail of the attribute name MyPassword is not the
    attribute Password: the text is in the document and the rule finds
    nothing. *)
Lemma secrets_after_letter_counterexample :
  occurs_in Password_literal doc_my_password
  /\ forall Result,
      Test_SecretsDetection doc_my_password Result = set_compliance "Secrets" PASS Result.
Proof.
  split.
  - exists (secret_before "My"), secret_after. reflexivity.
  - intros Result.
    assert (Hnone : secrets_found doc_my_password = []) by (vm_compute; reflexivity).
    unfold Test_SecretsDetection. rewrite Hnone. reflexivity.
Qed.

(** The four texts as the only attribute of note of a GetPassword
    activity. *)
Lemma secrets_detection_examples_witness :
  Test_SecretsDetection doc_password_null (empty_result "Main.xaml")
  = set_compliance "Secrets" PASS (empty_result "Main.xaml")
  /\ Test_SecretsDetection doc_password_expression (empty_result "Main.xaml")
     = set_compliance "Secrets" PASS (empty_result "Main.xaml")
  /\ Test_SecretsDetection doc_is_password (empty_result "Main.xaml")
     = set_compliance "Secrets" PASS (empty_result "Main.xaml")
  /\ compliance (Test_SecretsDetection doc_secret (empty_result "Main.xaml")) "Secrets"
     = Some FAIL.
Proof.
  split; [| split; [| split]].
  - apply (proj1 (secrets_detection_examples (secret_before EmptyString) secret_after
                    (empty_result "Main.xaml")) Password_null).
    + left. reflexivity.
    + split; apply no_secret_at_check; vm_compute; reflexivity.
  - apply (proj1 (secrets_detection_examples (secret_before EmptyString)
                    (qq "in_Password]'" +:+ secret_after)
                    (empty_result "Main.xaml")) Password_expression).
    + right. left. reflexivity.
    + split; apply no_secret_at_check; vm_compute; reflexivity.
  - apply (proj1 (secrets_detection_examples (secret_before EmptyString) secret_after
                    (empty_result "Main.xaml")) IsPassword_False).
    + right. right. left. reflexivity.
    + split; apply no_secret_at_check; vm_compute; reflexivity.
  - apply (proj2 (proj2 (secrets_detection_examples (secret_before EmptyString) secret_after
                           (empty_result "Main.xaml"))) doc_secret).
    exists (qq ("<Activity x:Class='Main'" +:+ xmlns_decls
                +:+ "><Sequence DisplayName='Main'><ui:GetPassword DisplayName='Get'")),
      " "%char, secret_after.
    split; reflexivity.
Defined.

(** * Further properties of the script *)

(** ** Literal patterns *)

Lemma lower_app (a b : string) : lower (a +:+ b) = lower a +:+ lower b.
Proof.
  induction a as [|c a IH]; [reflexivity |].
  rewrite append_cons. cbn [lower]. rewrite append_cons, IH. reflexivity.
Qed.

Lemma same_text_nil (ic : bool) (w : string) : same_text ic w EmptyString -> w = EmptyString.
Proof.
  unfold same_text. destruct ic; [| tauto].
  destruct w; [reflexivity | discriminate].
Qed.

Lemma same_text_cons (ic : bool) (w : string) (c : ascii) (s : string) :
  same_text ic w (String c s)
  <-> exists a w', w = String a w' /\ chr_eq ic c a = true /\ same_text ic w' s.
Proof.
  unfold same_text, chr_eq. destruct ic.
  - split.
    + destruct w as [|a w']; [discriminate |]. cbn [lower]. intros Heq.
      injection Heq as Ha Hw. exists a, w'. split; [reflexivity |].
      split; [apply Ascii.eqb_eq; symmetry; exact Ha | exact Hw].
    + intros [a [w' [-> [Ha Hw]]]]. apply Ascii.eqb_eq in Ha. cbn [lower].
      rewrite Ha, Hw. reflexivity.
  - split.
    + intros ->. exists c, s. split; [reflexivity |].
      split; [apply Ascii.eqb_refl | reflexivity].
    + intros [a [w' [-> [Ha ->]]]]. apply Ascii.eqb_eq in Ha. rewrite Ha. reflexivity.
Qed.

(** A literal pattern matches at a position exactly when the text there is
    the literal (in some letter case when case is ignored), and then in one
    way. *)
Lemma run_lit_app (ic : bool) (s w rest : string) (p : option ascii)
  (caps : list (nat * string)) (pos : nat) :
  same_text ic w s ->
  run ic (lit s) (MState p (w +:+ rest) caps pos)
  = [MState (prev_after p w) rest caps (pos + String.length w)].
Proof.
  revert w p pos. induction s as [|c s IH]; intros w p pos Hsame.
  - apply same_text_nil in Hsame. subst w. cbn. rewrite Nat.add_0_r. reflexivity.
  - apply same_text_cons in Hsame. destruct Hsame as [a [w' [-> [Ha Hw]]]].
    rewrite append_cons. destruct s as [|c' s'].
    + apply same_text_nil in Hw. subst w'.
      cbn [lit run eat st_rest st_caps st_pos]. rewrite Ha. cbn.
      rewrite Nat.add_1_r. reflexivity.
    + change (lit (String c (String c' s'))) with (RSeq (RChr c) (lit (String c' s'))).
      cbn [run eat st_rest st_caps st_pos]. rewrite Ha. cbn [flat_map].
      rewrite (IH w' (Some a) (S pos) Hw), app_nil_r.
      cbn [prev_after String.length]. rewrite Nat.add_succ_r. reflexivity.
Qed.

Lemma run_lit_inv (ic : bool) (s : string) (st st' : mstate) :
  In st' (run ic (lit s) st) ->
  exists w, same_text ic w s /\ st_rest st = w +:+ st_rest st'.
Proof.
  revert st. induction s as [|c s IH]; intros st.
  - cbn. intros [<- | []]. exists EmptyString. split; [destruct ic; reflexivity | reflexivity].
  - assert (Hhead : forall mid, In mid (eat (chr_eq ic c) st) ->
                      exists a, chr_eq ic c a = true /\ st_rest st = String a (st_rest mid)).
    { unfold eat. destruct (st_rest st) as [|a rest]; [intros mid [] |].
      destruct (chr_eq ic c a) eqn:Ha; [| intros mid []].
      intros mid [<- | []]. exists a. split; [exact Ha | reflexivity]. }
    destruct s as [|c' s'].
    + cbn [lit run]. intros Hin. apply Hhead in Hin. destruct Hin as [a [Ha Hrest]].
      exists (String a EmptyString). split; [| exact Hrest].
      apply same_text_cons. exists a, EmptyString. split; [reflexivity |].
      split; [exact Ha | destruct ic; reflexivity].
    + change (lit (String c (String c' s'))) with (RSeq (RChr c) (lit (String c' s'))).
      cbn [run]. intros Hin. apply in_flat_map in Hin. destruct Hin as [mid [Hmid Hin]].
      apply Hhead in Hmid. destruct Hmid as [a [Ha Hrest]].
      apply IH in Hin. destruct Hin as [w [Hw Hmidrest]].
      exists (String a w). split.
      * apply same_text_cons. exists a, w. split; [reflexivity |]. split; assumption.
      * rewrite Hrest, Hmidrest. reflexivity.
Qed.

Lemma matches_at_true (ic : bool) (r : regex) (st : mstate) :
  matches_at ic r st = true <-> exists st', In st' (run ic r st).
Proof.
  unfold matches_at. destruct (run ic r st) as [|st' l].
  - split; [discriminate | intros [st' []]].
  - split; [intros _; exists st'; left; reflexivity | reflexivity].
Qed.

(** [$t -match 'literal']: the literal occurs in the text in some letter
    case. *)
Lemma ps_match_lit (s t : string) : ps_match (lit s) t = true <-> occurs_ci s t.
Proof.
  rewrite ps_match_spec. unfold occurs_ci. split.
  - intros [a [b [-> Hm]]]. apply matches_at_true in Hm. destruct Hm as [st' Hin].
    apply run_lit_inv in Hin. destruct Hin as [w [Hw Hrest]]. cbn [st_rest] in Hrest.
    exists a, w, (st_rest st'). split; [rewrite Hrest; reflexivity | exact Hw].
  - intros [pre [w [post [-> Hw]]]]. exists pre, (w +:+ post). split; [reflexivity |].
    unfold matches_at. rewrite (run_lit_app true s w post); [reflexivity | exact Hw].
Qed.

Lemma notmatch_lit (s t : string) : notmatch (lit s) t = true <-> ~ occurs_ci s t.
Proof.
  unfold notmatch. rewrite negb_true_iff, <- not_true_iff_false, ps_match_lit. reflexivity.
Qed.

(** ** What a match consumes *)

Lemma eat_suffix (p : ascii -> bool) (st st' : mstate) :
  In st' (eat p st) -> exists w, st_rest st = w +:+ st_rest st'.
Proof.
  unfold eat. destruct (st_rest st) as [|a rest]; [intros [] |].
  destruct (p a); [| intros []]. intros [<- | []].
  exists (String a EmptyString). reflexivity.
Qed.

Lemma suffix_trans (a b c : string) :
  (exists w, a = w +:+ b) -> (exists w, b = w +:+ c) -> exists w, a = w +:+ c.
Proof.
  intros [w1 ->] [w2 ->]. exists (w1 +:+ w2). rewrite append_assoc. reflexivity.
Qed.

Lemma star_run_suffix (step : mstate -> list mstate) (fuel : nat) (st st' : mstate) :
  (forall a b, In b (step a) -> exists w, st_rest a = w +:+ st_rest b) ->
  In st' (star_run step fuel st) -> exists w, st_rest st = w +:+ st_rest st'.
Proof.
  intros Hstep. revert st. induction fuel as [|fuel IH]; intros st; cbn [star_run].
  - intros [<- | []]. exists EmptyString. reflexivity.
  - intros Hin. apply in_app_or in Hin. destruct Hin as [Hin | [<- | []]].
    + apply in_flat_map in Hin. destruct Hin as [mid [Hmid Hin]].
      destruct (st_pos st <? st_pos mid); [| destruct Hin].
      apply (suffix_trans _ (st_rest mid)); [apply Hstep; exact Hmid | apply IH; exact Hin].
    + exists EmptyString. reflexivity.
Qed.

(** The text left by a match is a suffix of the text it started on. *)
Lemma run_suffix (ic : bool) (r : regex) (st st' : mstate) :
  In st' (run ic r st) -> exists w, st_rest st = w +:+ st_rest st'.
Proof.
  revert st st'. induction r as [| c | neg items | | r1 IH1 r2 IH2 | r1 IH1 r2 IH2
                                | r IH | n r IH | r IH | items]; intros st st'; cbn [run].
  - intros [<- | []]. exists EmptyString. reflexivity.
  - apply eat_suffix.
  - apply eat_suffix.
  - apply eat_suffix.
  - intros Hin. apply in_flat_map in Hin. destruct Hin as [mid [Hmid Hin]].
    apply (suffix_trans _ (st_rest mid)); [apply IH1 | apply IH2]; assumption.
  - intros Hin. apply in_app_or in Hin. destruct Hin; [apply IH1 | apply IH2]; assumption.
  - intros Hin. revert Hin. apply star_run_suffix. intros a b. apply IH.
  - intros Hin. apply in_map_iff in Hin. destruct Hin as [mid [<- Hmid]].
    apply IH in Hmid. exact Hmid.
  - destruct (run ic r st); [| intros []].
    intros [<- | []]. exists EmptyString. reflexivity.
  - destruct (st_prev st) as [a|]; [destruct (set_mem ic items a) |].
    + intros [].
    + intros [<- | []]. exists EmptyString. reflexivity.
    + intros [<- | []]. exists EmptyString. reflexivity.
Qed.

(** A pattern that matches at no position of a text has no match in it. *)
Lemma scan_no_match (ic : bool) (r : regex) (s : string) :
  forall index prev,
    (forall st, In st (starts prev s) -> run ic r st = []) ->
    scan ic r 0 index prev s = [].
Proof.
  induction s as [|c s IH]; intros index prev Hno.
  - cbn [scan]. rewrite (Hno (MState prev EmptyString [] 0)); [reflexivity |].
    left. reflexivity.
  - cbn [scan]. rewrite (Hno (MState prev (String c s) [] 0)) by (left; reflexivity).
    apply IH. intros st Hst. apply Hno. right. exact Hst.
Qed.

(** A pattern whose matches all pass through the literal [s] has no match
    in a text where [s] does not occur. *)
Lemma regex_Matches_needs (r : regex) (s Content : string) :
  (forall st st', In st' (run false r st) -> occurs_in s (st_rest st)) ->
  ~ occurs_in s Content ->
  regex_Matches r Content = [].
Proof.
  intros Hneeds Hno. unfold regex_Matches. apply scan_no_match.
  intros st Hst. apply in_starts in Hst. destruct Hst as [a [b [-> ->]]].
  destruct (run false r (MState (prev_after None a) b [] 0)) as [|st' l] eqn:Hrun;
    [reflexivity |].
  exfalso. apply Hno.
  destruct (Hneeds (MState (prev_after None a) b [] 0) st') as [pre [post Hocc]].
  { rewrite Hrun. left. reflexivity. }
  cbn [st_rest] in Hocc. exists (a +:+ pre), post. rewrite Hocc, append_assoc. reflexivity.
Qed.

Lemma run_seq (ic : bool) (r1 r2 : regex) (st st' : mstate) :
  In st' (run ic (RSeq r1 r2) st)
  <-> exists mid, In mid (run ic r1 st) /\ In st' (run ic r2 mid).
Proof. cbn [run]. apply in_flat_map. Qed.

(** ** Rules that test for a literal *)

(** X1.  Test-HR0-TemplateStructure looks for the text x:Class= in any
    letter case and nowhere in particular: a document that holds it
    anywhere gets HR-0 = PASS and no issue, any other document gets HR-0 =
    WARN and one WARNING. *)
Theorem HR0_warns_iff_no_x_Class (Content : string) (Result : ValidationResult) :
  let after := Rules.Test_HR0_TemplateStructure Content Result in
  (occurs_ci "x:Class=" Content -> after = set_compliance "HR-0" PASS Result)
  /\ (~ occurs_ci "x:Class=" Content ->
      after = set_compliance "HR-0" WARN
                (add_issue (new_issue "HR-0" WARNING
                              "Missing x:Class attribute - may not be a valid UiPath workflow template")
                           Result))
  /\ (compliance after "HR-0" = Some WARN <-> ~ occurs_ci "x:Class=" Content).
Proof.
  intros after. unfold after, Rules.Test_HR0_TemplateStructure. cbv zeta.
  destruct (ps_match (lit "x:Class=") Content) eqn:Hm; cbn [negb].
  - apply ps_match_lit in Hm. split; [reflexivity |]. split; [tauto |].
    rewrite compliance_set. split; [discriminate | tauto].
  - assert (Hno : ~ occurs_ci "x:Class=" Content).
    { rewrite <- ps_match_lit, Hm. discriminate. }
    split; [tauto |]. split; [reflexivity |].
    rewrite compliance_set. tauto.
Qed.

(** X2.  Test-LoggingPractices adds its INFO issue exactly when none of the
    texts LogMessage, Log Message and WriteLine occurs in the document in
    any letter case; it never touches the compliance map. *)
Theorem LoggingPractices_iff_no_logging_text (Content : string) (Result : ValidationResult) :
  let after := Rules.Test_LoggingPractices Content Result in
  let hasLogging :=
    occurs_ci "LogMessage" Content \/ occurs_ci "Log Message" Content
    \/ occurs_ci "WriteLine" Content in
  (hasLogging -> after = Result)
  /\ (~ hasLogging ->
      after = add_issue (new_issue "Standards-Logging" INFO
                           "No logging activities found. Consider adding Log Message for debugging.")
                        Result)
  /\ HRCompliance after = HRCompliance Result.
Proof.
  intros after hasLogging. unfold after, hasLogging, Rules.Test_LoggingPractices. cbv zeta.
  rewrite <- !ps_match_lit.
  destruct (ps_match (lit "LogMessage") Content), (ps_match (lit "Log Message") Content),
    (ps_match (lit "WriteLine") Content); cbn [orb negb];
    (split; [| split]); try reflexivity; try tauto;
    intros Hno; exfalso; (intuition discriminate).
Qed.


(** ** Forbidden UI automation *)

Lemma ps_match_tag (tag w pre post : string) (c : ascii) :
  lower w = lower tag ->
  is_white_space c = true \/ c = ">"%char ->
  ps_match (tag_pattern tag) (pre +:+ w +:+ String c post) = true.
Proof.
  intros Hw Hc. apply ps_match_spec. exists pre, (w +:+ String c post).
  split; [reflexivity |]. apply matches_at_true.
  eexists. unfold tag_pattern. cbn [rseq]. apply run_seq. eexists. split.
  - rewrite (run_lit_app true tag w); [left; reflexivity | exact Hw].
  - cbn [run eat st_rest st_caps st_pos].
    assert (Hmem : set_mem true [CSpace; CChar ">"%char] c = true).
    { unfold set_mem. cbn [existsb item_mem].
      destruct Hc as [Hc | ->]; [rewrite Hc; reflexivity |].
      rewrite Ascii.eqb_refl. apply orb_true_iff. right. reflexivity. }
    rewrite Hmem. left. reflexivity.
Qed.

(** X4.  Test-HR7-NoUIAutomation fires on every row of its table: a start
    tag of the table, in any letter case, followed by white space or by >,
    anywhere in the document, gives HR-7 = FAIL and one ERROR of rule
    HR-7. *)
Theorem HR7_forbidden_tag_fails
  (tag name w pre post : string) (c : ascii) (Result : ValidationResult) :
  In (tag, name) uiActivityTags ->
  lower w = lower tag ->
  is_white_space c = true \/ c = ">"%char ->
  let after := Rules.Test_HR7_NoUIAutomation (pre +:+ w +:+ String c post) Result in
  compliance after "HR-7" = Some FAIL
  /\ (exists message, Issues after = Issues Result ++ [new_issue "HR-7" ERROR message])
  /\ In name (Rules.uiActivitiesFound (pre +:+ w +:+ String c post)).
Proof.
  intros Htag Hw Hc after.
  assert (Hfound : In name (Rules.uiActivitiesFound (pre +:+ w +:+ String c post))).
  { unfold Rules.uiActivitiesFound. apply in_or_app. left.
    apply (in_map snd _ (tag_pattern tag, name)). apply filter_In. split.
    - unfold uiActivityXmlPatterns.
      apply (in_map (fun item => (tag_pattern (fst item), snd item)) _ (tag, name)).
      exact Htag.
    - cbn [fst]. apply ps_match_tag; assumption. }
  unfold after, Rules.Test_HR7_NoUIAutomation. cbv zeta.
  destruct (Rules.uiActivitiesFound (pre +:+ w +:+ String c post)) as [|x l] eqn:Hl;
    [destruct Hfound |].
  cbn [length Nat.ltb Nat.leb]. split; [apply compliance_set |].
  split; [eexists; reflexivity | exact Hfound].
Qed.

Lemma HR7_forbidden_tag_fails_witness :
  compliance
    (Rules.Test_HR7_NoUIAutomation
       (qq ("<Activity x:Class='Main'" +:+ xmlns_decls +:+ "><Sequence>")
        +:+ "<UI:CLICK" +:+ String " " (qq "DisplayName='Press' /></Sequence></Activity>"))
       (empty_result "Main.xaml")) "HR-7" = Some FAIL.
Proof.
  refine (proj1 (HR7_forbidden_tag_fails "<ui:Click" "Click activity" "<UI:CLICK"
                   (qq ("<Activity x:Class='Main'" +:+ xmlns_decls +:+ "><Sequence>"))
                   (qq "DisplayName='Press' /></Sequence></Activity>") " "%char
                   (empty_result "Main.xaml") _ _ _)).
  - left. reflexivity.
  - reflexivity.
  - left. reflexivity.
Defined.

(** ** Activity checks and the DisplayName attribute *)

Lemma with_DisplayName_needs (open : regex) (st st' : mstate) :
  In st' (run false (with_DisplayName open) st) ->
  occurs_in (qq "DisplayName='") (st_rest st).
Proof.
  unfold with_DisplayName. cbn [rseq]. intros Hin.
  apply run_seq in Hin. destruct Hin as [m1 [H1 Hin]].
  apply run_seq in Hin. destruct Hin as [m2 [H2 Hin]].
  apply run_seq in Hin. destruct Hin as [m3 [H3 Hin]].
  apply run_seq in Hin. destruct Hin as [m4 [H4 _]].
  apply run_suffix in H1. destruct H1 as [w1 H1].
  apply run_suffix in H2. destruct H2 as [w2 H2].
  apply run_lit_inv in H3. destruct H3 as [w3 [Hw3 H3]]. cbn [same_text] in Hw3. subst w3.
  change (RChr dquote) with (lit (String dquote EmptyString)) in H4.
  apply run_lit_inv in H4. destruct H4 as [w4 [Hw4 H4]]. cbn [same_text] in Hw4. subst w4.
  exists (w1 +:+ w2), (st_rest m4).
  rewrite H1, H2, H3, H4, !append_assoc. reflexivity.
Qed.

Lemma no_DisplayName_no_match (open : regex) (Content : string) :
  ~ occurs_in (qq "DisplayName='") Content ->
  regex_Matches (with_DisplayName open) Content = [].
Proof.
  apply regex_Matches_needs. intros st st'. apply with_DisplayName_needs.
Qed.

Lemma occurs_in_ci (s t : string) : occurs_in s t -> occurs_ci s t.
Proof. intros [pre [post ->]]. exists pre, s, post. split; reflexivity. Qed.

(** X5.  Every per-activity check of Test-ActivitySpecific starts from a
    start tag that carries a DisplayName attribute.  In a document without
    the text DisplayName= followed by a double quote, none of them reports
    anything: the only finding left is the one on the element syntax of
    LogMessage.Message, and without it the rule sets ActivitySpecific =
    PASS. *)
Theorem ActivitySpecific_needs_DisplayName (Content : string) (Result : ValidationResult) :
  ~ occurs_in (qq "DisplayName='") Content ->
  activity_issues Content = log_element_issues Content
  /\ (ps_match logMsgElemPattern Content = false ->
      Test_ActivitySpecific Content Result = set_compliance "ActivitySpecific" PASS Result).
Proof.
  intros Hno.
  assert (Hissues : activity_issues Content = log_element_issues Content).
  { unfold activity_issues, control_flow_issues, loop_issues, invoke_issues, log_issues,
      dialog_issues, file_issues, excel_issues, flowchart_issues, for_each_activity,
      logPattern.
    rewrite !(no_DisplayName_no_match _ Content Hno). cbn [flat_map app].
    apply app_nil_r. }
  split; [exact Hissues |].
  intros Hlog. unfold Test_ActivitySpecific. cbv zeta.
  rewrite Hissues. unfold log_element_issues. rewrite Hlog. reflexivity.
Qed.

Lemma ActivitySpecific_needs_DisplayName_witness :
  Test_ActivitySpecific
    (workflow "<Sequence><ui:LogMessage Message='[x]' /><Assign /><If /></Sequence>")
    (empty_result "Main.xaml")
  = set_compliance "ActivitySpecific" PASS (empty_result "Main.xaml").
Proof.
  apply (ActivitySpecific_needs_DisplayName
           (workflow "<Sequence><ui:LogMessage Message='[x]' /><Assign /><If /></Sequence>")
           (empty_result "Main.xaml")).
  - intros Hocc. apply occurs_in_ci, ps_match_lit in Hocc.
    vm_compute in Hocc. discriminate Hocc.
  - vm_compute. reflexivity.
Defined.

(** ** Hashtables filled in a loop *)

Lemma eq_ci_true (a b : string) : eq_ci a b = true <-> lower a = lower b.
Proof. unfold eq_ci. apply String.eqb_eq. Qed.

Lemma ht_get_set {V : Type} (h : gmap string (string * V)) (k q : string) (v : V) :
  ht_get (ht_set h k v) q = if eq_ci k q then Some v else ht_get h q.
Proof.
  unfold ht_get, ht_set, eq_ci.
  destruct (String.eqb (lower k) (lower q)) eqn:Heq.
  - apply String.eqb_eq in Heq. rewrite <- Heq.
    destruct (h !! lower k) as [[k0 v0]|]; rewrite lookup_insert_eq; reflexivity.
  - apply String.eqb_neq in Heq.
    destruct (h !! lower k) as [[k0 v0]|]; rewrite lookup_insert_ne by exact Heq; reflexivity.
Qed.

Lemma find_app {A : Type} (p : A -> bool) (l1 l2 : list A) :
  find p (l1 ++ l2) = match find p l1 with Some x => Some x | None => find p l2 end.
Proof.
  induction l1 as [|x l1 IH]; [reflexivity |]. cbn [app find].
  destruct (p x); [reflexivity | exact IH].
Qed.

(** After a loop of assignments [$h[key] = value] the value under a key is
    that of the last assignment to it, letter case ignored. *)
Lemma ht_get_fold {A V : Type} (K : A -> string) (W : A -> V) (l : list A)
  (h : gmap string (string * V)) (q : string) :
  ht_get (fold_left (fun h m => ht_set h (K m) (W m)) l h) q
  = match find (fun m => eq_ci (K m) q) (rev l) with
    | Some m => Some (W m)
    | None => ht_get h q
    end.
Proof.
  revert h. induction l as [|m l IH]; intros h; [reflexivity |].
  cbn [fold_left rev]. rewrite IH, find_app.
  destruct (find (fun m0 => eq_ci (K m0) q) (rev l)); [reflexivity |].
  cbn [find]. rewrite ht_get_set. destruct (eq_ci (K m) q); reflexivity.
Qed.

(** X6.  Get-Namespaces: the URI recorded for a prefix (of printable ASCII
    characters) is that of the last declaration in the text whose prefix
    equals it when letter case is ignored, and a prefix is recorded exactly
    when the text has such a declaration. *)
Theorem Get_Namespaces_last_declaration (Content prefix : string) :
  printable prefix = true ->
  let declarations := regex_Matches namespace_pattern Content in
  ht_get (Get_Namespaces Content) prefix
  = match find (fun m => eq_ci (Group 1 m) prefix) (rev declarations) with
    | Some m => Some (Group 2 m)
    | None => None
    end
  /\ (ht_ContainsKey (Get_Namespaces Content) prefix = true
      <-> exists m, In m declarations /\ lower (Group 1 m) = lower prefix).
Proof.
  intros _ declarations.
  assert (Hget : ht_get (Get_Namespaces Content) prefix
                 = match find (fun m => eq_ci (Group 1 m) prefix) (rev declarations) with
                   | Some m => Some (Group 2 m)
                   | None => None
                   end).
  { unfold Get_Namespaces. rewrite (ht_get_fold (Group 1) (Group 2)). reflexivity. }
  split; [exact Hget |].
  assert (Hkey : ht_ContainsKey (Get_Namespaces Content) prefix = true
                 <-> ht_get (Get_Namespaces Content) prefix <> None).
  { unfold ht_ContainsKey, ht_get.
    destruct (Get_Namespaces Content !! lower prefix); cbn; split; congruence. }
  rewrite Hkey, Hget. split.
  - destruct (find (fun m => eq_ci (Group 1 m) prefix) (rev declarations)) as [m|] eqn:Hfind;
      [| congruence].
    intros _. apply find_some in Hfind. destruct Hfind as [Hin Heq].
    exists m. split; [apply in_rev; exact Hin | apply eq_ci_true; exact Heq].
  - intros [m [Hin Heq]].
    destruct (find (fun m => eq_ci (Group 1 m) prefix) (rev declarations)) as [m'|] eqn:Hfind;
      [discriminate |].
    exfalso. apply in_rev in Hin. apply (find_none _ _ Hfind m) in Hin.
    apply eq_ci_true in Heq. rewrite Heq in Hin. discriminate Hin.
Qed.

(** The prefix ui is declared once in [doc_clean]; it is found under the
    spelling UI. *)
Lemma Get_Namespaces_last_declaration_witness :
  ht_ContainsKey (Get_Namespaces doc_clean) "UI" = true.
Proof.
  apply (proj2 (Get_Namespaces_last_declaration doc_clean "UI" eq_refl)).
  exists (nth 2 (regex_Matches namespace_pattern doc_clean) (MkMatch 0 EmptyString [])).
  split; vm_compute; [right; right; left |]; reflexivity.
Defined.

(** ** Arguments and variables *)

Lemma ps_contains_true (l : list string) (x : string) :
  ps_contains l x = true <-> exists y, In y l /\ lower y = lower x.
Proof.
  unfold ps_contains. rewrite existsb_exists.
  split; intros [y [Hin Heq]]; exists y; (split; [exact Hin |]); apply eq_ci_true; exact Heq.
Qed.

(** X7.  Test-HR4-ArgumentsVariables, on captured names of printable ASCII
    characters, sets HR-4 = FAIL exactly when some captured variable name
    equals some captured argument name with letter case ignored; it then
    adds one ERROR that lists the shadowing variables in document order,
    and otherwise it adds no ERROR. *)
Theorem HR4_fails_iff_shadowing (Content : string) (Result : ValidationResult) :
  forallb printable (hr4_variables Content ++ hr4_arguments Content) = true ->
  let after := Test_HR4_ArgumentsVariables Content Result in
  let shadowing :=
    exists var arg, In var (hr4_variables Content) /\ In arg (hr4_arguments Content)
                    /\ lower arg = lower var in
  (compliance after "HR-4" = Some FAIL <-> shadowing)
  /\ (shadowing ->
      exists before,
        Issues after
        = before ++ [new_issue "HR-4" ERROR
                       ("Variables shadow argument names: "
                        +:+ join ", " (hr4_shadowed Content))]
        /\ count_severity ERROR before = count_severity ERROR (Issues Result))
  /\ (~ shadowing ->
      count_severity ERROR (Issues after) = count_severity ERROR (Issues Result)).
Proof.
  intros _ after shadowing.
  assert (Hshadow : (0 <? length (hr4_shadowed Content)) = true <-> shadowing).
  { unfold hr4_shadowed, shadowing. rewrite filter_exists. split.
    - intros [var [Hvar Hc]]. apply ps_contains_true in Hc. destruct Hc as [arg [Harg Heq]].
      exists var, arg. split; [exact Hvar |]. split; assumption.
    - intros [var [arg [Hvar [Harg Heq]]]]. exists var. split; [exact Hvar |].
      apply ps_contains_true. exists arg. split; assumption. }
  assert (Hbefore : forall R1,
             R1 = (if 0 <? length (List.filter (fun arg => negb (has_standard_prefix arg))
                                               (hr4_arguments Content))
                   then add_issue
                          (new_issue "HR-4" WARNING
                             ("Arguments missing standard prefix (in_/out_/io_): "
                              +:+ display 5 ", "
                                    (List.filter (fun arg => negb (has_standard_prefix arg))
                                                 (hr4_arguments Content))))
                          Result
                   else Result) ->
             count_severity ERROR (Issues R1) = count_severity ERROR (Issues Result)).
  { intros R1 ->.
    destruct (0 <? length (List.filter (fun arg => negb (has_standard_prefix arg))
                                       (hr4_arguments Content))); [| reflexivity].
    cbn [Issues add_issue]. rewrite count_severity_app. cbn. lia. }
  unfold after, Test_HR4_ArgumentsVariables. cbv zeta.
  destruct (0 <? length (hr4_shadowed Content)) eqn:Hs.
  - assert (Hyes : shadowing) by (apply Hshadow; reflexivity).
    split; [rewrite compliance_set; tauto |]. split; [| tauto].
    intros _. eexists. split; [reflexivity |]. apply Hbefore. reflexivity.
  - assert (Hno : ~ shadowing) by (rewrite <- Hshadow; discriminate).
    split; [rewrite compliance_set; split; [discriminate | tauto] |].
    split; [tauto |]. intros _. cbn [Issues set_compliance]. apply Hbefore. reflexivity.
Qed.

Lemma HR4_fails_iff_shadowing_witness :
  compliance (Test_HR4_ArgumentsVariables doc_case_shadow (empty_result "Main.xaml")) "HR-4"
  = Some FAIL.
Proof.
  apply (proj1 (HR4_fails_iff_shadowing doc_case_shadow (empty_result "Main.xaml") eq_refl)).
  exists "IN_VALUE", "in_Value".
  split; [vm_compute; left; reflexivity |].
  split; [vm_compute; left; reflexivity | reflexivity].
Defined.

(** ** IdRefs *)

Lemma repeated_nil (seen l : list string) :
  repeated seen l = [] ->
  (forall y, In y l -> ps_contains seen y = false) /\ ci_distinct l.
Proof.
  revert seen. induction l as [|y rest IH]; intros seen; cbn [repeated ci_distinct].
  - intros _. split; [intros y [] | exact I].
  - intros Hnil. apply app_eq_nil in Hnil. destruct Hnil as [Hy Hrest].
    apply IH in Hrest. destruct Hrest as [Hseen Hdistinct].
    assert (Hy' : ps_contains seen y = false).
    { destruct (ps_contains seen y); [discriminate Hy | reflexivity]. }
    split; [| split; [| exact Hdistinct]].
    + intros z [<- | Hz]; [exact Hy' |].
      specialize (Hseen z Hz). rewrite ps_contains_app in Hseen.
      apply orb_false_iff in Hseen. tauto.
    + apply ps_contains_false_iff. intros z Hz.
      specialize (Hseen z Hz). rewrite ps_contains_app in Hseen.
      apply orb_false_iff in Hseen. destruct Hseen as [_ Hyz].
      cbn [ps_contains existsb] in Hyz. rewrite orb_false_r in Hyz.
      rewrite eq_ci_sym. exact Hyz.
Qed.

Lemma collect_CMany {A : Type} (l l' : list A) : collect l = CMany l' -> l' = l /\ 2 <= length l.
Proof.
  destruct l as [|a [|b l]]; cbn [collect]; try discriminate.
  intros Heq. injection Heq as <-. split; [reflexivity | cbn; lia].
Qed.

Lemma hr5_idrefs_CMany (Content : string) (l : list string) :
  hr5_idrefs Content = CMany l -> 2 <= length l.
Proof.
  unfold hr5_idrefs. cbv zeta.
  destruct (collect (map (Group 1) (regex_Matches idrefPattern Content))) as [|a|l1] eqn:H1;
    cbn [ps_add].
  - intros H2. apply collect_CMany in H2. destruct H2 as [-> H2]. exact H2.
  - destruct (collect (map (Group 1) (regex_Matches idrefPattern2 Content))); discriminate.
  - intros Heq. injection Heq as <-. apply collect_CMany in H1. destruct H1 as [-> H1].
    rewrite List.length_app. lia.
Qed.

(** X8.  Test-HR5-IdRefUniqueness, when the IdRefs it collected form an array
    (of texts of printable ASCII characters): the rule sets HR-5 = FAIL and
    adds one ERROR exactly when two of them are equal with letter case
    ignored, and sets HR-5 = PASS without an issue otherwise. *)
Theorem HR5_array_fails_iff_repeated
  (Content : string) (Result : ValidationResult) (idrefs : list string) :
  hr5_idrefs Content = CMany idrefs ->
  forallb printable idrefs = true ->
  let after := Test_HR5_IdRefUniqueness Content Result in
  (ci_distinct idrefs -> after = set_compliance "HR-5" PASS Result)
  /\ (~ ci_distinct idrefs ->
      compliance after "HR-5" = Some FAIL
      /\ exists message, Issues after = Issues Result ++ [new_issue "HR-5" ERROR message]).
Proof.
  intros Hids _ after. pose proof (hr5_idrefs_CMany Content idrefs Hids) as Hlen.
  unfold after, Test_HR5_IdRefUniqueness. cbv zeta. rewrite Hids.
  unfold Count. cbn [enum].
  destruct (length idrefs =? 0) eqn:Hzero; [apply Nat.eqb_eq in Hzero; lia |].
  rewrite hr5_duplicates_repeated. split.
  - intros Hdistinct. rewrite repeated_none; [reflexivity | | exact Hdistinct].
    intros y _. reflexivity.
  - intros Hnot. destruct (repeated [] idrefs) as [|d ds] eqn:Hrep.
    + exfalso. apply Hnot. apply (repeated_nil [] idrefs Hrep).
    + cbn [length Nat.ltb Nat.leb]. split; [apply compliance_set |].
      eexists. reflexivity.
Qed.

Lemma HR5_array_fails_iff_repeated_witness :
  compliance (Test_HR5_IdRefUniqueness doc_idref_twice (empty_result "Main.xaml")) "HR-5"
  = Some FAIL.
Proof.
  refine (proj1 (proj2 (HR5_array_fails_iff_repeated doc_idref_twice
                          (empty_result "Main.xaml") ["abc"; "abc"] _ _) _)).
  - vm_compute. reflexivity.
  - reflexivity.
  - cbn. intros [H _]. discriminate H.
Defined.

(** X9.  Test-HR5-IdRefUniqueness, when exactly one attribute
    sap2010:WorkflowViewState.IdRef is found: the collected value is a
    single string, to which the sap: values are appended as text, so the
    rule sets HR-5 = PASS and adds no issue whatever the other IdRefs are. *)
Theorem HR5_single_sap2010_IdRef_passes
  (Content : string) (Result : ValidationResult) (idref : string) :
  map (Group 1) (regex_Matches idrefPattern Content) = [idref] ->
  Test_HR5_IdRefUniqueness Content Result = set_compliance "HR-5" PASS Result.
Proof.
  intros Hone. unfold Test_HR5_IdRefUniqueness, hr5_idrefs. cbv zeta. rewrite Hone.
  cbn [collect ps_add].
  destruct (collect (map (Group 1) (regex_Matches idrefPattern2 Content)));
    unfold Count; cbn [enum length Nat.eqb]; rewrite hr5_duplicates_repeated; reflexivity.
Qed.

Lemma HR5_single_sap2010_IdRef_passes_witness :
  Test_HR5_IdRefUniqueness doc_idref_two_spellings (empty_result "Main.xaml")
  = set_compliance "HR-5" PASS (empty_result "Main.xaml").
Proof.
  apply (HR5_single_sap2010_IdRef_passes doc_idref_two_spellings
           (empty_result "Main.xaml") "abc").
  vm_compute. reflexivity.
Defined.

(** ** The discipline of the rules *)

Lemma report_findings_disciplined
  (rule : string) (heading : string) (shown : nat) (findings : list string) :
  disciplined (Some rule) 1 (report_findings rule ERROR FAIL heading shown findings)
  /\ disciplined (Some rule) 1 (report_findings rule WARNING WARN heading shown findings).
Proof. split; unfold report_findings; disciplined_by_cases. Qed.

Lemma HR0_disciplined (content : string) :
  disciplined (Some "HR-0") 1 (Rules.Test_HR0_TemplateStructure content).
Proof. unfold Rules.Test_HR0_TemplateStructure. disciplined_by_cases. Qed.

Lemma HR2_disciplined (content : string) (namespaces : gmap string (string * string)) :
  disciplined (Some "HR-2") 2 (Rules.Test_HR2_RootInvariants content namespaces).
Proof. unfold Rules.Test_HR2_RootInvariants. disciplined_by_cases. Qed.

Lemma NamespacePrefixUsage_disciplined
  (content : string) (namespaces : gmap string (string * string)) :
  disciplined (Some "HR-Namespace-Usage") 1 (Test_NamespacePrefixUsage content namespaces).
Proof. unfold Test_NamespacePrefixUsage. disciplined_by_cases. Qed.

Lemma HR3_disciplined (content : string) :
  disciplined (Some "HR-3") 1 (Rules.Test_HR3_PrimaryContainer content).
Proof. unfold Rules.Test_HR3_PrimaryContainer. disciplined_by_cases. Qed.

Lemma HR4_disciplined (content : string) :
  disciplined (Some "HR-4") 2 (Test_HR4_ArgumentsVariables content).
Proof. unfold Test_HR4_ArgumentsVariables. disciplined_by_cases. Qed.

Lemma HR5_disciplined (content : string) :
  disciplined (Some "HR-5") 1 (Test_HR5_IdRefUniqueness content).
Proof. unfold Test_HR5_IdRefUniqueness. disciplined_by_cases. Qed.

Lemma HR503_disciplined (content : string) :
  disciplined (Some "HR-503") 1 (Rules.Test_HR503_IdRefDualDeclaration content).
Proof. unfold Rules.Test_HR503_IdRefDualDeclaration. disciplined_by_cases. Qed.

Lemma HR6_disciplined (content : string) :
  disciplined (Some "HR-6") 1 (Rules.Test_HR6_ExpressionEncoding content).
Proof. unfold Rules.Test_HR6_ExpressionEncoding. disciplined_by_cases. Qed.

Lemma DoubleEncoding_disciplined (content : string) :
  disciplined (Some "HR-Double-Encoding") 1 (Rules.Test_DoubleEncoding content).
Proof. unfold Rules.Test_DoubleEncoding. apply report_findings_disciplined. Qed.

Lemma HR7_disciplined (content : string) :
  disciplined (Some "HR-7") 1 (Rules.Test_HR7_NoUIAutomation content).
Proof. unfold Rules.Test_HR7_NoUIAutomation. disciplined_by_cases. Qed.

Lemma HR9_disciplined (content : string) :
  disciplined (Some "HR-9") 1 (Rules.Test_HR9_FlowchartViewState content).
Proof. unfold Rules.Test_HR9_FlowchartViewState. disciplined_by_cases. Qed.

Lemma HR701_disciplined (findings : string -> list string) (content : string) :
  disciplined (Some "HR-701") 1 (Rules.Test_HR701_InvokeCodeLateBinding findings content).
Proof. unfold Rules.Test_HR701_InvokeCodeLateBinding. apply report_findings_disciplined. Qed.

Lemma SecretsDetection_disciplined (content : string) :
  disciplined (Some "Secrets") 1 (Test_SecretsDetection content).
Proof. unfold Test_SecretsDetection. disciplined_by_cases. Qed.

Lemma TypeSystem_disciplined (content : string) :
  disciplined (Some "TypeSystem") 1 (Rules.Test_TypeSystem content).
Proof. unfold Rules.Test_TypeSystem. disciplined_by_cases. Qed.

Lemma ExpressionLanguage_disciplined (content expected : string) :
  disciplined (Some "ExpressionLang") 1 (Rules.Test_ExpressionLanguage content expected).
Proof. unfold Rules.Test_ExpressionLanguage. disciplined_by_cases. Qed.

Lemma FlowchartStructure_disciplined (findings : string -> list string) (content : string) :
  disciplined (Some "FlowchartStructure") 1 (Rules.Test_FlowchartStructure findings content).
Proof.
  unfold Rules.Test_FlowchartStructure. intros r.
  destruct (notmatch (lit "<Flowchart") content).
  - show_effect NA (@nil ValidationIssue).
  - apply report_findings_disciplined.
Qed.

Lemma ActivitySpecific_disciplined (content : string) :
  disciplined (Some "ActivitySpecific") 1 (Test_ActivitySpecific content).
Proof. unfold Test_ActivitySpecific. disciplined_by_cases. Qed.

Lemma CommonNamespaceRequirements_disciplined
  (content : string) (namespaces : gmap string (string * string)) :
  disciplined (Some "Namespace-Common-Types") 1
    (Rules.Test_CommonNamespaceRequirements content namespaces).
Proof. unfold Rules.Test_CommonNamespaceRequirements. disciplined_by_cases. Qed.

Lemma NamingConventions_disciplined (path content : string) :
  disciplined None 2 (Rules.Test_NamingConventions path content).
Proof.
  unfold Rules.Test_NamingConventions. intros r. cbv zeta.
  destruct (GetFileNameWithoutExtension path) as [|first rest]; rule_cases;
    solve_disciplined PASS.
Qed.

Lemma LoggingPractices_disciplined (content : string) :
  disciplined None 1 (Rules.Test_LoggingPractices content).
Proof. unfold Rules.Test_LoggingPractices. disciplined_by_cases. Qed.

#[local] Hint Resolve HR0_disciplined HR2_disciplined NamespacePrefixUsage_disciplined
  HR3_disciplined HR4_disciplined HR5_disciplined HR503_disciplined HR6_disciplined
  DoubleEncoding_disciplined HR7_disciplined HR9_disciplined HR701_disciplined
  SecretsDetection_disciplined TypeSystem_disciplined ExpressionLanguage_disciplined
  FlowchartStructure_disciplined ActivitySpecific_disciplined
  CommonNamespaceRequirements_disciplined NamingConventions_disciplined
  LoggingPractices_disciplined : discipline.

Lemma script_rules_disciplined
  (e : Environment) (path content expected : string)
  (namespaces : gmap string (string * string))
  (rule : option string * nat * (ValidationResult -> ValidationResult)) :
  In rule (script_rules e path content namespaces expected) ->
  disciplined (fst (fst rule)) (snd (fst rule)) (snd rule).
Proof.
  unfold script_rules. cbn [In]. intros Hin.
  repeat (destruct Hin as [<- | Hin]; [cbn [fst snd]; auto with discipline |]).
  destruct Hin.
Qed.

(** ** The compliance map along the pipeline *)

Lemma ht_ContainsKey_false {V : Type} (h : gmap string (string * V)) (k : string) :
  ht_ContainsKey h k = false -> h !! lower k = None.
Proof. unfold ht_ContainsKey. destruct (h !! lower k); [discriminate | reflexivity]. Qed.

Lemma ht_set_fresh {V : Type} (h : gmap string (string * V)) (k : string) (v : V) :
  ht_ContainsKey h k = false ->
  Permutation (map_to_list (ht_set h k v)) ((lower k, (k, v)) :: map_to_list h).
Proof.
  intros Hfresh. apply ht_ContainsKey_false in Hfresh. unfold ht_set. rewrite Hfresh.
  apply map_to_list_insert. exact Hfresh.
Qed.

Lemma ht_Keys_set_fresh {V : Type} (h : gmap string (string * V)) (k : string) (v : V) :
  ht_ContainsKey h k = false -> Permutation (ht_Keys (ht_set h k v)) (k :: ht_Keys h).
Proof.
  intros Hfresh. unfold ht_Keys.
  exact (fmap_Permutation (fun kv : string * (string * V) => fst (snd kv)) _ _
           (ht_set_fresh h k v Hfresh)).
Qed.

Lemma filter_length_Permutation {A : Type} (p : A -> bool) (l l' : list A) :
  Permutation l l' -> length (List.filter p l) = length (List.filter p l').
Proof.
  induction 1 as [| x l l' _ IH | x y l | l l' l'' _ IH1 _ IH2]; cbn [List.filter].
  - reflexivity.
  - destruct (p x); cbn [length]; rewrite IH; reflexivity.
  - destruct (p x), (p y); reflexivity.
  - rewrite IH1. exact IH2.
Qed.

Lemma count_status_set_fresh (h : gmap string (string * status)) (k : string) (st s : status) :
  ht_ContainsKey h k = false ->
  count_status s (ht_set h k st) = (if status_eqb st s then 1 else 0) + count_status s h.
Proof.
  intros Hfresh. unfold count_status, ht_entries.
  rewrite (filter_length_Permutation _ _ _
             (fmap_Permutation snd _ _ (ht_set_fresh h k st Hfresh))).
  cbn [fmap list_fmap List.filter snd]. destruct (status_eqb st s); reflexivity.
Qed.

Lemma ci_distinct_fresh (keys rest : list string) (k : string) :
  ci_distinct (keys ++ k :: rest) -> ps_contains keys k = false.
Proof.
  intros Hd. apply ci_distinct_app in Hd. destruct Hd as [_ [_ Hcross]].
  apply ps_contains_false_iff. intros y Hy. specialize (Hcross y Hy).
  rewrite ps_contains_cons in Hcross. apply orb_false_iff in Hcross.
  rewrite eq_ci_sym. tauto.
Qed.

(** What a list of disciplined rules with distinct keys, none of them
    written before, does to a result. *)
Lemma run_rules_invariant
  (rules : list (option string * nat * (ValidationResult -> ValidationResult))) :
  forall (keys : list string) (r : ValidationResult),
    (forall rule, In rule rules -> disciplined (fst (fst rule)) (snd (fst rule)) (snd rule)) ->
    ci_distinct (keys ++ written_keys rules) ->
    (forall q, ht_ContainsKey (HRCompliance r) q = ps_contains keys q) ->
    let r' := run_rules rules r in
    (forall q, ht_ContainsKey (HRCompliance r') q = ps_contains (keys ++ written_keys rules) q)
    /\ Permutation (ht_Keys (HRCompliance r')) (ht_Keys (HRCompliance r) ++ written_keys rules)
    /\ count_status FAIL (HRCompliance r') + count_severity ERROR (Issues r)
       = count_status FAIL (HRCompliance r) + count_severity ERROR (Issues r')
    /\ length (Issues r') <= length (Issues r) + issue_bound rules
    /\ (exists new, Issues r' = Issues r ++ new)
    /\ FilePath r' = FilePath r /\ ProjectContext r' = ProjectContext r.
Proof.
  induction rules as [|[[key bound] rule] rules IH]; intros keys r Hrules Hdistinct Hkeys.
  - cbn [run_rules fold_left written_keys issue_bound]. rewrite !app_nil_r.
    split; [exact Hkeys |]. split; [reflexivity |]. split; [reflexivity |].
    split; [lia |]. split; [exists []; rewrite app_nil_r; reflexivity |].
    split; reflexivity.
  - destruct (Hrules (key, bound, rule) (or_introl eq_refl) r)
      as [st [new [Heffect [Hbound Herrors]]]].
    cbn [fst snd] in Heffect, Hbound, Herrors.
    assert (Hrest : forall rule', In rule' rules ->
                      disciplined (fst (fst rule')) (snd (fst rule')) (snd rule')).
    { intros rule' Hin. apply Hrules. right. exact Hin. }
    unfold run_rules. cbn [fold_left snd]. fold (run_rules rules (rule r)).
    rewrite Heffect. destruct key as [k|]; cbn [written_keys issue_bound].
    + pose proof (ci_distinct_fresh keys (written_keys rules) k Hdistinct) as Hfresh.
      assert (Hfresh' : ht_ContainsKey (HRCompliance r) k = false).
      { rewrite Hkeys. exact Hfresh. }
      destruct (IH (keys ++ [k]) (rule_effect (Some k) st new r) Hrest) as
        [H1 [H2 [H3 [H4 [[new' H5] [H6 H7]]]]]].
      { rewrite <- app_assoc. exact Hdistinct. }
      { intros q. cbn [rule_effect HRCompliance].
        rewrite ht_ContainsKey_set, Hkeys, ps_contains_app, ps_contains_cons.
        cbn [ps_contains existsb]. rewrite orb_false_r. apply orb_comm. }
      cbn [rule_effect HRCompliance Issues FilePath ProjectContext] in H2, H3, H4, H5, H6, H7.
      split; [intros q; rewrite H1, <- app_assoc; reflexivity |].
      split.
      { rewrite H2, (ht_Keys_set_fresh _ k st Hfresh').
        change (k :: written_keys rules) with ([k] ++ written_keys rules).
        rewrite app_assoc. apply Permutation_app_tail.
        change (k :: ht_Keys (HRCompliance r)) with ([k] ++ ht_Keys (HRCompliance r)).
        apply Permutation_app_comm. }
      split.
      { rewrite (count_status_set_fresh _ k st FAIL Hfresh') in H3.
        rewrite count_severity_app, Herrors in H3. lia. }
      split; [rewrite List.length_app in H4; lia |].
      split; [exists (new ++ new'); rewrite H5, <- app_assoc; reflexivity |].
      split; assumption.
    + destruct (IH keys (rule_effect None st new r) Hrest Hdistinct Hkeys) as
        [H1 [H2 [H3 [H4 [[new' H5] [H6 H7]]]]]].
      cbn [rule_effect HRCompliance Issues FilePath ProjectContext] in H2, H3, H4, H5, H6, H7.
      split; [exact H1 |]. split; [exact H2 |].
      split; [rewrite count_severity_app, Herrors in H3; lia |].
      split; [rewrite List.length_app in H4; lia |].
      split; [exists (new ++ new'); rewrite H5, <- app_assoc; reflexivity |].
      split; assumption.
Qed.

Lemma compliance_keys_distinct : ci_distinct compliance_keys.
Proof. vm_compute. repeat split; reflexivity. Qed.

Section ScriptPipeline.
Variable e : Environment.

(** Invoke-XamlValidation on a document that parsed is the rules of the
    script run in order on the result that Test-XmlWellFormed left. *)
Lemma Invoke_script_rules (path : string) (ProjJsonPath : option string) (content : string) :
  env_Test_Path e path = true ->
  env_Get_Content e path = inl content ->
  env_xml_error e content = None ->
  let context := env_Get_ProjectContext e path ProjJsonPath in
  let result :=
    run_rules (script_rules e path content (Get_Namespaces content) (language context))
              (set_compliance "Layer1-XML" PASS (MkResult path false [] ∅ context)) in
  @Invoke_XamlValidation (script_host e) path ProjJsonPath
  = set_IsValid (negb (0 <? length (List.filter is_error (Issues result)))) result.
Proof.
  intros Hpath Hcontent Hxml. unfold Invoke_XamlValidation, Test_XmlWellFormed.
  cbn [script_host Test_Path Get_Content xml_error Get_ProjectContext
       Test_HR0_TemplateStructure Test_HR2_RootInvariants Test_HR3_PrimaryContainer
       Test_HR503_IdRefDualDeclaration Test_HR6_ExpressionEncoding Test_DoubleEncoding
       Test_HR7_NoUIAutomation Test_HR9_FlowchartViewState Test_HR701_InvokeCodeLateBinding
       Test_TypeSystem Test_ExpressionLanguage Test_FlowchartStructure
       Test_CommonNamespaceRequirements Test_NamingConventions Test_LoggingPractices].
  rewrite Hpath, Hcontent, Hxml. cbn [negb].
  unfold run_rules, script_rules. cbn [fold_left snd]. reflexivity.
Qed.

Lemma script_pipeline_invariant (path : string) (ProjJsonPath : option string) (content : string) :
  env_Test_Path e path = true ->
  env_Get_Content e path = inl content ->
  env_xml_error e content = None ->
  let result := @Invoke_XamlValidation (script_host e) path ProjJsonPath in
  (forall q, ht_ContainsKey (HRCompliance result) q = ps_contains compliance_keys q)
  /\ Permutation (ht_Keys (HRCompliance result)) compliance_keys
  /\ count_severity ERROR (Issues result) = count_status FAIL (HRCompliance result)
  /\ length (Issues result) <= 23.
Proof.
  intros Hpath Hcontent Hxml result. unfold result.
  rewrite (Invoke_script_rules path ProjJsonPath content Hpath Hcontent Hxml). cbv zeta.
  set (context := env_Get_ProjectContext e path ProjJsonPath).
  set (rules := script_rules e path content (Get_Namespaces content) (language context)).
  set (r0 := set_compliance "Layer1-XML" PASS (MkResult path false [] ∅ context)).
  assert (Hwritten : ["Layer1-XML"] ++ written_keys rules = compliance_keys) by reflexivity.
  assert (Hbound : issue_bound rules = 23) by reflexivity.
  destruct (run_rules_invariant rules ["Layer1-XML"] r0) as [H1 [H2 [H3 [H4 _]]]].
  - intros rule. apply script_rules_disciplined.
  - rewrite Hwritten. exact compliance_keys_distinct.
  - intros q. unfold r0. cbn [set_compliance HRCompliance].
    rewrite ht_ContainsKey_set. reflexivity.
  - cbn [set_IsValid HRCompliance Issues].
    assert (Hr0 : ht_Keys (HRCompliance r0) = ["Layer1-XML"]) by apply ht_Keys_set_empty.
    assert (Hc0 : count_status FAIL (HRCompliance r0) = 0).
    { unfold r0. cbn [set_compliance HRCompliance].
      rewrite count_status_set_fresh by reflexivity.
      unfold count_status, ht_entries. rewrite map_to_list_empty. reflexivity. }
    assert (Hi0 : Issues r0 = []) by reflexivity.
    rewrite Hwritten in H1. rewrite Hr0, Hwritten in H2.
    rewrite Hc0, Hi0 in H3. rewrite Hi0, Hbound in H4.
    split; [exact H1 |]. split; [exact H2 |].
    split; [change (count_severity ERROR []) with 0 in H3; lia | exact H4].
Qed.

End ScriptPipeline.

(** X10.  The discipline of the rules.  Every rule that Invoke-XamlValidation runs
    on a document that parsed leaves the path, the validity flag and the
    project context of the result alone; it appends its issues to those
    already there, at most as many as the number given with it; it writes
    one status, under its own key (the two rules of layer 4 write none);
    and it appends exactly one ERROR when it writes FAIL and none
    otherwise. *)
Theorem rules_append_and_write_their_key
  (e : Environment) (path content expected : string)
  (namespaces : gmap string (string * string))
  (key : option string) (bound : nat) (rule : ValidationResult -> ValidationResult)
  (r : ValidationResult) :
  In (key, bound, rule) (script_rules e path content namespaces expected) ->
  exists st new,
    rule r
    = MkResult (FilePath r) (IsValid r) (Issues r ++ new)
               (match key with
                | Some k => ht_set (HRCompliance r) k st
                | None => HRCompliance r
                end)
               (ProjectContext r)
    /\ length new <= bound
    /\ count_severity ERROR new
       = (match key with Some _ => if status_eqb st FAIL then 1 else 0 | None => 0 end).
Proof.
  intros Hin. apply script_rules_disciplined in Hin. exact (Hin r).
Qed.

Lemma rules_append_and_write_their_key_witness :
  exists st new,
    Test_SecretsDetection doc_secret (empty_result "Secret.xaml")
    = MkResult "Secret.xaml" false ([] ++ new) (ht_set ∅ "Secrets" st) no_context
    /\ length new <= 1
    /\ count_severity ERROR new = (if status_eqb st FAIL then 1 else 0).
Proof.
  apply (rules_append_and_write_their_key sample_environment "Secret.xaml" doc_secret
           "Unknown" (Get_Namespaces doc_secret) (Some "Secrets") 1
           (Test_SecretsDetection doc_secret) (empty_result "Secret.xaml")).
  unfold script_rules. do 12 right. left. reflexivity.
Defined.

Section ScriptReports.
Variable e : Environment.

(** X11.  The compliance map of a document that parsed has the nineteen keys of
    [compliance_keys], each with a status, and no other key. *)
Theorem parsed_document_compliance_keys
  (path : string) (ProjJsonPath : option string) (content : string) :
  env_Test_Path e path = true ->
  env_Get_Content e path = inl content ->
  env_xml_error e content = None ->
  let result := @Invoke_XamlValidation (script_host e) path ProjJsonPath in
  Permutation (ht_Keys (HRCompliance result)) compliance_keys
  /\ length (ht_Keys (HRCompliance result)) = 19
  /\ (forall rule, In rule compliance_keys -> exists st, compliance result rule = Some st)
  /\ (forall rule, ps_contains compliance_keys rule = false -> compliance result rule = None).
Proof.
  intros Hpath Hcontent Hxml result.
  destruct (script_pipeline_invariant e path ProjJsonPath content Hpath Hcontent Hxml)
    as [Hkeys [Hperm _]].
  fold result in Hkeys, Hperm.
  assert (Hget : forall rule, ht_ContainsKey (HRCompliance result) rule
                              = match compliance result rule with
                                | Some _ => true
                                | None => false
                                end).
  { intros rule. unfold compliance, ht_get, ht_ContainsKey.
    destruct (HRCompliance result !! lower rule); reflexivity. }
  split; [exact Hperm |].
  split; [rewrite (Permutation_length Hperm); reflexivity |].
  split.
  - intros rule Hrule. specialize (Hkeys rule). rewrite Hget in Hkeys.
    assert (Hin : ps_contains compliance_keys rule = true).
    { apply ps_contains_true. exists rule. split; [exact Hrule | reflexivity]. }
    rewrite Hin in Hkeys. destruct (compliance result rule) as [st|]; [| discriminate Hkeys].
    exists st. reflexivity.
  - intros rule Hrule. specialize (Hkeys rule). rewrite Hget, Hrule in Hkeys.
    destruct (compliance result rule); [discriminate Hkeys | reflexivity].
Qed.

(** X12.  For every file that can be read, the number of ERROR issues of the
    result is the number of FAIL entries of its compliance map: the file is
    valid exactly when no entry is FAIL.  The result holds at most 23
    issues. *)
Theorem error_count_is_FAIL_count
  (path : string) (ProjJsonPath : option string) (content : string) :
  env_Test_Path e path = true ->
  env_Get_Content e path = inl content ->
  let result := @Invoke_XamlValidation (script_host e) path ProjJsonPath in
  count_severity ERROR (Issues result) = count_status FAIL (HRCompliance result)
  /\ (IsValid result = true <-> count_status FAIL (HRCompliance result) = 0)
  /\ length (Issues result) <= 23.
Proof.
  intros Hpath Hcontent result.
  assert (Hboth : count_severity ERROR (Issues result) = count_status FAIL (HRCompliance result)
                  /\ length (Issues result) <= 23).
  { destruct (env_xml_error e content) as [message|] eqn:Hxml.
    - unfold result, Invoke_XamlValidation, Test_XmlWellFormed.
      cbn [script_host Test_Path Get_Content xml_error Get_ProjectContext].
      rewrite Hpath, Hcontent, Hxml.
      cbn [negb set_IsValid set_compliance add_issue Issues HRCompliance app length].
      rewrite count_status_set_fresh by reflexivity.
      unfold count_status, ht_entries. rewrite map_to_list_empty.
      split; [reflexivity | lia].
    - destruct (script_pipeline_invariant e path ProjJsonPath content Hpath Hcontent Hxml)
        as [_ [_ [Hcount Hlen]]].
      split; assumption. }
  destruct Hboth as [Hcount Hlen].
  split; [exact Hcount |]. split; [| exact Hlen].
  unfold result in *. rewrite (@IsValid_no_error (script_host e)), Hcount.
  apply Nat.eqb_eq.
Qed.

End ScriptReports.

Lemma parsed_document_compliance_keys_witness :
  length (ht_Keys (HRCompliance (@Invoke_XamlValidation (script_host sample_environment)
                                   "Clean.xaml" None))) = 19.
Proof.
  apply (parsed_document_compliance_keys sample_environment "Clean.xaml" None doc_clean);
    reflexivity.
Defined.

Lemma error_count_is_FAIL_count_witness :
  let result := @Invoke_XamlValidation (script_host sample_environment) "Broken.xaml" None in
  count_severity ERROR (Issues result) = count_status FAIL (HRCompliance result).
Proof.
  apply (error_count_is_FAIL_count sample_environment "Broken.xaml" None doc_broken);
    reflexivity.
Defined.

(** ** The entry point *)

Lemma Disqualified_Strict (r : ValidationResult) :
  Disqualified false r -> Disqualified true r.
Proof.
  intros [i [Hin [Herr | [Hs _]]]]; [| discriminate Hs].
  exists i. split; [exact Hin | left; exact Herr].
Qed.

Lemma flat_map_singleton {A B : Type} (f : A -> B) (l : list A) :
  flat_map (fun x => [f x]) l = map f l.
Proof. induction l as [|x l IH]; cbn; [| rewrite IH]; reflexivity. Qed.

Section EntryPoint.
Context `{Host}.

(** X13.  The exit code does not depend on [-Json], and [-Strict] can only turn
    an exit code 0 into 1, never the reverse. *)
Theorem exit_code_and_flags
  (Path : string) (Strict Json : bool) (ProjectJson : option string) :
  snd (main Path Strict true ProjectJson) = snd (main Path Strict false ProjectJson)
  /\ snd (main Path false Json ProjectJson) <= snd (main Path true Json ProjectJson).
Proof.
  split.
  - unfold main. destruct (Resolve_Path Path) as [targetPath|]; [| reflexivity].
    destruct (Test_Path_Leaf targetPath); [reflexivity |].
    destruct (Test_Path_Container targetPath); [| reflexivity].
    destruct (length (Get_ChildItem targetPath) =? 0); reflexivity.
  - destruct (main_exit_code Path Json ProjectJson false) as [Hcode Hone].
    destruct (main_exit_code Path Json ProjectJson true) as [Hcode' Hone'].
    cbv zeta in Hcode, Hone, Hcode', Hone'.
    destruct Hcode as [Hzero | Hfail]; [lia |].
    assert (Hstrict : snd (main Path true Json ProjectJson) = 1); [| lia].
    apply Hone'. apply Hone in Hfail.
    destruct Hfail as [Hnone | [targetPath [Hres Hcases]]]; [left; exact Hnone |].
    right. exists targetPath. split; [exact Hres |].
    destruct Hcases as [[Hleaf Hd] | [[Hleaf [Hdir [file [Hin Hd]]]] | Hneither]].
    + left. split; [exact Hleaf | apply Disqualified_Strict; exact Hd].
    + right. left. split; [exact Hleaf |]. split; [exact Hdir |].
      exists file. split; [exact Hin | apply Disqualified_Strict; exact Hd].
    + right. right. exact Hneither.
Qed.

(** X14.  What is written for a directory with at least one .xaml file.  Both
    modes begin with the two lines of Write-Host that announce the number
    of files.  With [-Json] one JSON object per file follows, in the order
    of Get-ChildItem, and nothing else: no enclosing array and no summary.
    Without it one report per file follows, then the summary, which counts
    the files whose result holds no ERROR. *)
Theorem directory_output
  (Path : string) (Strict : bool) (ProjectJson : option string) (targetPath : string) :
  Resolve_Path Path = Some targetPath ->
  Test_Path_Leaf targetPath = false ->
  Test_Path_Container targetPath = true ->
  Get_ChildItem targetPath <> [] ->
  let files := Get_ChildItem targetPath in
  let results := map (fun file => Invoke_XamlValidation file ProjectJson) files in
  let header :=
    [OutHost ("Found " +:+ nat_to_string (length files) +:+ " XAML files to validate...");
     OutHost EmptyString] in
  let validCount :=
    length (List.filter
              (fun file =>
                 count_severity ERROR (Issues (Invoke_XamlValidation file ProjectJson)) =? 0)
              files) in
  fst (main Path Strict true ProjectJson)
  = header ++ map (fun result => OutJson (ToHashtable result)) results
  /\ fst (main Path Strict false ProjectJson)
     = header ++ map OutReport results
       ++ [OutHost EmptyString;
           OutHost (string_times "=" 70);
           OutHost ("OVERALL SUMMARY: " +:+ nat_to_string validCount +:+ "/"
                    +:+ nat_to_string (length files) +:+ " files valid");
           OutHost (string_times "=" 70)].
Proof.
  intros Hres Hleaf Hdir Hfiles files results header validCount.
  assert (Hempty : (length (Get_ChildItem targetPath) =? 0) = false).
  { destruct (Get_ChildItem targetPath); [contradiction | reflexivity]. }
  assert (Hvalid : length (List.filter IsValid results) = validCount).
  { unfold results, validCount. rewrite filter_map_length.
    apply filter_ext_length. intros file. apply IsValid_no_error. }
  unfold main. rewrite Hres, Hleaf, Hdir, Hempty. cbn [fst negb].
  fold files. fold results. unfold Write_ValidationReport. split.
  - rewrite app_nil_r, (flat_map_singleton (fun r => OutJson (ToHashtable r))). reflexivity.
  - rewrite (flat_map_singleton OutReport), Hvalid. unfold results.
    rewrite length_map. reflexivity.
Qed.

(** X15.  Every JSON report that the entry point writes is consistent with
    itself: its field is_valid is true exactly when its field error_count is
    zero. *)
Theorem json_report_is_valid_iff_no_error
  (Path : string) (Strict Json : bool) (ProjectJson : option string) (report : PSObject) :
  In (OutJson report) (fst (main Path Strict Json ProjectJson)) ->
  exists errors,
    field "error_count" report = Some (PSInt errors)
    /\ field "is_valid" report = Some (PSBool (errors =? 0)).
Proof.
  intros Hin.
  assert (Hfrom : exists file, report = ToHashtable (Invoke_XamlValidation file ProjectJson)).
  { unfold main in Hin. destruct (Resolve_Path Path) as [targetPath|].
    2:{ destruct Hin as [Heq | []]. discriminate Heq. }
    destruct (Test_Path_Leaf targetPath).
    { cbn [fst] in Hin. unfold Write_ValidationReport in Hin. destruct Json.
      - destruct Hin as [Heq | []]. injection Heq as <-. exists targetPath. reflexivity.
      - destruct Hin as [Heq | []]. discriminate Heq. }
    destruct (Test_Path_Container targetPath).
    2:{ destruct Hin as [Heq | []]. discriminate Heq. }
    destruct (length (Get_ChildItem targetPath) =? 0).
    { destruct Hin as [Heq | []]. discriminate Heq. }
    cbn [fst] in Hin. destruct Hin as [Heq | [Heq | Hin]]; try discriminate Heq.
    rewrite app_nil_l in Hin. apply in_app_or in Hin. destruct Hin as [Hin | Hin].
    - apply in_flat_map in Hin. destruct Hin as [result [Hresult Hin]].
      apply in_map_iff in Hresult. destruct Hresult as [file [<- _]].
      unfold Write_ValidationReport in Hin. destruct Json.
      + destruct Hin as [Heq | []]. injection Heq as <-. exists file. reflexivity.
      + destruct Hin as [Heq | []]. discriminate Heq.
    - destruct (negb Json); [| destruct Hin].
      repeat (destruct Hin as [Heq | Hin]; [discriminate Heq |]). destruct Hin. }
  destruct Hfrom as [file ->].
  exists (count_severity ERROR (Issues (Invoke_XamlValidation file ProjectJson))).
  split; [reflexivity |]. rewrite <- IsValid_no_error. reflexivity.
Qed.


End EntryPoint.

Lemma directory_output_witness :
  fst (@main sample_host "flows" false true None)
  = [OutHost "Found 3 XAML files to validate..."; OutHost EmptyString]
    ++ map (fun result => OutJson (ToHashtable result))
         (map (fun file => @Invoke_XamlValidation sample_host file None)
              ["flows/A.xaml"; "flows/B.xaml"; "flows/C.xaml"]).
Proof.
  refine (proj1 (@directory_output sample_host "flows" false None "flows" _ _ _ _));
    [reflexivity | reflexivity | reflexivity | discriminate].
Defined.

Lemma json_report_is_valid_iff_no_error_witness :
  exists errors,
    field "error_count" (ToHashtable (@Invoke_XamlValidation sample_host "Broken.xaml" None))
    = Some (PSInt errors)
    /\ field "is_valid" (ToHashtable (@Invoke_XamlValidation sample_host "Broken.xaml" None))
       = Some (PSBool (errors =? 0)).
Proof.
  apply (@json_report_is_valid_iff_no_error sample_host "Broken.xaml" false true None).
  left. reflexivity.
Defined.

(** ** The primary container (HR-3) *)

(** [[regex]::Matches] finds nothing exactly when the pattern matches at no
    position of the text. *)
Lemma scan_nil_iff (ic : bool) (r : regex) (s : string) :
  forall index prev,
    scan ic r 0 index prev s = []
    <-> (forall st, In st (starts prev s) -> run ic r st = []).
Proof.
  intros index prev. split; [| apply scan_no_match].
  revert index prev. induction s as [|c s IH]; intros index prev; cbn [scan starts].
  - destruct (run ic r (MState prev EmptyString [] 0)) eqn:Hrun; [| discriminate].
    intros _ st [<- | []]. exact Hrun.
  - destruct (run ic r (MState prev (String c s) [] 0)) eqn:Hrun; [| discriminate].
    intros Hscan st [<- | Hst]; [exact Hrun |]. exact (IH _ _ Hscan st Hst).
Qed.

Lemma regex_Matches_nil_iff (r : regex) (Content : string) :
  regex_Matches r Content = []
  <-> (forall a b, Content = a +:+ b ->
                   run false r (MState (prev_after None a) b [] 0) = []).
Proof.
  unfold regex_Matches. rewrite scan_nil_iff. split.
  - intros Hno a b ->. apply Hno. apply in_starts. exists a, b. split; reflexivity.
  - intros Hno st Hst. apply in_starts in Hst. destruct Hst as [a [b [Hs ->]]].
    apply Hno. exact Hs.
Qed.

Lemma set_mem_space_gt (c : ascii) :
  set_mem false [CSpace; CChar ">"%char] c = true
  <-> is_white_space c = true \/ c = ">"%char.
Proof.
  unfold set_mem. cbn [existsb item_mem andb]. rewrite !orb_false_r, orb_true_iff.
  rewrite Ascii.eqb_eq. split; (intros [Hc | Hc]; [left; exact Hc | right; congruence]).
Qed.

(** A start tag followed by white space or by >, letter case observed. *)
Lemma tag_matches_iff (tag b : string) (p : option ascii) :
  run false (RSeq (lit tag) (RSet false [CSpace; CChar ">"%char])) (MState p b [] 0) <> []
  <-> exists c post, b = tag +:+ String c post
                     /\ (is_white_space c = true \/ c = ">"%char).
Proof.
  split.
  - intros Hrun.
    destruct (run false (RSeq (lit tag) (RSet false [CSpace; CChar ">"%char]))
                (MState p b [] 0)) as [|st' l] eqn:Heq; [contradiction |].
    assert (Hin : In st' (run false (RSeq (lit tag) (RSet false [CSpace; CChar ">"%char]))
                            (MState p b [] 0))) by (rewrite Heq; left; reflexivity).
    apply run_seq in Hin. destruct Hin as [mid [Hmid Hin]].
    apply run_lit_inv in Hmid. destruct Hmid as [w [Hw Hb]].
    cbn [same_text] in Hw. subst w. cbn [st_rest] in Hb.
    cbn [run] in Hin. unfold eat in Hin.
    destruct (st_rest mid) as [|c post]; [destruct Hin |].
    destruct (xorb false (set_mem false [CSpace; CChar ">"%char] c)) eqn:Hc;
      [| destruct Hin].
    exists c, post. split; [exact Hb |]. apply set_mem_space_gt. exact Hc.
  - intros [c [post [-> Hc]]]. apply set_mem_space_gt in Hc.
    cbn [run]. rewrite (run_lit_app false tag tag (String c post)) by reflexivity.
    cbn [flat_map eat st_rest st_caps st_pos]. rewrite Hc. discriminate.
Qed.

Lemma scan_match_position (ic : bool) (r : regex) (s : string) :
  forall skip index prev,
    scan ic r skip index prev s <> [] ->
    exists st, In st (starts prev s) /\ run ic r st <> [].
Proof.
  induction s as [|c s IH]; intros skip index prev; destruct skip as [|skip]; cbn [scan starts].
  - destruct (run ic r (MState prev EmptyString [] 0)) eqn:Hrun; [contradiction |].
    intros _. exists (MState prev EmptyString [] 0).
    split; [left; reflexivity | rewrite Hrun; discriminate].
  - contradiction.
  - destruct (run ic r (MState prev (String c s) [] 0)) eqn:Hrun.
    + intros Hscan. apply IH in Hscan. destruct Hscan as [st [Hst Hne]].
      exists st. split; [right; exact Hst | exact Hne].
    + intros _. exists (MState prev (String c s) [] 0).
      split; [left; reflexivity | rewrite Hrun; discriminate].
  - intros Hscan. apply IH in Hscan. destruct Hscan as [st [Hst Hne]].
    exists st. split; [right; exact Hst | exact Hne].
Qed.

Lemma container_tag_found (Content : string) :
  container_tag Content -> Rules.containersFound Content <> [].
Proof.
  unfold Rules.containersFound. intros [container [pre [c [post [Hin [Hc ->]]]]]] Hnil.
  assert (Hnone : regex_Matches
                    (rseq [lit ("<" +:+ container); RSet false [CSpace; CChar ">"%char]])
                    (pre +:+ ("<" +:+ container) +:+ String c post) = []).
  { destruct (regex_Matches
                (rseq [lit ("<" +:+ container); RSet false [CSpace; CChar ">"%char]])
                (pre +:+ ("<" +:+ container) +:+ String c post)) as [|m ms] eqn:Hm;
      [reflexivity |].
    exfalso.
    assert (Hmem : In container (flat_map
              (fun container0 =>
                 map (fun _ : Match => container0)
                   (regex_Matches
                      (rseq [lit ("<" +:+ container0); RSet false [CSpace; CChar ">"%char]])
                      (pre +:+ ("<" +:+ container) +:+ String c post)))
              PrimaryContainers)).
    { apply in_flat_map. exists container. split; [exact Hin |].
      rewrite Hm. left. reflexivity. }
    rewrite Hnil in Hmem. destruct Hmem. }
  rewrite regex_Matches_nil_iff in Hnone.
  specialize (Hnone pre (("<" +:+ container) +:+ String c post) eq_refl).
  cbn [rseq] in Hnone. revert Hnone. apply tag_matches_iff.
  exists c, post. split; [reflexivity | exact Hc].
Qed.

Lemma found_container_tag (Content : string) :
  Rules.containersFound Content <> [] -> container_tag Content.
Proof.
  unfold Rules.containersFound. intros Hfound.
  destruct (flat_map _ PrimaryContainers) as [|x l] eqn:Hl; [contradiction |].
  assert (Hx : In x (x :: l)) by (left; reflexivity).
  rewrite <- Hl in Hx. apply in_flat_map in Hx. destruct Hx as [container [Hin Hx]].
  assert (Hne : regex_Matches
                  (rseq [lit ("<" +:+ container); RSet false [CSpace; CChar ">"%char]])
                  Content <> []).
  { intros Hnil. rewrite Hnil in Hx. destruct Hx. }
  apply scan_match_position in Hne. destruct Hne as [st [Hst Hrun]].
  apply in_starts in Hst. destruct Hst as [a [b [-> ->]]].
  cbn [rseq] in Hrun. apply tag_matches_iff in Hrun. destruct Hrun as [c [post [-> Hc]]].
  exists container, a, c, post. split; [exact Hin |]. split; [exact Hc | reflexivity].
Qed.

(** X17.  Test-HR3-PrimaryContainer sets HR-3 = FAIL, with one ERROR, exactly when
    the text holds none of <Sequence, <Flowchart and <StateMachine (in this
    letter case) followed by white space or by >; a container written as
    an empty element, <Sequence/>, does not count.  In every other case the
    rule sets PASS and adds no ERROR. *)
Theorem HR3_fails_iff_no_container_tag (Content : string) (Result : ValidationResult) :
  let after := Rules.Test_HR3_PrimaryContainer Content Result in
  (compliance after "HR-3" = Some FAIL <-> ~ container_tag Content)
  /\ (compliance after "HR-3" = Some PASS <-> container_tag Content)
  /\ (~ container_tag Content ->
      Issues after
      = Issues Result
        ++ [new_issue "HR-3" ERROR
              "No primary container found. Expected one of: Sequence, Flowchart, StateMachine"])
  /\ (container_tag Content ->
      count_severity ERROR (Issues after) = count_severity ERROR (Issues Result)).
Proof.
  intros after. unfold after, Rules.Test_HR3_PrimaryContainer. cbv zeta.
  pose proof (container_tag_found Content) as Htag.
  pose proof (found_container_tag Content) as Hfrom.
  destruct (Rules.containersFound Content) as [|x l] eqn:Hfound.
  - assert (Hno : ~ container_tag Content) by (intros Hc; apply (Htag Hc); reflexivity).
    cbn [length Nat.eqb]. rewrite compliance_set.
    split; [tauto |]. split; [split; [discriminate | tauto] |].
    split; [intros _; reflexivity | tauto].
  - assert (Hyes : container_tag Content).
    { apply Hfrom. discriminate. }
    cbn [length Nat.eqb].
    destruct (1 <? S (length l)); rewrite compliance_set;
      (split; [split; [discriminate | tauto] |]);
      (split; [tauto |]); (split; [tauto |]); intros _;
      cbn [Issues set_compliance add_issue]; [| reflexivity].
    rewrite count_severity_app. cbn. lia.
Qed.

(** A container written as an empty element is not a container tag. *)
Lemma HR3_fails_iff_no_container_tag_witness :
  ~ container_tag "<Activity><Sequence/></Activity>".
Proof.
  apply (proj1 (proj1 (HR3_fails_iff_no_container_tag "<Activity><Sequence/></Activity>"
                         (empty_result "Main.xaml")))).
  vm_compute. reflexivity.
Defined.

(** ** The window of an activity *)

Lemma append_length (a b : string) :
  String.length (a +:+ b) = String.length a + String.length b.
Proof.
  induction a as [|c a IH]; [reflexivity |].
  rewrite append_cons. cbn [String.length]. rewrite IH. reflexivity.
Qed.

Lemma substring_head (m : nat) (s : string) :
  exists post, s = String.substring 0 m s +:+ post
               /\ String.length (String.substring 0 m s) = Nat.min m (String.length s).
Proof.
  revert s. induction m as [|m IH]; intros s.
  - exists s. destruct s; split; reflexivity.
  - destruct s as [|c s]; [exists EmptyString; split; reflexivity |].
    destruct (IH s) as [post [Hs Hlen]]. exists post. cbn [String.substring]. split.
    + rewrite append_cons, <- Hs. reflexivity.
    + cbn [String.length Nat.min]. rewrite Hlen. reflexivity.
Qed.

Lemma substring_inside (n m : nat) (s : string) :
  n <= String.length s ->
  exists pre post,
    s = pre +:+ String.substring n m s +:+ post
    /\ String.length pre = n
    /\ String.length (String.substring n m s) = Nat.min m (String.length s - n).
Proof.
  revert s. induction n as [|n IH]; intros s Hn.
  - destruct (substring_head m s) as [post [Hs Hlen]].
    exists EmptyString, post. rewrite Nat.sub_0_r. split; [exact Hs |].
    split; [reflexivity | exact Hlen].
  - destruct s as [|c s]; [cbn in Hn; lia |].
    destruct (IH s) as [pre [post [Hs [Hpre Hlen]]]]; [cbn in Hn; lia |].
    exists (String c pre), post. cbn [String.substring String.length Nat.sub].
    split; [rewrite append_cons, <- Hs; reflexivity |].
    split; [rewrite Hpre; reflexivity |].
    destruct m; exact Hlen.
Qed.

(** X18.  Get-NearbyContent never reads outside the text.  From a start inside
    the text it returns the piece of the text that begins there and has the
    requested length, or what is left of the text when that is shorter;
    from a start at or beyond the end it returns the empty text. *)
Theorem Get_NearbyContent_window (Start Length : nat) (FullContent : string) :
  let nearby := Get_NearbyContent Start Length FullContent in
  String.length nearby = Nat.min Length (String.length FullContent - Start)
  /\ (Start <= String.length FullContent ->
      exists pre post,
        FullContent = pre +:+ nearby +:+ post /\ String.length pre = Start)
  /\ (String.length FullContent <= Start -> nearby = EmptyString).
Proof.
  intros nearby. unfold nearby, Get_NearbyContent, Substring. cbv zeta.
  destruct (Nat.min Length (String.length FullContent - Start) =? 0) eqn:Hzero.
  - apply Nat.eqb_eq in Hzero. rewrite Hzero. split; [reflexivity |].
    split; [| reflexivity].
    intros Hstart. destruct (substring_inside Start 0 FullContent Hstart)
      as [pre [post [Hs [Hpre Hlen]]]].
    exists pre, (String.substring Start 0 FullContent +:+ post).
    split; [exact Hs | exact Hpre].
  - apply Nat.eqb_neq in Hzero.
    assert (Hstart : Start <= String.length FullContent) by lia.
    destruct (substring_inside Start (Nat.min Length (String.length FullContent - Start))
                FullContent Hstart) as [pre [post [Hs [Hpre Hlen]]]].
    split; [rewrite Hlen; lia |]. split; [| lia].
    intros _. exists pre, post. split; [exact Hs | exact Hpre].
Qed.

(** ** Secrets whose value begins like a boolean *)

(** X19.  The two Password patterns exclude every value that begins with True or
    False, not only the two booleans: in a document whose only candidate is
    the attribute Password with such a value (the value may go on after
    [cand]), the rule finds nothing and sets Secrets = PASS. *)
Theorem secrets_boolean_prefix_not_reported
  (pre post cand : string) (Result : ValidationResult) :
  In cand [Password_True; Password_False] ->
  only_candidate pre cand post ->
  Test_SecretsDetection (pre +:+ cand +:+ post) Result = set_compliance "Secrets" PASS Result.
Proof.
  intros Hcand Honly. unfold Test_SecretsDetection.
  rewrite (no_secret_found pre cand post); [reflexivity | | exact Honly].
  destruct Hcand as [<- | [<- | []]]; vm_compute; reflexivity.
Qed.

(** The password Truestory2024! of a GetPassword activity. *)
Lemma secrets_boolean_prefix_not_reported_witness :
  Test_SecretsDetection
    (secret_before EmptyString +:+ Password_True +:+ (qq "story2024!'" +:+ secret_after))
    (empty_result "Main.xaml")
  = set_compliance "Secrets" PASS (empty_result "Main.xaml").
Proof.
  apply (secrets_boolean_prefix_not_reported (secret_before EmptyString)
           (qq "story2024!'" +:+ secret_after) Password_True (empty_result "Main.xaml")).
  - left. reflexivity.
  - split; apply no_secret_at_check; vm_compute; reflexivity.
Defined.

(** ** Common namespaces *)




(** ** IdRef as attribute and as child element (HR-503) *)

Lemma ht_ContainsKey_fold {A V : Type} (K : A -> string) (W : A -> V) (l : list A)
  (h : gmap string (string * V)) (q : string) :
  ht_ContainsKey (fold_left (fun h m => ht_set h (K m) (W m)) l h) q
  = ps_contains (map K l) q || ht_ContainsKey h q.
Proof.
  revert h. induction l as [|m l IH]; intros h; [reflexivity |].
  cbn [fold_left map]. rewrite IH, ht_ContainsKey_set, ps_contains_cons.
  destruct (ps_contains (map K l) q), (eq_ci (K m) q); reflexivity.
Qed.

(** X21.  Test-HR503-IdRefDualDeclaration, on IdRefs of printable ASCII
    characters.  Without an IdRef in element syntax the rule passes.  With
    one, it fails - one ERROR - as soon as the trimmed text of some element
    equals an IdRef given as an attribute anywhere in the document, letter
    case ignored; when no element does, the element syntax alone earns WARN
    and one WARNING. *)
Theorem HR503_element_syntax (Content : string) (Result : ValidationResult) :
  let attributes := map (Group 1) (regex_Matches idrefPattern Content) in
  let elements :=
    map (fun m => Trim (Group 1 m)) (regex_Matches Rules.elemPattern Content) in
  forallb printable (attributes ++ elements) = true ->
  let after := Rules.Test_HR503_IdRefDualDeclaration Content Result in
  let dual :=
    exists value attribute, In value elements /\ In attribute attributes
                            /\ lower attribute = lower value in
  (elements = [] -> after = set_compliance "HR-503" PASS Result)
  /\ (elements <> [] -> ~ dual ->
      after = set_compliance "HR-503" WARN
                (add_issue (new_issue "HR-503" WARNING
                              "IdRef uses element syntax (<sap2010:WorkflowViewState.IdRef>). Prefer attribute syntax for consistency.")
                           Result))
  /\ (dual ->
      compliance after "HR-503" = Some FAIL
      /\ exists message, Issues after = Issues Result ++ [new_issue "HR-503" ERROR message]).
Proof.
  intros attributes elements _ after dual.
  assert (Hdual : (0 <? length (Rules.dualDeclarations Content)) = true <-> dual).
  { unfold Rules.dualDeclarations. fold elements. rewrite filter_exists. unfold dual.
    split.
    - intros [value [Hvalue Hkey]]. unfold Rules.attrValues in Hkey.
      rewrite (ht_ContainsKey_fold (Group 1) (fun _ => true)) in Hkey.
      rewrite orb_false_r in Hkey. apply ps_contains_true in Hkey.
      destruct Hkey as [attribute [Hattr Heq]]. exists value, attribute.
      split; [exact Hvalue |]. split; assumption.
    - intros [value [attribute [Hvalue [Hattr Heq]]]]. exists value.
      split; [exact Hvalue |]. unfold Rules.attrValues.
      rewrite (ht_ContainsKey_fold (Group 1) (fun _ => true)), orb_false_r.
      apply ps_contains_true. exists attribute. split; assumption. }
  assert (Hlen : length (regex_Matches Rules.elemPattern Content) = length elements).
  { unfold elements. rewrite length_map. reflexivity. }
  unfold after, Rules.Test_HR503_IdRefDualDeclaration. cbv zeta. rewrite Hlen.
  destruct (0 <? length (Rules.dualDeclarations Content)) eqn:Hd.
  - assert (Hyes : dual) by (apply Hdual; reflexivity).
    assert (Hpos : (length (Rules.dualDeclarations Content) =? 0) = false).
    { apply Nat.ltb_lt in Hd. apply Nat.eqb_neq. lia. }
    rewrite Hpos, andb_false_r.
    split.
    { intros Hnil. exfalso. destruct Hyes as [value [_ [Hvalue _]]].
      rewrite Hnil in Hvalue. destruct Hvalue. }
    split; [tauto |]. intros _. split; [apply compliance_set | eexists; reflexivity].
  - assert (Hno : ~ dual) by (rewrite <- Hdual; discriminate).
    assert (Hzero : (length (Rules.dualDeclarations Content) =? 0) = true).
    { apply Nat.ltb_ge in Hd. apply Nat.eqb_eq. lia. }
    rewrite Hzero, andb_true_r. split; [| split; [| tauto]].
    + intros ->. reflexivity.
    + intros Hne _. destruct elements; [contradiction | reflexivity].
Qed.

(** An IdRef in element syntax and none as attribute. *)
Lemma HR503_element_syntax_witness :
  compliance
    (Rules.Test_HR503_IdRefDualDeclaration
       (workflow "<Sequence><sap2010:WorkflowViewState.IdRef>Sequence_1</sap2010:WorkflowViewState.IdRef></Sequence>")
       (empty_result "Main.xaml")) "HR-503"
  = Some WARN.
Proof.
  rewrite (proj1 (proj2 (HR503_element_syntax
             (workflow "<Sequence><sap2010:WorkflowViewState.IdRef>Sequence_1</sap2010:WorkflowViewState.IdRef></Sequence>")
             (empty_result "Main.xaml") eq_refl))).
  - apply compliance_set.
  - vm_compute. discriminate.
  - vm_compute. intros [value [attribute [_ [[] _]]]].
Defined.

(** ** The exclusion of selector bodies in Test-DoubleEncoding *)







Lemma line_feed_white_space :
  forallb is_white_space (list_ascii_of_string (String line_feed EmptyString)) = true.
Proof. reflexivity. Qed.




